(** * granola-to-markdown: a shallow embedding of [sync.py]

    The development follows the layout of the source file: the Tiptap
    renderer, the extraction helpers, the formatting functions and the
    incremental [sync] loop, then the properties proved about them.

    Conventions of the embedding.
    - A Python [str] is a [string]; the text is taken to be 7-bit ASCII
      (the character classes [\w] and [\s] and [str.lower] are the ASCII
      restrictions of Python's; a byte above 127 is neither a word
      character nor a space and is left alone by [lower]).
    - A dict that the source iterates over is an association list in
      insertion order ([dict]); a dict that is only looked up is a [gmap].
    - A JSON object with optional keys is a record of [option] fields;
      [d.get(k, default)] is [default default (field d)].
    - Library calls whose behaviour is not part of this repository
      ([datetime.fromisoformat], [strftime], [datetime.now]) are the
      operations of the class [Datetime]. *)

From Stdlib Require Import Ascii ZArith Lia Bool.
From stdpp Require Import base option list gmap strings pretty sorting.

Set Warnings "-register-all".

(* ------------------------------------------------------------------ *)
(** * Python string primitives                                         *)
(* ------------------------------------------------------------------ *)

Module PyStr.

Definition nl_char : ascii := "010"%char.
Definition dquote_char : ascii := "034"%char.
Definition nl : string := String nl_char "".
Definition dquote : string := String dquote_char "".

(** [c.isspace()] on ASCII; also the class [\s] of [re] on [str]. *)
Definition is_space (c : ascii) : bool :=
  let n := nat_of_ascii c in
  ((9 <=? n) && (n <=? 13)) || ((28 <=? n) && (n <=? 32)).

(** The class [\w] of [re] on ASCII text. *)
Definition is_word (c : ascii) : bool :=
  let n := nat_of_ascii c in
  ((48 <=? n) && (n <=? 57)) || ((65 <=? n) && (n <=? 90))
  || ((97 <=? n) && (n <=? 122)) || (n =? 95).

Definition lower_char (c : ascii) : ascii :=
  let n := nat_of_ascii c in
  if (65 <=? n) && (n <=? 90) then ascii_of_nat (n + 32) else c.

Definition is_char (a : ascii) (c : ascii) : bool :=
  if ascii_dec a c then true else false.

Fixpoint str_map (f : ascii -> ascii) (s : string) : string :=
  match s with
  | "" => ""
  | String c s' => String (f c) (str_map f s')
  end.

Fixpoint str_filter (p : ascii -> bool) (s : string) : string :=
  match s with
  | "" => ""
  | String c s' => if p c then String c (str_filter p s') else str_filter p s'
  end.

Fixpoint str_existsb (p : ascii -> bool) (s : string) : bool :=
  match s with
  | "" => false
  | String c s' => p c || str_existsb p s'
  end.

(** [s.lower()] *)
Definition lower (s : string) : string := str_map lower_char s.

Fixpoint lstrip_by (p : ascii -> bool) (s : string) : string :=
  match s with
  | "" => ""
  | String c s' => if p c then lstrip_by p s' else s
  end.

Fixpoint rstrip_by (p : ascii -> bool) (s : string) : string :=
  match s with
  | "" => ""
  | String c s' =>
      match rstrip_by p s' with
      | "" => if p c then "" else String c ""
      | r => String c r
      end
  end.

Definition strip_by (p : ascii -> bool) (s : string) : string :=
  rstrip_by p (lstrip_by p s).

(** [s.strip()] *)
Definition strip (s : string) : string := strip_by is_space s.

(** [s[:n]] *)
Fixpoint str_take (n : nat) (s : string) : string :=
  match n, s with
  | S k, String c s' => String c (str_take k s')
  | _, _ => ""
  end.

(** [sep.join(l)] *)
Fixpoint join (sep : string) (l : list string) : string :=
  match l with
  | [] => ""
  | [x] => x
  | x :: r => x +:+ sep +:+ join sep r
  end.

(** ["".join(l)] *)
Definition concat (l : list string) : string := join "" l.

(** [s.split(c)] for a one-character separator; never the empty list. *)
Fixpoint split (sep : ascii) (s : string) : list string :=
  match s with
  | "" => [""]
  | String c s' =>
      if is_char sep c then "" :: split sep s'
      else match split sep s' with
           | h :: t => String c h :: t
           | [] => [String c ""]
           end
  end.

(** [s * n] *)
Fixpoint repeat_str (s : string) (n : nat) : string :=
  match n with
  | O => ""
  | S k => s +:+ repeat_str s k
  end.

(** [s.replace(old, new)] for a one-character [old]. *)
Fixpoint replace_char (old : ascii) (new : string) (s : string) : string :=
  match s with
  | "" => ""
  | String c s' =>
      if is_char old c then new +:+ replace_char old new s'
      else String c (replace_char old new s')
  end.

(** [re.sub(cls + "+", rep, s)]: every maximal run of characters of the
    class [p] becomes one [rep]. [in_run] says that the previous
    character belonged to a run that was already replaced. *)
Fixpoint sub_runs (p : ascii -> bool) (rep : string) (in_run : bool)
         (s : string) : string :=
  match s with
  | "" => ""
  | String c s' =>
      if p c then
        if in_run then sub_runs p rep true s'
        else rep +:+ sub_runs p rep true s'
      else String c (sub_runs p rep false s')
  end.

(** Truthiness of a [str]. *)
Definition nonempty (s : string) : bool :=
  match s with "" => false | _ => true end.

(** [x or y] on strings. *)
Definition or_else (s d : string) : string := if nonempty s then s else d.

End PyStr.

Import PyStr.

(* ------------------------------------------------------------------ *)
(** * Tiptap JSON -> Markdown converter                                *)
(* ------------------------------------------------------------------ *)

(** One mark of a text node: [{"type": .., "attrs": {"href": ..}}]. *)
Record mark := Mark {
  mark_type : string;           (* mark.get("type", "") *)
  mark_href : option string     (* mark.get("attrs", {}).get("href") *)
}.

(** A Tiptap node. Absent keys are stored as what [.get] defaults them to,
    except for the two attributes, which keep their absence. *)
Inductive node : Type :=
  Node (ntype : string)               (* node.get("type", "") *)
       (content : list node)          (* node.get("content", []) *)
       (level : option Z)             (* attrs.get("level") *)
       (language : option string)     (* attrs.get("language") *)
       (text : string)                (* node.get("text", "") *)
       (marks : list mark).           (* node.get("marks", []) *)

Definition node_type (n : node) : string :=
  match n with Node t _ _ _ _ _ => t end.

(** The body of the [for mark in marks] loop. *)
Definition apply_mark (text : string) (m : mark) : string :=
  let mtype := mark_type m in
  if String.eqb mtype "bold" then "**" +:+ text +:+ "**"
  else if String.eqb mtype "italic" then "*" +:+ text +:+ "*"
  else if String.eqb mtype "link" then
    let href := default "" (mark_href m) in
    "[" +:+ text +:+ "](" +:+ href +:+ ")"
  else if String.eqb mtype "code" then "`" +:+ text +:+ "`"
  else text.

Definition is_list_node (c : node) : bool :=
  String.eqb (node_type c) "bulletList" || String.eqb (node_type c) "orderedList".

(** [tiptap_to_markdown(node, indent, ordered_num)] for a node that is not
    [None]. In the [listItem] case the source first partitions the children
    into [parts] and [sub_lists] and then renders each group; here the two
    traversals test the child while rendering, which visits the same
    children in the same order. *)
Fixpoint tiptap_node (n : node) (indent : nat) (ordered_num : option nat)
  {struct n} : string :=
  match n with
  | Node ntype content level language text marks =>
    if String.eqb ntype "doc" then
      strip (join nl (map (fun c => tiptap_node c 0 None) content))
    else if String.eqb ntype "heading" then
      let level := default 1%Z level in
      let text := concat (map (fun c => tiptap_node c 0 None) content) in
      nl +:+ repeat_str "#" (Z.to_nat level) +:+ " " +:+ text +:+ nl
    else if String.eqb ntype "paragraph" then
      let text := concat (map (fun c => tiptap_node c 0 None) content) in
      if 0 <? indent then text else nl +:+ text +:+ nl
    else if String.eqb ntype "bulletList" then
      join nl (map (fun item => tiptap_node item indent None) content)
    else if String.eqb ntype "orderedList" then
      join nl ((fix items (i : nat) (l : list node) : list string :=
                  match l with
                  | [] => []
                  | item :: r => tiptap_node item indent (Some i) :: items (S i) r
                  end) 1 content)
    else if String.eqb ntype "listItem" then
      let prefix := repeat_str "  " indent in
      let marker :=
        match ordered_num with
        | Some (S k) => pretty (S k) +:+ "."
        | _ => "-"
        end in
      let text :=
        strip (concat (map (fun c => if is_list_node c then ""
                                     else tiptap_node c indent None) content)) in
      let result := prefix +:+ marker +:+ " " +:+ text in
      result +:+
      concat (map (fun sl => if is_list_node sl
                             then nl +:+ tiptap_node sl (S indent) None
                             else "") content)
    else if String.eqb ntype "text" then
      fold_left apply_mark marks text
    else if String.eqb ntype "horizontalRule" then
      nl +:+ "---" +:+ nl
    else if String.eqb ntype "hardBreak" then
      nl
    else if String.eqb ntype "codeBlock" then
      let text := concat (map (fun c => tiptap_node c 0 None) content) in
      let lang := default "" language in
      nl +:+ "```" +:+ lang +:+ nl +:+ text +:+ nl +:+ "```" +:+ nl
    else if String.eqb ntype "blockquote" then
      let text := concat (map (fun c => tiptap_node c 0 None) content) in
      nl +:+ join nl (map (fun line => "> " +:+ line) (split nl_char (strip text)))
         +:+ nl
    else
      concat (map (fun c => tiptap_node c indent None) content)
  end.

(** [tiptap_to_markdown(node, indent=0, ordered_num=None)] *)
Definition tiptap_to_markdown (n : option node) (indent : nat)
           (ordered_num : option nat) : string :=
  match n with
  | None => ""
  | Some n => tiptap_node n indent ordered_num
  end.

(* ------------------------------------------------------------------ *)
(** * Data extraction helpers                                          *)
(* ------------------------------------------------------------------ *)

Definition slug_keep (c : ascii) : bool :=
  is_word c || is_space c || is_char "-" c.

Definition space_or_underscore (c : ascii) : bool :=
  is_space c || is_char "_" c.

(** [slugify(text)] *)
Definition slugify (text : string) : string :=
  let text := strip (lower text) in
  let text := str_filter slug_keep text in             (* [^\w\s-] -> "" *)
  let text := sub_runs space_or_underscore "-" false text in  (* [\s_]+ -> "-" *)
  let text := sub_runs (is_char "-") "-" false text in (* -+ -> "-" *)
  str_take 80 (strip_by (is_char "-") text).

(** ** Ordered dictionaries

    A Python dict that is iterated over: the pairs in insertion order.
    [d[k] = v] keeps the position of a key that is already present. *)

Abbreviation dict V := (list (string * V)) (only parsing).

Fixpoint dict_get {V} (k : string) (d : dict V) : option V :=
  match d with
  | [] => None
  | (k', v) :: r => if decide (k' = k) then Some v else dict_get k r
  end.

Fixpoint dict_set {V} (k : string) (v : V) (d : dict V) : dict V :=
  match d with
  | [] => [(k, v)]
  | (k', v') :: r =>
      if decide (k' = k) then (k, v) :: r else (k', v') :: dict_set k v r
  end.

(** [k in d] *)
Definition dict_mem {V} (k : string) (d : dict V) : bool :=
  match dict_get k d with Some _ => true | None => false end.

Definition dict_keys {V} (d : dict V) : list string := fst <$> d.

(** ** Dates and times

    The operations of Python's [datetime] that the program calls. *)

Class Datetime := {
  datetime : Type;
  (** [datetime.fromisoformat(s)], [None] where it raises [ValueError] *)
  fromisoformat : string -> option datetime;
  (** [datetime.now()] *)
  now : datetime;
  (** [dt.strftime("%Y-%m-%d")] *)
  strftime_ymd : datetime -> string;
  (** [dt.strftime("%H:%M")] *)
  strftime_hm : datetime -> string;
  (** [dt.strftime("%H:%M:%S")] *)
  strftime_hms : datetime -> string;
  (** [dt.tzinfo is not None]: the datetime carries a UTC offset *)
  aware : datetime -> bool;
  (** [int((end_dt - start_dt).total_seconds() / 60)], for two datetimes
      that are both aware or both naive. For a mixed pair the
      subtraction raises [TypeError]; the embedding does not follow that
      exception, and what is stated about a duration is stated for the
      documents of [subtraction_defined]. *)
  minutes_between : datetime -> datetime -> Z
}.

(** ** Regular-expression substitution

    A pattern is given by the length of its match at the head of a string.
    [re_sub m rep 0 s] is [re.sub(pattern, rep, s)] for a pattern that
    never matches the empty string: matches are found left to right and
    do not overlap; [skip] counts the characters of the current match
    still to be dropped. *)

Definition matcher : Type := string -> option nat.

Fixpoint re_sub (m : matcher) (rep : string) (skip : nat) (s : string) : string :=
  match s with
  | "" => ""
  | String c s' =>
      match skip with
      | S k => re_sub m rep k s'
      | O =>
          match m s with
          | Some (S n) => rep +:+ re_sub m rep n s'
          | _ => String c (re_sub m rep 0 s')
          end
      end
  end.

Fixpoint str_drop (n : nat) (s : string) : string :=
  match n, s with
  | S k, String _ s' => str_drop k s'
  | _, _ => s
  end.

(** Index of the first occurrence of [c]. *)
Fixpoint find_char (c : ascii) (s : string) : option nat :=
  match s with
  | "" => None
  | String a s' => if is_char c a then Some 0 else S <$> find_char c s'
  end.

(** A literal. *)
Definition m_lit (p : string) : matcher := fun s =>
  if String.prefix p s then Some (String.length p) else None.

(** [p[^>]*>]: a literal, then everything up to the next [>]. *)
Definition m_open_tag (p : string) : matcher := fun s =>
  if String.prefix p s then
    (fun i => String.length p + i + 1) <$> find_char ">" (str_drop (String.length p) s)
  else None.

Definition is_h_digit (c : ascii) : bool :=
  let n := nat_of_ascii c in (49 <=? n) && (n <=? 54).

(** [<h[1-6][^>]*>] *)
Definition m_h_open : matcher := fun s =>
  match s with
  | String "<" (String "h" (String d r)) =>
      if is_h_digit d then (fun i => 3 + i + 1) <$> find_char ">" r else None
  | _ => None
  end.

(** [</h[1-6]>] *)
Definition m_h_close : matcher := fun s =>
  match s with
  | String "<" (String "/" (String "h" (String d (String ">" _)))) =>
      if is_h_digit d then Some 5 else None
  | _ => None
  end.

(** [<[^>]+>] *)
Definition m_any_tag : matcher := fun s =>
  match s with
  | String "<" r =>
      match find_char ">" r with
      | Some (S i) => Some (1 + S i + 1)
      | _ => None
      end
  | _ => None
  end.

Fixpoint count_leading (c : ascii) (s : string) : nat :=
  match s with
  | String a s' => if is_char c a then S (count_leading c s') else 0
  | "" => 0
  end.

(** [\n{3,}] *)
Definition m_blank_lines : matcher := fun s =>
  let n := count_leading nl_char s in
  if 3 <=? n then Some n else None.

(** [html_to_basic_markdown(html)] *)
Definition html_to_basic_markdown (html : string) : string :=
  let text := html in
  let text := re_sub m_h_open (nl +:+ "### ") 0 text in
  let text := re_sub m_h_close nl 0 text in
  let text := re_sub (m_open_tag "<li") "- " 0 text in
  let text := re_sub (m_lit "</li>") nl 0 text in
  let text := re_sub (m_open_tag "<p") nl 0 text in
  let text := re_sub (m_lit "</p>") nl 0 text in
  let text := re_sub (m_lit "<strong>") "**" 0 text in
  let text := re_sub (m_lit "</strong>") "**" 0 text in
  let text := re_sub (m_lit "<em>") "*" 0 text in
  let text := re_sub (m_lit "</em>") "*" 0 text in
  let text := re_sub m_any_tag "" 0 text in
  let text := re_sub m_blank_lines (nl +:+ nl) 0 text in
  strip text.

(** ** The raw cache records *)

(** An attendee or the creator: [{"name", "details": {"person": {"name":
    {"fullName"}}}, "email"}]. *)
Record raw_attendee := RawAttendee {
  att_name : option string;
  att_full_name : option string;
  att_email : option string
}.

(** [doc["people"]]; [None] for [creator] stands for an absent, null or
    empty value, which the source treats alike. *)
Record people := People {
  creator : option raw_attendee;
  attendees : list raw_attendee       (* people.get("attendees", []) *)
}.

(** [doc["google_calendar_event"]], reduced to the two keys that are read:
    [start.dateTime] and [end.dateTime]. *)
Record calendar_event := CalendarEvent {
  start_dateTime : option string;
  end_dateTime : option string
}.

(** One document of the cache. [doc_notes = None] stands for an absent,
    null or empty [notes] tree. *)
Record document := Document {
  doc_id : string;                                     (* doc["id"] *)
  doc_title : option string;
  doc_google_calendar_event : option calendar_event;
  doc_created_at : option string;
  doc_people : option people;
  doc_notes_markdown : option string;
  doc_notes : option node;
  doc_updated_at : option string;
  doc_deleted_at : option string;
  doc_was_trashed : option bool
}.

(** One panel of [documentPanels]. [panel_content] is [Some] exactly when
    the value under ["content"] is a non-empty dict. *)
Record panel := Panel {
  panel_content : option node;
  panel_original_content : option string
}.

Record attendee := Attendee {
  a_name : string;
  a_email : string
}.

(** The dict built by [extract_meeting_data]. *)
Record meeting := Meeting {
  m_id : string;
  m_title : string;
  m_date : string;
  m_time : string;
  m_duration_minutes : option Z;
  m_attendees : list attendee;
  m_folders : list string;
  m_notes : string;
  m_summary : string;
  m_updated_at : string
}.

(** Truthiness of an optional string: present and not empty. *)
Definition truthy (o : option string) : bool :=
  match o with Some s => nonempty s | None => false end.

Section Extraction.
Context `{Datetime}.

(** [parse_datetime(dt_string)] *)
Definition parse_datetime (dt_string : option string) : option datetime :=
  match dt_string with
  | Some s => if nonempty s then fromisoformat s else None
  | None => None
  end.

(** [get_attendee_name(attendee)] *)
Definition get_attendee_name (attendee : raw_attendee) : string :=
  if truthy (att_name attendee) then default "" (att_name attendee)
  else if truthy (att_full_name attendee) then default "" (att_full_name attendee)
  else default "Unknown" (att_email attendee).

Definition make_attendee (a : raw_attendee) : attendee :=
  {| a_name := get_attendee_name a; a_email := default "" (att_email a) |}.

(** The loop over [doc_panels.items()], with its [break]. *)
Fixpoint summary_of_panels (doc_panels : dict panel) (summary_md : string)
  : string :=
  match doc_panels with
  | [] => summary_md
  | (_, panel) :: rest =>
      match panel_content panel with
      | Some panel_content => strip (tiptap_to_markdown (Some panel_content) 0 None)
      | None =>
          let html := default "" (panel_original_content panel) in
          if nonempty html && negb (nonempty summary_md)
          then summary_of_panels rest (html_to_basic_markdown html)
          else summary_of_panels rest summary_md
      end
  end.

(** [extract_meeting_data(doc, panels, folders)] *)
Definition extract_meeting_data (doc : document) (panels : dict (dict panel))
           (folders : option (list string)) : meeting :=
  let doc_id := doc_id doc in
  let title := default "Untitled Meeting" (doc_title doc) in
  let cal_event := doc_google_calendar_event doc in
  let '(start_dt, duration_minutes) :=
    match cal_event with
    | Some ev =>
        if truthy (start_dateTime ev) then
          let start_dt := parse_datetime (start_dateTime ev) in
          let end_dt := parse_datetime (end_dateTime ev) in
          match start_dt, end_dt with
          | Some s, Some e => (start_dt, Some (minutes_between s e))
          | _, _ => (start_dt, None)
          end
        else (parse_datetime (doc_created_at doc), None)
    | None => (parse_datetime (doc_created_at doc), None)
    end in
  let start_dt := default now start_dt in
  let date_str := strftime_ymd start_dt in
  let time_str := strftime_hm start_dt in
  let people := default (People None []) (doc_people doc) in
  let attendees :=
    match creator people with
    | Some c => [make_attendee c]
    | None => []
    end ++ map make_attendee (attendees people) in
  let notes_md := default "" (doc_notes_markdown doc) in
  let notes_md :=
    if negb (nonempty notes_md) then
      match doc_notes doc with
      | Some n => tiptap_to_markdown (Some n) 0 None
      | None => notes_md
      end
    else notes_md in
  let notes_md := strip notes_md in
  let doc_panels := default [] (dict_get doc_id panels) in
  let summary_md := summary_of_panels doc_panels "" in
  {| m_id := doc_id;
     m_title := title;
     m_date := date_str;
     m_time := time_str;
     m_duration_minutes := duration_minutes;
     m_attendees := attendees;
     m_folders := default [] folders;
     m_notes := notes_md;
     m_summary := summary_md;
     m_updated_at := default "" (doc_updated_at doc) |}.

End Extraction.

(** The characters that make [yaml_escape] quote a value. *)
Definition yaml_special (c : ascii) : bool :=
  str_existsb (is_char c) ":#{}[]|>&*!%@`'\," || is_char dquote_char c
  || is_char nl_char c.

(** [yaml_escape(value)] for a string. *)
Definition yaml_escape (value : string) : string :=
  if str_existsb yaml_special value then
    let escaped :=
      replace_char dquote_char ("\" +:+ dquote) (replace_char "\" "\\" value) in
    dquote +:+ escaped +:+ dquote
  else if negb (nonempty value) then dquote +:+ dquote
  else value.

(** One element of a transcript list. *)
Record utterance := Utterance {
  utt_source : option string;
  utt_text : option string;
  utt_start_timestamp : option string
}.

Section Formatting.
Context `{Datetime}.

(** The state of the loop of [format_transcript] is [lines] and
    [current_speaker]; this is one iteration. *)
Definition format_utterance (st : list string * option string) (utt : utterance)
  : list string * option string :=
  let '(lines, current_speaker) := st in
  let speaker :=
    if decide (utt_source utt = Some "microphone") then "You" else "Other" in
  let text := strip (default "" (utt_text utt)) in
  if negb (nonempty text) then st
  else
    let ts := default "" (utt_start_timestamp utt) in
    let time_str :=
      if nonempty ts then
        match parse_datetime (Some ts) with
        | Some dt => "[" +:+ strftime_hms dt +:+ "] "
        | None => ""
        end
      else "" in
    if decide (Some speaker = current_speaker)
    then (lines ++ [time_str +:+ text], current_speaker)
    else (lines ++ [nl +:+ "**" +:+ speaker +:+ ":** " +:+ time_str +:+ text],
          Some speaker).

(** [format_transcript(utterances)] *)
Definition format_transcript (utterances : list utterance) : string :=
  let '(lines, _) := fold_left format_utterance utterances ([], None) in
  strip (join nl lines).

End Formatting.

(** [build_markdown(data)] *)
Definition build_markdown (data : meeting) : string :=
  let lines := ["---"] in
  let lines := lines ++ ["title: " +:+ yaml_escape (m_title data)] in
  let lines := lines ++ ["date: " +:+ m_date data] in
  let lines := lines ++ ["time: " +:+ dquote +:+ m_time data +:+ dquote] in
  let lines :=
    match m_duration_minutes data with
    | Some d => lines ++ ["duration_minutes: " +:+ pretty d]
    | None => lines
    end in
  let lines :=
    match m_attendees data with
    | [] => lines
    | atts =>
        lines ++ ["attendees:"]
          ++ flat_map (fun att => ["  - name: " +:+ yaml_escape (a_name att);
                                   "    email: " +:+ a_email att]) atts
    end in
  let lines :=
    match m_folders data with
    | [] => lines
    | folders =>
        lines ++ ["folders:"] ++ map (fun folder => "  - " +:+ yaml_escape folder) folders
    end in
  let lines := lines ++ ["type: meeting"] in
  let lines := lines ++ ["granola_id: " +:+ m_id data] in
  let lines := lines ++ ["updated_at: " +:+ dquote +:+ m_updated_at data +:+ dquote] in
  let lines := lines ++ ["---"] in
  let lines := lines ++ [""] in
  let lines := lines ++ ["# " +:+ m_title data] in
  let lines := lines ++ [""] in
  let lines :=
    if nonempty (m_notes data)
    then lines ++ ["## Notes"; ""; m_notes data; ""] else lines in
  let lines :=
    if nonempty (m_summary data)
    then lines ++ ["## Summary"; ""; m_summary data; ""] else lines in
  join nl lines.

(* ------------------------------------------------------------------ *)
(** * Sync logic                                                       *)
(* ------------------------------------------------------------------ *)

(** One value of [.sync-state.json]:
    [{"updated_at", "filename", "transcript_saved", "transcript_filename"}],
    every key optional. *)
Record entry := Entry {
  e_updated_at : option string;
  e_filename : option string;
  e_transcript_saved : option bool;
  e_transcript_filename : option string
}.

Global Instance entry_eq_dec : EqDecision entry.
Proof. solve_decision. Defined.

(** The empty dict [{}], the default of [sync_state.get(doc_id, {})]. *)
Definition empty_entry : entry := Entry None None None None.

(** Truthiness of an entry: a dict is falsy exactly when it is empty. *)
Definition entry_truthy (e : entry) : bool := negb (bool_decide (e = empty_entry)).

(** [prev.get("transcript_saved")] taken as a condition. *)
Definition transcript_saved (e : entry) : bool := default false (e_transcript_saved e).

(** The output directory: the regular files in it, by name, with their
    content, and the state file [.sync-state.json], kept apart. File names
    are plain names inside the directory. *)
Record world := World {
  files : gmap string string;
  state_file : option (dict entry)
}.

(** [load_sync_state(output_dir)] *)
Definition load_sync_state (w : world) : dict entry := default [] (state_file w).

(** [os.path.exists(os.path.join(output_dir, name))]. The empty name
    joins to the output directory itself, which [os.makedirs] has created. *)
Definition path_exists (fs : gmap string string) (name : string) : bool :=
  if decide (name = "") then true
  else match fs !! name with Some _ => true | None => false end.

Inductive exn : Type :=
  | OSError (path : string)      (* os.remove on a directory *)
  | KeyError (key : string).

Inductive result (A : Type) : Type :=
  | Ok (a : A)
  | Raise (e : exn) (a : A).     (* the state reached when [e] was raised *)
Arguments Ok {A} a.
Arguments Raise {A} e a.

(** [os.remove(os.path.join(output_dir, name))] for a path that exists. *)
Definition os_remove (fs : gmap string string) (name : string)
  : result (gmap string string) :=
  if decide (name = "") then Raise (OSError name) fs else Ok (delete name fs).

(** What a run does to the output directory, in order. In a dry run these
    are the actions announced by the [Would ...] messages. Each action
    carries the id of the document it is done for. *)
Inductive action : Type :=
  | RemoveOld (doc_id old_filename : string)
  | WriteDoc (doc_id filename content : string)
  | SaveTranscript (doc_id transcript_filename content : string)
  | RemoveOrphan (doc_id filename : string).

Global Instance action_eq_dec : EqDecision action.
Proof. solve_decision. Defined.

Definition is_delete (a : action) : bool :=
  match a with RemoveOld _ _ | RemoveOrphan _ _ => true | _ => false end.

Definition is_write (a : action) : bool :=
  match a with WriteDoc _ _ _ | SaveTranscript _ _ _ => true | _ => false end.

(** The file an action writes or removes. *)
Definition target (a : action) : string :=
  match a with
  | RemoveOld _ f | WriteDoc _ f _ | SaveTranscript _ f _ | RemoveOrphan _ f => f
  end.

(** The local variables of [sync] that its loops update, with the
    directory content and the actions done so far. *)
Record run := Run {
  fs : gmap string string;
  actions : list action;
  new_sync_state : dict entry;
  created : nat;
  updated : nat;
  skipped : nat;
  transcripts_saved : nat;
  removed : nat
}.

Definition init_run (fs : gmap string string) : run := Run fs [] [] 0 0 0 0 0.

Definition set_fs (f : gmap string string) (st : run) : run :=
  Run f (actions st) (new_sync_state st) (created st) (updated st) (skipped st)
      (transcripts_saved st) (removed st).

Definition emit (a : action) (st : run) : run :=
  Run (fs st) (actions st ++ [a]) (new_sync_state st) (created st) (updated st)
      (skipped st) (transcripts_saved st) (removed st).

Definition set_entry (doc_id : string) (e : entry) (st : run) : run :=
  Run (fs st) (actions st) (dict_set doc_id e (new_sync_state st)) (created st)
      (updated st) (skipped st) (transcripts_saved st) (removed st).

Definition incr_created (st : run) : run :=
  Run (fs st) (actions st) (new_sync_state st) (S (created st)) (updated st)
      (skipped st) (transcripts_saved st) (removed st).

Definition incr_updated (st : run) : run :=
  Run (fs st) (actions st) (new_sync_state st) (created st) (S (updated st))
      (skipped st) (transcripts_saved st) (removed st).

Definition incr_skipped (st : run) : run :=
  Run (fs st) (actions st) (new_sync_state st) (created st) (updated st)
      (S (skipped st)) (transcripts_saved st) (removed st).

Definition incr_transcripts_saved (st : run) : run :=
  Run (fs st) (actions st) (new_sync_state st) (created st) (updated st)
      (skipped st) (S (transcripts_saved st)) (removed st).

Definition incr_removed (st : run) : run :=
  Run (fs st) (actions st) (new_sync_state st) (created st) (updated st)
      (skipped st) (transcripts_saved st) (S (removed st)).

(** ** Filename assignment *)

(** [slugify(data["title"]) or "untitled"] *)
Definition slug_of (data : meeting) : string :=
  or_else (slugify (m_title data)) "untitled".

(** [f"{data['date']}_{slug}"] *)
Definition base_of (data : meeting) : string :=
  m_date data +:+ "_" +:+ slug_of data.

(** [f"{base}.md"] *)
Definition orig_filename (data : meeting) : string := base_of data +:+ ".md".

(** [f"{base}_{doc_id[:8]}.md"] *)
Definition suffixed_filename (doc_id : string) (data : meeting) : string :=
  base_of data +:+ "_" +:+ str_take 8 doc_id +:+ ".md".

(** The first loop: [filenames] and [filename_counts] after one more
    document. *)
Definition assign_first (acc : gmap string string * gmap string nat)
           (item : string * meeting) : gmap string string * gmap string nat :=
  let '(filenames, filename_counts) := acc in
  let '(doc_id, data) := item in
  let filename := orig_filename data in
  match filename_counts !! filename with
  | Some n =>
      (<[doc_id := suffixed_filename doc_id data]> filenames,
       <[filename := S n]> filename_counts)
  | None =>
      (<[doc_id := filename]> filenames, <[filename := 1]> filename_counts)
  end.

(** The second loop ("Handle collisions for the first occurrence too"). *)
Definition assign_second (filename_counts : gmap string nat)
           (filenames : gmap string string) (item : string * meeting)
  : gmap string string :=
  let '(doc_id, data) := item in
  let orig := orig_filename data in
  if (1 <? default 0 (filename_counts !! orig))
     && bool_decide (filenames !! doc_id = Some orig)
  then <[doc_id := suffixed_filename doc_id data]> filenames
  else filenames.

Definition assign_filenames (all_data : dict meeting) : gmap string string :=
  let '(filenames, filename_counts) := fold_left assign_first all_data (∅, ∅) in
  fold_left (assign_second filename_counts) all_data filenames.

(** How many records of [all_data] compute the base name [f] (with its
    [.md]). *)
Definition sharing (f : string) (all_data : dict meeting) : nat :=
  length (filter (fun item => orig_filename item.2 = f) all_data).

(** The file [f] is in the directory, or an action of the run has removed
    it. *)
Definition present_or_removed (f : string) (fs : gmap string string)
           (acts : list action) : Prop :=
  path_exists fs f = true
  \/ exists a, a ∈ acts /\ is_delete a = true /\ target a = f.

(** An action that removes a file removes the [filename] recorded by an
    entry of [sync_state]. *)
Definition removes_recorded (sync_state : dict entry) (a : action) : Prop :=
  is_delete a = true ->
  exists doc_id e, (doc_id, e) ∈ sync_state /\ e_filename e = Some (target a).

(** The entry of a record carries the version token of the record. *)
Definition records_token (data : meeting) (o : option entry) : Prop :=
  exists e, o = Some e /\ e_updated_at e = Some (m_updated_at data).

(** No entry written to the new state so far has a saved transcript. *)
Definition no_transcript_saved (st : run) : Prop :=
  forall k e, dict_get k (new_sync_state st) = Some e -> transcript_saved e = false.

(** [{"transcript_saved": True, "transcript_filename": ..}], the entry
    kept for a document that is gone but whose transcript was saved. *)
Definition tombstone (transcript_filename : string) : entry :=
  {| e_updated_at := None;
     e_filename := None;
     e_transcript_saved := Some true;
     e_transcript_filename := Some transcript_filename |}.

(** [s] holds an underscore. *)
Definition has_underscore (s : string) : bool := str_existsb (is_char "_") s.

Section Sync.
Context `{Datetime}.

Definition em_dash : string :=
  String "226" (String "128" (String "148" "")).

(** What the source writes to the transcript file. *)
Definition transcript_file_content (doc_id : string) (data : meeting)
           (transcript_md : string) : string :=
  "---" +:+ nl +:+ "title: " +:+ dquote +:+ m_title data +:+ " " +:+ em_dash
    +:+ " Transcript" +:+ dquote +:+ nl
  +:+ "date: " +:+ m_date data +:+ nl
  +:+ "granola_id: " +:+ doc_id +:+ nl
  +:+ "type: transcript" +:+ nl +:+ "---" +:+ nl +:+ nl
  +:+ "# " +:+ m_title data +:+ " " +:+ em_dash +:+ " Transcript" +:+ nl +:+ nl
  +:+ transcript_md
  +:+ nl.

(** One iteration of the loop "Sync each document". *)
Definition sync_document (force dry_run : bool) (sync_state : dict entry)
           (filenames : gmap string string) (st : run) (item : string * meeting)
  : run :=
  let '(doc_id, data) := item in
  let filename := default "" (filenames !! doc_id) in
  let prev := default empty_entry (dict_get doc_id sync_state) in
  if negb force && bool_decide (e_updated_at prev = Some (m_updated_at data)) then
    incr_skipped (set_entry doc_id prev st)
  else
    let old_filename := e_filename prev in
    let st :=
      match old_filename with
      | Some old =>
          if nonempty old && negb (bool_decide (old = filename))
             && path_exists (fs st) old
          then
            if dry_run then emit (RemoveOld doc_id old) st
            else emit (RemoveOld doc_id old) (set_fs (delete old (fs st)) st)
          else st
      | None => st
      end in
    let content := build_markdown data in
    let st :=
      if dry_run then emit (WriteDoc doc_id filename content) st
      else
        let st := emit (WriteDoc doc_id filename content)
                       (set_fs (<[filename := content]> (fs st)) st) in
        if entry_truthy prev then incr_updated st else incr_created st in
    set_entry doc_id
      {| e_updated_at := Some (m_updated_at data);
         e_filename := Some filename;
         e_transcript_saved := None;
         e_transcript_filename := None |} st.

(** [f"{data['date']}_{slug}_transcript.md"] *)
Definition transcript_filename_of (data : meeting) : string :=
  m_date data +:+ "_" +:+ slug_of data +:+ "_transcript.md".

(** [new_sync_state.get(doc_id, sync_state.get(doc_id, {}))] *)
Definition transcript_prev (sync_state : dict entry) (st : run) (doc_id : string)
  : entry :=
  default (default empty_entry (dict_get doc_id sync_state))
          (dict_get doc_id (new_sync_state st)).

(** One iteration of the loop "Export transcripts". The source stores
    [prev] itself in [new_sync_state] for an unchanged document, so the
    assignment of ["transcript_saved"] also shows in [sync_state]; that
    entry of [sync_state] is not read again (the last loop only reads
    the entries of documents that left the cache), so values are
    copied here. *)
Definition export_transcript (dry_run : bool) (all_data : dict meeting)
           (sync_state : dict entry) (filenames : gmap string string)
           (st : run) (item : string * list utterance) : run :=
  let '(doc_id, utterances) := item in
  match utterances, dict_get doc_id all_data with
  | _ :: _, Some data =>
      let prev := transcript_prev sync_state st doc_id in
      if transcript_saved prev then st
      else
        let transcript_filename := transcript_filename_of data in
        let transcript_md := format_transcript utterances in
        let content := transcript_file_content doc_id data transcript_md in
        let st :=
          if dry_run then emit (SaveTranscript doc_id transcript_filename content) st
          else emit (SaveTranscript doc_id transcript_filename content)
                    (set_fs (<[transcript_filename := content]> (fs st)) st) in
        let st := incr_transcripts_saved st in
        match dict_get doc_id (new_sync_state st) with
        | Some e =>
            set_entry doc_id
              {| e_updated_at := e_updated_at e;
                 e_filename := e_filename e;
                 e_transcript_saved := Some true;
                 e_transcript_filename := Some transcript_filename |} st
        | None =>
            set_entry doc_id
              {| e_updated_at := Some (m_updated_at data);
                 e_filename := Some (default "" (filenames !! doc_id));
                 e_transcript_saved := Some true;
                 e_transcript_filename := Some transcript_filename |} st
        end
  | _, _ => st
  end.

(** One iteration of the loop "Clean up files for documents no longer
    in cache". The message of the dry run reads [prev['filename']], and
    so does the one after [os.remove]. *)
Definition cleanup_orphan (dry_run : bool) (all_data : dict meeting)
           (st : run) (item : string * entry) : result run :=
  let '(doc_id, prev) := item in
  if dict_mem doc_id all_data then Ok st
  else
    let old := default "" (e_filename prev) in
    let removal :=
      if path_exists (fs st) old then
        if dry_run then
          match e_filename prev with
          | Some f => Ok (incr_removed (emit (RemoveOrphan doc_id f) st))
          | None => Raise (KeyError "filename") st
          end
        else
          match os_remove (fs st) old with
          | Ok fs' =>
              match e_filename prev with
              | Some f =>
                  Ok (incr_removed (emit (RemoveOrphan doc_id f) (set_fs fs' st)))
              | None => Raise (KeyError "filename") (set_fs fs' st)
              end
          | Raise e _ => Raise e st
          end
      else Ok st in
    match removal with
    | Raise e st => Raise e st
    | Ok st =>
        if transcript_saved prev then
          match e_transcript_filename prev with
          | Some tf => Ok (set_entry doc_id (tombstone tf) st)
          | None => Raise (KeyError "transcript_filename") st
          end
        else Ok st
    end.

(** The loop itself: it stops at the first exception. *)
Fixpoint cleanup_orphans (dry_run : bool) (all_data : dict meeting)
         (items : dict entry) (st : run) : result run :=
  match items with
  | [] => Ok st
  | item :: rest =>
      match cleanup_orphan dry_run all_data st item with
      | Ok st => cleanup_orphans dry_run all_data rest st
      | Raise e st => Raise e st
      end
  end.

(** The line printed at the end. *)
Definition summary_line (dry_run : bool) (st : run) : string :=
  let prefix := if dry_run then "[DRY RUN] " else "" in
  let parts :=
    [pretty (created st) +:+ " created, " +:+ pretty (updated st) +:+ " updated";
     pretty (skipped st) +:+ " unchanged, " +:+ pretty (removed st) +:+ " removed"] in
  let parts :=
    match transcripts_saved st with
    | O => parts
    | S _ => parts ++ [pretty (transcripts_saved st) +:+ " transcripts saved"]
    end in
  prefix +:+ "Sync complete: " +:+ join ", " parts.

(** What a completed run leaves: the output directory, the last values
    of the local variables, and the printed summary. *)
Record report := Report {
  r_world : world;
  r_run : run;
  r_summary : string
}.

Inductive outcome : Type :=
  | Completed (r : report)
  | Crashed (e : exn) (w : world).   (* the directory as the exception left it *)

(** [sync] from the point where [all_data] has been built: filename
    assignment, the three loops, saving the state, the summary. *)
Definition sync_from (all_data : dict meeting)
           (transcripts : dict (list utterance))
           (force dry_run : bool) (w : world) : outcome :=
  let sync_state := if negb force then load_sync_state w else [] in
  let filenames := assign_filenames all_data in
  let st := init_run (files w) in
  let st := fold_left (sync_document force dry_run sync_state filenames) all_data st in
  let st := fold_left (export_transcript dry_run all_data sync_state filenames)
                      transcripts st in
  match cleanup_orphans dry_run all_data sync_state st with
  | Raise e st => Crashed e {| files := fs st; state_file := state_file w |}
  | Ok st =>
      let state_file' :=
        if negb dry_run then Some (new_sync_state st) else state_file w in
      Completed {| r_world := {| files := fs st; state_file := state_file' |};
                   r_run := st;
                   r_summary := summary_line dry_run st |}
  end.

End Sync.

(** ** The cache and the whole of [sync] *)

(** [state] as [load_cache] returns it, with the keys that [sync] reads. *)
Record cache_state := CacheState {
  documents : dict document;
  documentPanels : dict (dict panel);
  transcripts : dict (list utterance);
  documentListsMetadata : dict (option string);   (* list id -> "title" *)
  documentLists : dict (list string)              (* list id -> document ids *)
}.

(** The reverse lookup [doc_folders], before its lists are sorted. *)
Definition add_folder (name : string) (doc_folders : gmap string (list string))
           (did : string) : gmap string (list string) :=
  <[did := default [] (doc_folders !! did) ++ [name]]> doc_folders.

Definition collect_folders (state : cache_state) : gmap string (list string) :=
  let doc_folders :=
    fold_left
      (fun doc_folders '(list_id, doc_ids) =>
         let name := default None (dict_get list_id (documentListsMetadata state)) in
         if truthy name
         then fold_left (add_folder (default "" name)) doc_ids doc_folders
         else doc_folders)
      (documentLists state) ∅ in
  merge_sort String.le <$> doc_folders.

Section WholeSync.
Context `{Datetime}.

(** The first pass: [all_data], without the deleted documents. *)
Definition collect_all_data (state : cache_state) : dict meeting :=
  let doc_folders := collect_folders state in
  fold_left
    (fun all_data '(doc_id, doc) =>
       if truthy (doc_deleted_at doc) || default false (doc_was_trashed doc)
       then all_data
       else dict_set doc_id
              (extract_meeting_data doc (documentPanels state) (doc_folders !! doc_id))
              all_data)
    (documents state) [].

(** [sync(cache_path, output_dir, force, dry_run)] on a loaded cache. *)
Definition sync (state : cache_state) (force dry_run : bool) (w : world)
  : outcome :=
  sync_from (collect_all_data state) (transcripts state) force dry_run w.

End WholeSync.

(* ------------------------------------------------------------------ *)
(** * Notions used to state further properties                         *)
(* ------------------------------------------------------------------ *)

(** Every character of [s] satisfies [p]. *)
Fixpoint str_forallb (p : ascii -> bool) (s : string) : bool :=
  match s with
  | "" => true
  | String c s' => p c && str_forallb p s'
  end.

(** The first character of [s] is [c]. *)
Definition starts_with (c : ascii) (s : string) : bool :=
  match s with
  | String a _ => is_char c a
  | "" => false
  end.

(** No two neighbours in [s] are both the character [c]. *)
Fixpoint no_adjacent (c : ascii) (s : string) : bool :=
  match s with
  | "" => true
  | String a s' => negb (is_char c a && starts_with c s') && no_adjacent c s'
  end.

Definition is_upper (c : ascii) : bool :=
  let n := nat_of_ascii c in (65 <=? n) && (n <=? 90).

(** A 7-bit character. *)
Definition is_ascii (c : ascii) : bool := nat_of_ascii c <? 128.

(** A lower-case letter, a digit or a hyphen. *)
Definition slug_char (c : ascii) : bool :=
  let n := nat_of_ascii c in
  ((48 <=? n) && (n <=? 57)) || ((97 <=? n) && (n <=? 122)) || (n =? 45).

(** What the two [replace] calls of [yaml_escape] make of one character. *)
Definition escape_char (c : ascii) : string :=
  if is_char "\" c then "\\"
  else if is_char dquote_char c then "\" +:+ dquote
  else String c "".

Fixpoint escape_chars (s : string) : string :=
  match s with
  | "" => ""
  | String c s' => escape_char c +:+ escape_chars s'
  end.

(** The label [format_transcript] gives to the speaker of an utterance. *)
Definition speaker_label (utt : utterance) : string :=
  if decide (utt_source utt = Some "microphone") then "You" else "Other".

(** The text of the utterance is empty once trimmed. *)
Definition blank_utterance (utt : utterance) : Prop :=
  strip (default "" (utt_text utt)) = "".

Definition is_write_doc (a : action) : bool :=
  match a with WriteDoc _ _ _ => true | _ => false end.

Definition is_save_transcript (a : action) : bool :=
  match a with SaveTranscript _ _ _ => true | _ => false end.

Definition is_remove_orphan (a : action) : bool :=
  match a with RemoveOrphan _ _ => true | _ => false end.

(** How many actions of [l] satisfy [p]. *)
Fixpoint count_actions (p : action -> bool) (l : list action) : nat :=
  match l with
  | [] => 0
  | a :: r => (if p a then 1 else 0) + count_actions p r
  end.

(** The document an action is done for. *)
Definition action_doc (a : action) : string :=
  match a with
  | RemoveOld d _ | WriteDoc d _ _ | SaveTranscript d _ _ | RemoveOrphan d _ => d
  end.

(** Every removal of an old name is followed at once by the write of the
    same document. [pending] is the document whose old name was removed
    by the action just before. *)
Fixpoint removals_paired (pending : option string) (l : list action) : bool :=
  match l with
  | [] => match pending with None => true | Some _ => false end
  | a :: r =>
      match pending with
      | Some d =>
          match a with
          | WriteDoc d' _ _ => bool_decide (d' = d) && removals_paired None r
          | _ => false
          end
      | None =>
          match a with
          | RemoveOld d _ => removals_paired (Some d) r
          | _ => removals_paired None r
          end
      end
  end.

(** What the summary counts, against the actions, after [n] documents. *)
Definition counts_agree (dry_run : bool) (n : nat) (st : run) : Prop :=
  count_actions is_write_doc (actions st) + skipped st = n
  /\ transcripts_saved st = count_actions is_save_transcript (actions st)
  /\ removed st = count_actions is_remove_orphan (actions st)
  /\ if dry_run then created st = 0 /\ updated st = 0
     else created st + updated st = count_actions is_write_doc (actions st).

(** The last loop goes through this entry of the previous state without
    raising: its document is in the collection, or it records a
    [filename] (in a run that is not dry, not the empty one) and, when
    its transcript is saved, a [transcript_filename]. *)
Definition orphan_passes (dry_run : bool) (all_data : dict meeting)
           (item : string * entry) : Prop :=
  dict_mem item.1 all_data = true
  \/ ((exists f, e_filename item.2 = Some f /\ (dry_run = false -> f <> ""))
      /\ (transcript_saved item.2 = true -> is_Some (e_transcript_filename item.2))).

(** [end_dt - start_dt] of [extract_meeting_data] does not raise on this
    document: when the start and the end of its calendar event both
    parse, they are both aware or both naive. *)
Definition subtraction_defined `{Datetime} (doc : document) : Prop :=
  forall ev s e,
    doc_google_calendar_event doc = Some ev ->
    parse_datetime (start_dateTime ev) = Some s ->
    parse_datetime (end_dateTime ev) = Some e ->
    aware s = aware e.

(** What an action of a run is done for: a write, for a document of
    the collection, to its assigned name and with its rendering; the
    removal of an old name, for a document of the collection whose
    previous entry records that name, which is not the assigned one; a
    saved transcript, for utterances of the cache and a document of the
    collection; the removal of an orphan, for an entry of the previous
    state whose document left the collection, at the name it records. *)
Definition action_justified `{Datetime} (all_data : dict meeting)
           (transcripts : dict (list utterance)) (sync_state : dict entry)
           (a : action) : Prop :=
  match a with
  | WriteDoc doc_id f c =>
      exists data,
        (doc_id, data) ∈ all_data
        /\ f = default "" (assign_filenames all_data !! doc_id)
        /\ c = build_markdown data
  | RemoveOld doc_id old =>
      exists data e,
        (doc_id, data) ∈ all_data
        /\ dict_get doc_id sync_state = Some e
        /\ e_filename e = Some old
        /\ old <> default "" (assign_filenames all_data !! doc_id)
  | SaveTranscript doc_id f c =>
      exists data utterances,
        dict_get doc_id all_data = Some data
        /\ (doc_id, utterances) ∈ transcripts
        /\ f = transcript_filename_of data
        /\ c = transcript_file_content doc_id data (format_transcript utterances)
  | RemoveOrphan doc_id f =>
      dict_mem doc_id all_data = false
      /\ exists e, (doc_id, e) ∈ sync_state /\ e_filename e = Some f
  end.

(** What an action does to the directory. *)
Definition apply_action (fs : gmap string string) (a : action)
  : gmap string string :=
  match a with
  | WriteDoc _ f c | SaveTranscript _ f c => <[f := c]> fs
  | RemoveOld _ f | RemoveOrphan _ f => delete f fs
  end.

(** ** An instance of [Datetime] to run examples

    Timestamps of the fixed shape [YYYY-MM-DDTHH:MM:SS]; the digits are
    not validated and differences are taken within one day. *)

Module SampleDatetime.

Definition digit (s : string) (i : nat) : Z :=
  match String.get i s with
  | Some c => Z.of_nat (nat_of_ascii c) - 48
  | None => 0
  end.

Definition seconds_of_day (s : string) : Z :=
  ((digit s 11 * 10 + digit s 12) * 3600
   + (digit s 14 * 10 + digit s 15) * 60
   + (digit s 17 * 10 + digit s 18))%Z.

#[export] Instance sample : Datetime := {|
  datetime := string;
  fromisoformat s :=
    if (String.length s =? 19) && bool_decide (String.get 10 s = Some "T"%char)
    then Some s else None;
  now := "2026-01-01T00:00:00";
  strftime_ymd s := str_take 10 s;
  strftime_hm s := str_take 5 (str_drop 11 s);
  strftime_hms s := str_take 8 (str_drop 11 s);
  aware _ := false;
  minutes_between a b := Z.quot (seconds_of_day b - seconds_of_day a) 60
|}.

End SampleDatetime.

(* ------------------------------------------------------------------ *)
(** * Example inputs                                                   *)
(* ------------------------------------------------------------------ *)

Module Examples.

Definition text_node (t : string) (ms : list mark) : node :=
  Node "text" [] None None t ms.

Definition bold : mark := Mark "bold" None.
Definition link (href : string) : mark := Mark "link" (Some href).

(** A document with nothing but an id and the given title field. *)
Definition bare_document (title : option string) : document :=
  Document "a1" title None None None None None None None None.

Definition hello : utterance := Utterance (Some "microphone") (Some "hello") None.
Definition blank : utterance := Utterance None (Some "   ") None.
Definition reply : utterance := Utterance (Some "microphone") (Some "again") None.

Definition weekly (updated_at : string) : meeting :=
  Meeting "a1" "Weekly Sync" "2026-01-05" "10:00" None [] [] "" "" updated_at.

(** Two records with the same title and date, and a third one. *)
Definition standup (doc_id : string) : meeting :=
  Meeting doc_id "Standup" "2026-01-06" "09:00" None [] [] "" "" "v1".

Definition three_records : dict meeting :=
  [("aaaaaaaa-1", standup "aaaaaaaa-1");
   ("bbbbbbbb-2", standup "bbbbbbbb-2");
   ("a1", weekly "v1")].

(** Two records with the same title and date whose ids agree on their
    first 8 characters. *)
Definition same_prefix_records : dict meeting :=
  [("abcdefgh-1", standup "abcdefgh-1");
   ("abcdefgh-2", standup "abcdefgh-2")].

Definition weekly_file : string := "2026-01-05_weekly-sync.md".
Definition weekly_transcript_file : string := "2026-01-05_weekly-sync_transcript.md".

(** The cache holds utterances for the meeting [a1]. *)
Definition weekly_transcripts : dict (list utterance) := [("a1", [hello])].

(** An empty output directory, never synced. *)
Definition fresh_world : world := World ∅ None.

(** [a1] was exported at version [v1] under the name [filename], and its
    transcript was saved; both files are in the directory. *)
Definition saved_world (filename : string) : world :=
  World (<[filename := "notes"]> {[weekly_transcript_file := "transcript"]})
        (Some [("a1", Entry (Some "v1") (Some filename) (Some true)
                            (Some weekly_transcript_file))]).

Definition gone_file : string := "2026-01-02_gone.md".
Definition gone_transcript_file : string := "2026-01-02_gone_transcript.md".



Definition gone_saved_entry : entry :=
  Entry (Some "v1") (Some gone_file) (Some true) (Some gone_transcript_file).

(** The same document with its notes file and its saved transcript. *)
Definition orphan_world : world :=
  World (<[gone_file := "notes"]> {[gone_transcript_file := "transcript"]})
        (Some [("gone", gone_saved_entry)]).

Definition paragraph (t : string) : node :=
  Node "paragraph" [text_node t []] None None "" [].

Definition list_item (children : list node) : node :=
  Node "listItem" children None None "" [].

(** A bullet list whose only item holds an ordered list of two items. *)
Definition nested_list : node :=
  Node "doc"
    [Node "bulletList"
       [list_item
          [paragraph "outer";
           Node "orderedList"
             [list_item [paragraph "first"]; list_item [paragraph "second"]]
             None None "" []]]
       None None "" []]
    None None "" [].

End Examples.

Module Samples.

Definition silent : utterance := Utterance (Some "system") None None.
Definition remote : utterance :=
  Utterance (Some "system") (Some "  hi there ") (Some "2026-01-05T10:00:01").

(** The calendar start of this document does not parse; its creation
    time does. *)
Definition odd_start_event : calendar_event :=
  CalendarEvent (Some "tomorrow") (Some "2026-01-05T11:00:00").

Definition odd_start_document : document :=
  Document "a1" (Some "Weekly Sync") (Some odd_start_event)
           (Some "2026-01-05T10:00:00") None None None (Some "v1") None None.

Definition heading_tree : node :=
  Node "doc" [Node "heading" [Examples.text_node "Decisions" []] (Some 2%Z) None "" []]
       None None "" [].

Definition markup_panel : panel := Panel None (Some "<p>fallback</p>").
Definition tree_panel : panel := Panel (Some heading_tree) (Some "<p>ignored</p>").

(** A calendar event of 45 minutes, start and end without UTC offset. *)
Definition timed_event : calendar_event :=
  CalendarEvent (Some "2026-01-05T10:00:00") (Some "2026-01-05T10:45:00").

Definition timed_document : document :=
  Document "a1" (Some "Weekly Sync") (Some timed_event)
           (Some "2026-01-04T08:00:00") None None None (Some "v1") None None.



(** [a1] was exported at version [v1]; its transcript was never saved. *)
Definition exported_world : world :=
  World {[Examples.weekly_file := "notes"]}
        (Some [("a1", Entry (Some "v1") (Some Examples.weekly_file) None None)]).

(** A cache with a document that is kept and one that was deleted. *)
Definition deleted_document : document :=
  Document "d1" (Some "Dropped") None None None None None (Some "v1")
           (Some "2026-01-03T09:00:00") None.

Definition small_cache : cache_state :=
  CacheState [("a1", Examples.bare_document (Some "Kept")); ("d1", deleted_document)]
             [] [] [] [].

(** The document [gone] left the cache; the meeting [a1] of the cache is
    assigned the name that the state records for [gone]. *)
Definition renamed_id_world : world :=
  World {[Examples.weekly_file := "notes"]}
        (Some [("gone", Entry (Some "v1") (Some Examples.weekly_file) None None)]).

End Samples.

(* ------------------------------------------------------------------ *)
(** * Facts about strings                                              *)
(* ------------------------------------------------------------------ *)

Lemma str_app_cons (x : ascii) (a b : string) :
  String x a +:+ b = String x (a +:+ b).
Proof. reflexivity. Qed.

Lemma str_app_nil_l (a : string) : "" +:+ a = a.
Proof. reflexivity. Qed.

Lemma str_app_assoc (a b c : string) : (a +:+ b) +:+ c = a +:+ (b +:+ c).
Proof.
  induction a as [|x a IH]; [done|]. by rewrite !str_app_cons, IH.
Qed.

Lemma str_app_nil_r (a : string) : a +:+ "" = a.
Proof. induction a as [|x a IH]; [done|]. by rewrite str_app_cons, IH. Qed.

Lemma str_app_length (a b : string) :
  String.length (a +:+ b) = String.length a + String.length b.
Proof.
  induction a as [|x a IH]; [done|]. rewrite str_app_cons. simpl. by rewrite IH.
Qed.

(** A property of every pair of an explicit list, by checking the list. *)
Lemma forall_members {V} (P : string -> V -> Prop) (l : dict V) :
  Forall (fun item => P item.1 item.2) l ->
  forall k v, (k, v) ∈ l -> P k v.
Proof. rewrite Forall_forall. intros Hall k v Hin. exact (Hall (k, v) Hin). Qed.

Lemma forall_member_pairs {V} (P : string -> V -> string -> V -> Prop) (l : dict V) :
  Forall (fun i1 => Forall (fun i2 => P i1.1 i1.2 i2.1 i2.2) l) l ->
  forall k1 v1 k2 v2, (k1, v1) ∈ l -> (k2, v2) ∈ l -> P k1 v1 k2 v2.
Proof.
  rewrite Forall_forall. intros Hall k1 v1 k2 v2 Hin1 Hin2.
  specialize (Hall (k1, v1) Hin1). rewrite Forall_forall in Hall.
  exact (Hall (k2, v2) Hin2).
Qed.

Ltac by_computation := apply (bool_decide_unpack _); vm_compute; exact I.

(** Normal form of a concatenation: associated to the right, literals
    pushed through. *)
Ltac str_norm :=
  repeat (rewrite ?str_app_assoc, ?str_app_cons, ?str_app_nil_l).

Lemma str_app_inv_tail (a b c : string) : a +:+ c = b +:+ c -> a = b.
Proof.
  revert b. induction a as [|x a IH]; intros [|y b] Heq;
    rewrite ?str_app_cons, ?str_app_nil_l in Heq.
  - done.
  - apply (f_equal String.length) in Heq. simpl in Heq.
    rewrite str_app_length in Heq. lia.
  - apply (f_equal String.length) in Heq. simpl in Heq.
    rewrite str_app_length in Heq. lia.
  - injection Heq as -> Heq. f_equal. by apply IH.
Qed.

Lemma nonempty_false (s : string) : nonempty s = false <-> s = "".
Proof. destruct s; simpl; split; congruence. Qed.

(* ------------------------------------------------------------------ *)
(** * The renderer                                                     *)
(* ------------------------------------------------------------------ *)

Lemma tiptap_text (t : string) (ms : list mark) content level language
      (indent : nat) (ordered_num : option nat) :
  tiptap_to_markdown (Some (Node "text" content level language t ms))
                     indent ordered_num
  = fold_left apply_mark ms t.
Proof. reflexivity. Qed.

(** C9. The marks of a text node are applied in the order of the list, and
    each one wraps what the marks before it produced: rendering with the
    marks [ms ++ [m]] is [apply_mark] of [m] on the rendering with [ms].
    So a text [t] marked [bold, link x] renders as [[**t**](x)], and
    marked [link x, bold] as [**[t](x)**]. *)
Theorem text_marks_wrap_in_source_order :
  forall (t : string) (indent : nat) (ordered_num : option nat),
    (forall (ms : list mark) (m : mark) content level language,
        tiptap_to_markdown (Some (Node "text" content level language t (ms ++ [m])))
                           indent ordered_num
        = apply_mark
            (tiptap_to_markdown (Some (Node "text" content level language t ms))
                                indent ordered_num) m)
    /\ tiptap_to_markdown
         (Some (Examples.text_node t [Examples.bold; Examples.link "x"]))
         indent ordered_num
       = "[**" +:+ t +:+ "**](x)"
    /\ tiptap_to_markdown
         (Some (Examples.text_node t [Examples.link "x"; Examples.bold]))
         indent ordered_num
       = "**[" +:+ t +:+ "](x)**".
Proof.
  intros t indent ordered_num. split; [|split].
  - intros ms m content level language.
    rewrite !tiptap_text. by rewrite fold_left_app.
  - unfold Examples.text_node. rewrite tiptap_text. simpl.
    unfold apply_mark; simpl. by str_norm.
  - unfold Examples.text_node. rewrite tiptap_text. simpl.
    unfold apply_mark; simpl. by str_norm.
Qed.

(* ------------------------------------------------------------------ *)
(** * Extraction                                                       *)
(* ------------------------------------------------------------------ *)

Section ExtractionFacts.
Context `{Datetime}.

(** C8, as the code has it. The default title is used only when the
    [title] key is absent; a title that is present is kept as it is, the
    empty string included. *)
Theorem title_defaults_only_when_absent :
  forall (doc : document) (panels : dict (dict panel))
         (folders : option (list string)),
    m_title (extract_meeting_data doc panels folders)
    = match doc_title doc with
      | None => "Untitled Meeting"
      | Some t => t
      end.
Proof.
  intros doc panels folders. unfold extract_meeting_data.
  destruct (doc_google_calendar_event doc) as [ev|];
    [destruct (truthy (start_dateTime ev));
     [destruct (parse_datetime (start_dateTime ev)),
               (parse_datetime (end_dateTime ev))|]|];
    simpl; by destruct (doc_title doc).
Qed.

(* -------------------------------------------------------------- *)
(** * Transcript formatting                                       *)
(* -------------------------------------------------------------- *)

Lemma format_utterance_blank (st : list string * option string) (u : utterance) :
  strip (default "" (utt_text u)) = "" -> format_utterance st u = st.
Proof.
  intros Hblank. unfold format_utterance. destruct st as [lines cur].
  by rewrite Hblank.
Qed.

(** C10. An utterance whose text is empty after trimming leaves the state
    of the loop, the lines and the current speaker, as it was; so the
    transcript is the one of the sequence without that utterance. *)
Theorem blank_utterance_is_omitted :
  forall (before after : list utterance) (u : utterance),
    strip (default "" (utt_text u)) = "" ->
    (forall st, format_utterance st u = st)
    /\ format_transcript (before ++ u :: after) = format_transcript (before ++ after).
Proof.
  intros before after u Hblank. split.
  - intros st. by apply format_utterance_blank.
  - unfold format_transcript. rewrite !fold_left_app. simpl.
    by rewrite format_utterance_blank.
Qed.

End ExtractionFacts.

Lemma blank_utterance_is_omitted_witness :
  strip (default "" (utt_text Examples.blank)) = ""
  /\ format_transcript (H := SampleDatetime.sample)
       ([Examples.hello] ++ Examples.blank :: [Examples.reply])
     = format_transcript (H := SampleDatetime.sample)
         ([Examples.hello] ++ [Examples.reply]).
Proof.
  split; [reflexivity|].
  apply (blank_utterance_is_omitted [Examples.hello] [Examples.reply] Examples.blank).
  reflexivity.
Defined.

(* ------------------------------------------------------------------ *)
(** * Filename assignment                                              *)
(* ------------------------------------------------------------------ *)

Lemma sharing_cons (f : string) (doc_id : string) (data : meeting) (l : dict meeting) :
  sharing f ((doc_id, data) :: l)
  = (if decide (orig_filename data = f) then 1 else 0) + sharing f l.
Proof.
  unfold sharing. rewrite filter_cons. simpl.
  destruct (decide (orig_filename data = f)); reflexivity.
Qed.

Lemma sharing_app (f : string) (l1 l2 : dict meeting) :
  sharing f (l1 ++ l2) = sharing f l1 + sharing f l2.
Proof. unfold sharing. by rewrite filter_app, length_app. Qed.

Lemma assign_first_counts (doc_id : string) (data : meeting)
      (acc : gmap string string * gmap string nat) :
  (assign_first acc (doc_id, data)).2
  = <[orig_filename data := S (default 0 (acc.2 !! orig_filename data))]> acc.2.
Proof.
  destruct acc as [fn cnt]. simpl.
  destruct (cnt !! orig_filename data); reflexivity.
Qed.

Lemma assign_first_filenames (doc_id : string) (data : meeting)
      (acc : gmap string string * gmap string nat) :
  (assign_first acc (doc_id, data)).1
  = <[doc_id := match acc.2 !! orig_filename data with
                | Some _ => suffixed_filename doc_id data
                | None => orig_filename data
                end]> acc.1.
Proof.
  destruct acc as [fn cnt]. simpl.
  destruct (cnt !! orig_filename data); reflexivity.
Qed.

(** After the first loop, [filename_counts] holds the number of records
    per base name. *)
Lemma first_pass_counts (f : string) (l : dict meeting) :
  forall acc,
    (fold_left assign_first l acc).2 !! f
    = match sharing f l with
      | O => acc.2 !! f
      | S k => Some (S k + default 0 (acc.2 !! f))
      end.
Proof.
  induction l as [|[doc_id data] l IH]; intros acc; [reflexivity|].
  cbn [fold_left]. rewrite IH, assign_first_counts, sharing_cons.
  destruct (decide (orig_filename data = f)) as [->|Hne].
  - rewrite lookup_insert_eq. simpl.
    destruct (sharing f l); simpl; f_equal; lia.
  - rewrite lookup_insert_ne by done. reflexivity.
Qed.

Lemma first_pass_other (doc_id : string) (l : dict meeting) :
  forall acc,
    doc_id ∉ dict_keys l ->
    (fold_left assign_first l acc).1 !! doc_id = acc.1 !! doc_id.
Proof.
  induction l as [|[k data] l IH]; intros acc Hnotin; [reflexivity|].
  cbn [fold_left]. unfold dict_keys in *. simpl in Hnotin.
  apply not_elem_of_cons in Hnotin as [Hne Hnotin].
  rewrite IH by done. rewrite assign_first_filenames.
  by rewrite lookup_insert_ne.
Qed.

(** After the first loop, the first record of a base name has the plain
    name and the later ones the suffixed name. *)
Lemma first_pass_own (doc_id : string) (data : meeting) (l1 l2 : dict meeting) :
  doc_id ∉ dict_keys l2 ->
  (fold_left assign_first (l1 ++ (doc_id, data) :: l2) (∅, ∅)).1 !! doc_id
  = Some (match sharing (orig_filename data) l1 with
          | O => orig_filename data
          | S _ => suffixed_filename doc_id data
          end).
Proof.
  intros Hnotin. rewrite fold_left_app. cbn [fold_left].
  rewrite first_pass_other by done.
  rewrite assign_first_filenames, lookup_insert_eq.
  rewrite first_pass_counts. simpl. rewrite lookup_empty.
  by destruct (sharing (orig_filename data) l1).
Qed.

Lemma second_pass_other (cnt : gmap string nat) (doc_id : string) (l : dict meeting) :
  forall fn,
    doc_id ∉ dict_keys l ->
    fold_left (assign_second cnt) l fn !! doc_id = fn !! doc_id.
Proof.
  induction l as [|[k data] l IH]; intros fn Hnotin; [reflexivity|].
  cbn [fold_left]. unfold dict_keys in *. simpl in Hnotin.
  apply not_elem_of_cons in Hnotin as [Hne Hnotin].
  rewrite IH by done. unfold assign_second.
  destruct (_ && _); [by rewrite lookup_insert_ne | done].
Qed.

Lemma second_pass_own (cnt : gmap string nat) (fn : gmap string string)
      (doc_id : string) (data : meeting) :
  assign_second cnt fn (doc_id, data) !! doc_id
  = if (1 <? default 0 (cnt !! orig_filename data))
       && bool_decide (fn !! doc_id = Some (orig_filename data))
    then Some (suffixed_filename doc_id data)
    else fn !! doc_id.
Proof.
  unfold assign_second. destruct (_ && _); [by rewrite lookup_insert_eq | done].
Qed.

Lemma dict_keys_app {V} (l1 l2 : dict V) :
  dict_keys (l1 ++ l2) = dict_keys l1 ++ dict_keys l2.
Proof. unfold dict_keys. apply fmap_app. Qed.

(** The name a record ends with: suffixed when its base name is shared,
    plain when it is not. *)
Lemma assign_filenames_lookup (all_data : dict meeting) (doc_id : string)
      (data : meeting) :
  NoDup (dict_keys all_data) ->
  (doc_id, data) ∈ all_data ->
  assign_filenames all_data !! doc_id
  = Some (if 1 <? sharing (orig_filename data) all_data
          then suffixed_filename doc_id data
          else orig_filename data).
Proof.
  intros Hnodup Hin.
  apply list_elem_of_split in Hin as (l1 & l2 & ->).
  rewrite dict_keys_app in Hnodup.
  apply NoDup_app in Hnodup as (_ & Hl1 & Hnodup).
  apply NoDup_cons in Hnodup as [Hl2 _].
  assert (doc_id ∉ dict_keys l1) as Hnot1.
  { intros Hk. apply (Hl1 _ Hk). left. }
  unfold assign_filenames.
  destruct (fold_left assign_first (l1 ++ (doc_id, data) :: l2) (∅, ∅))
    as [fn cnt] eqn:Hfirst.
  pose proof (first_pass_own doc_id data l1 l2 Hl2) as Hown.
  pose proof (first_pass_counts (orig_filename data)
                (l1 ++ (doc_id, data) :: l2) (∅, ∅)) as Hcnt.
  rewrite Hfirst in Hown, Hcnt. simpl in Hown, Hcnt.
  rewrite lookup_empty in Hcnt.
  rewrite fold_left_app. cbn [fold_left].
  rewrite second_pass_other by done.
  rewrite second_pass_own, second_pass_other by done.
  rewrite Hown, Hcnt, sharing_app, sharing_cons.
  rewrite decide_True by done.
  destruct (sharing (orig_filename data) l1) as [|k1]; simpl.
  - destruct (sharing (orig_filename data) l2) as [|k2]; simpl; [done|].
    by rewrite bool_decide_eq_true_2.
  - replace (k1 + S (sharing (orig_filename data) l2))
      with (S (k1 + sharing (orig_filename data) l2)) by lia.
    simpl. by destruct (bool_decide _).
Qed.

(** C3. With the ids of the collection distinct (they are the keys of a
    dict): a record whose base name is computed by two or more records
    gets the name suffixed with the first 8 characters of its id, the
    first such record included, and a record whose base name is computed
    by it alone gets the plain name. *)
Theorem collision_resolution_is_symmetric :
  forall (all_data : dict meeting) (doc_id : string) (data : meeting),
    NoDup (dict_keys all_data) ->
    (doc_id, data) ∈ all_data ->
    (2 <= sharing (orig_filename data) all_data ->
     assign_filenames all_data !! doc_id
     = Some (base_of data +:+ "_" +:+ str_take 8 doc_id +:+ ".md"))
    /\ (sharing (orig_filename data) all_data = 1 ->
        assign_filenames all_data !! doc_id = Some (base_of data +:+ ".md")).
Proof.
  intros all_data doc_id data Hnodup Hin.
  rewrite (assign_filenames_lookup all_data doc_id data Hnodup Hin).
  split; intros Hcount.
  - destruct (Nat.ltb_spec 1 (sharing (orig_filename data) all_data)); [done | lia].
  - rewrite Hcount. reflexivity.
Qed.

Lemma collision_resolution_is_symmetric_witness :
  NoDup (dict_keys Examples.three_records)
  /\ ("aaaaaaaa-1", Examples.standup "aaaaaaaa-1") ∈ Examples.three_records
  /\ 2 <= sharing (orig_filename (Examples.standup "aaaaaaaa-1")) Examples.three_records
  /\ assign_filenames Examples.three_records !! "aaaaaaaa-1"
     = Some "2026-01-06_standup_aaaaaaaa.md".
Proof.
  assert (NoDup (dict_keys Examples.three_records)) as Hnodup.
  { by_computation. }
  assert (("aaaaaaaa-1", Examples.standup "aaaaaaaa-1") ∈ Examples.three_records)
    as Hin by left.
  assert (2 <= sharing (orig_filename (Examples.standup "aaaaaaaa-1"))
                       Examples.three_records) as Hshared.
  { vm_compute. lia. }
  split; [exact Hnodup|]. split; [exact Hin|]. split; [exact Hshared|].
  exact (proj1 (collision_resolution_is_symmetric _ _ _ Hnodup Hin) Hshared).
Defined.

(** ** Underscores in the assigned names *)

Lemma str_existsb_app (p : ascii -> bool) (a b : string) :
  str_existsb p (a +:+ b) = str_existsb p a || str_existsb p b.
Proof.
  induction a as [|x a IH]; [done|].
  rewrite str_app_cons. simpl. by rewrite IH, orb_assoc.
Qed.

Lemma sub_runs_replaces (q p : ascii -> bool) (rep : string) (s : string) :
  (forall c, q c = true -> p c = true) ->
  str_existsb q rep = false ->
  forall in_run, str_existsb q (sub_runs p rep in_run s) = false.
Proof.
  intros Hqp Hrep. induction s as [|c s IH]; intros in_run; [done|].
  simpl. destruct (p c) eqn:Hp.
  - destruct in_run; [apply IH|]. by rewrite str_existsb_app, Hrep, IH.
  - simpl. rewrite IH, orb_false_r.
    destruct (q c) eqn:Hq; [|done]. apply Hqp in Hq. congruence.
Qed.

Lemma sub_runs_keeps_absent (q p : ascii -> bool) (rep : string) (s : string) :
  str_existsb q rep = false ->
  str_existsb q s = false ->
  forall in_run, str_existsb q (sub_runs p rep in_run s) = false.
Proof.
  intros Hrep. induction s as [|c s IH]; intros Hs in_run; [done|].
  simpl in Hs. apply orb_false_iff in Hs as [Hc Hs].
  simpl. destruct (p c).
  - destruct in_run; [by apply IH|]. by rewrite str_existsb_app, Hrep, IH.
  - simpl. by rewrite Hc, IH.
Qed.

Lemma lstrip_by_keeps_absent (q p : ascii -> bool) (s : string) :
  str_existsb q s = false -> str_existsb q (lstrip_by p s) = false.
Proof.
  induction s as [|c s IH]; intros Hs; [done|].
  simpl. destruct (p c); [|done].
  simpl in Hs. apply orb_false_iff in Hs as [_ Hs]. by apply IH.
Qed.

Lemma rstrip_by_keeps_absent (q p : ascii -> bool) (s : string) :
  str_existsb q s = false -> str_existsb q (rstrip_by p s) = false.
Proof.
  induction s as [|c s IH]; intros Hs; [done|].
  simpl in Hs. apply orb_false_iff in Hs as [Hc Hs].
  simpl. specialize (IH Hs). destruct (rstrip_by p s) as [|r rs].
  - destruct (p c); [done|]. simpl. by rewrite Hc.
  - simpl in *. by rewrite Hc, IH.
Qed.

Lemma str_take_keeps_absent (q : ascii -> bool) (n : nat) (s : string) :
  str_existsb q s = false -> str_existsb q (str_take n s) = false.
Proof.
  revert s. induction n as [|n IH]; intros [|c s] Hs; try done.
  simpl in Hs. apply orb_false_iff in Hs as [Hc Hs].
  simpl. by rewrite Hc, IH.
Qed.

(** A slug holds no underscore: [[\s_]+] has replaced them all. *)
Lemma slugify_no_underscore (text : string) : has_underscore (slugify text) = false.
Proof.
  unfold has_underscore, slugify.
  apply str_take_keeps_absent. unfold strip_by.
  apply rstrip_by_keeps_absent, lstrip_by_keeps_absent.
  apply sub_runs_keeps_absent; [done|].
  apply sub_runs_replaces; [|done].
  intros c Hc. unfold space_or_underscore. rewrite Hc. apply orb_true_r.
Qed.

Lemma slug_of_no_underscore (data : meeting) : has_underscore (slug_of data) = false.
Proof.
  unfold slug_of, or_else.
  destruct (nonempty (slugify (m_title data)));
    [apply slugify_no_underscore | reflexivity].
Qed.

(** Two texts cut at their first underscore. *)
Lemma split_at_first_underscore (a b c d : string) :
  has_underscore a = false ->
  has_underscore c = false ->
  a +:+ "_" +:+ b = c +:+ "_" +:+ d ->
  a = c /\ b = d.
Proof.
  unfold has_underscore.
  revert c. induction a as [|x a IH]; intros [|y c] Ha Hc Heq;
    rewrite ?str_app_cons, ?str_app_nil_l in Heq.
  - by injection Heq as ->.
  - injection Heq as <- _. by simpl in Hc.
  - injection Heq as -> _. by simpl in Ha.
  - injection Heq as -> Heq.
    simpl in Ha, Hc.
    apply orb_false_iff in Ha as [_ Ha]. apply orb_false_iff in Hc as [_ Hc].
    destruct (IH c Ha Hc Heq) as [-> ->]. done.
Qed.

Lemma orig_filename_shape (data : meeting) :
  orig_filename data = m_date data +:+ "_" +:+ (slug_of data +:+ ".md").
Proof. unfold orig_filename, base_of. by rewrite !str_app_assoc. Qed.

Lemma suffixed_filename_shape (doc_id : string) (data : meeting) :
  suffixed_filename doc_id data
  = m_date data +:+ "_" +:+ (slug_of data +:+ "_" +:+ (str_take 8 doc_id +:+ ".md")).
Proof. unfold suffixed_filename, base_of. by rewrite !str_app_assoc. Qed.

(** A suffixed name is never a plain name. *)
Lemma suffixed_is_not_orig (doc_id : string) (data data' : meeting) :
  has_underscore (m_date data) = false ->
  has_underscore (m_date data') = false ->
  suffixed_filename doc_id data <> orig_filename data'.
Proof.
  intros Hd Hd' Heq.
  rewrite suffixed_filename_shape, orig_filename_shape in Heq.
  apply split_at_first_underscore in Heq as [_ Heq]; [|done..].
  change (slug_of data +:+ "_" +:+ str_take 8 doc_id +:+ ".md")
    with (slug_of data +:+ ("_" +:+ str_take 8 doc_id) +:+ ".md") in Heq.
  rewrite <- !str_app_assoc in Heq. apply str_app_inv_tail in Heq.
  pose proof (slug_of_no_underscore data') as Hslug.
  rewrite <- Heq in Hslug. unfold has_underscore in Hslug.
  rewrite !str_existsb_app in Hslug. simpl in Hslug.
  rewrite orb_true_r in Hslug. discriminate.
Qed.

(** Two suffixed names are equal only for the same base name and the same
    id prefix. *)
Lemma suffixed_filename_inj (id1 id2 : string) (d1 d2 : meeting) :
  has_underscore (m_date d1) = false ->
  has_underscore (m_date d2) = false ->
  suffixed_filename id1 d1 = suffixed_filename id2 d2 ->
  orig_filename d1 = orig_filename d2 /\ str_take 8 id1 = str_take 8 id2.
Proof.
  intros Hd1 Hd2 Heq. rewrite !suffixed_filename_shape in Heq.
  apply split_at_first_underscore in Heq as [Hdate Heq]; [|done..].
  apply split_at_first_underscore in Heq as [Hslug Heq];
    [|apply slug_of_no_underscore..].
  apply str_app_inv_tail in Heq.
  split; [|done]. rewrite !orig_filename_shape. by rewrite Hdate, Hslug.
Qed.

Lemma assign_filenames_dom (all_data : dict meeting) (doc_id f : string) :
  assign_filenames all_data !! doc_id = Some f ->
  exists data, (doc_id, data) ∈ all_data.
Proof.
  intros Hlook.
  destruct (decide (doc_id ∈ dict_keys all_data)) as [Hin|Hnotin].
  - unfold dict_keys in Hin. apply list_elem_of_fmap in Hin as ([k data] & -> & Hin).
    by exists data.
  - unfold assign_filenames in Hlook.
    pose proof (first_pass_other doc_id all_data (∅, ∅) Hnotin) as Hfirst.
    destruct (fold_left assign_first all_data (∅, ∅)) as [fn cnt].
    rewrite second_pass_other in Hlook by done.
    simpl in Hfirst. rewrite Hfirst, lookup_empty in Hlook. discriminate.
Qed.

(** C4, as the code has it. The assigned names are pairwise different
    when the dates hold no underscore (as the output of [strftime] with
    [%Y-%m-%d]) and any two records that compute the same base name have
    ids that differ within their first 8 characters. *)
Theorem assigned_filenames_injective :
  forall all_data : dict meeting,
    NoDup (dict_keys all_data) ->
    (forall doc_id data,
        (doc_id, data) ∈ all_data -> has_underscore (m_date data) = false) ->
    (forall id1 d1 id2 d2,
        (id1, d1) ∈ all_data -> (id2, d2) ∈ all_data -> id1 <> id2 ->
        orig_filename d1 = orig_filename d2 ->
        str_take 8 id1 <> str_take 8 id2) ->
    forall id1 id2 f,
      assign_filenames all_data !! id1 = Some f ->
      assign_filenames all_data !! id2 = Some f ->
      id1 = id2.
Proof.
  intros all_data Hnodup Hdates Hprefix id1 id2 f H1 H2.
  destruct (assign_filenames_dom _ _ _ H1) as [d1 Hin1].
  destruct (assign_filenames_dom _ _ _ H2) as [d2 Hin2].
  rewrite (assign_filenames_lookup _ _ _ Hnodup Hin1) in H1.
  rewrite (assign_filenames_lookup _ _ _ Hnodup Hin2) in H2.
  destruct (decide (id1 = id2)) as [|Hne]; [done|exfalso].
  pose proof (Hdates _ _ Hin1) as Hdate1. pose proof (Hdates _ _ Hin2) as Hdate2.
  injection H1 as H1. injection H2 as H2. subst f.
  destruct (Nat.ltb_spec 1 (sharing (orig_filename d1) all_data)) as [Hs1|Hs1];
    destruct (Nat.ltb_spec 1 (sharing (orig_filename d2) all_data)) as [Hs2|Hs2].
  - apply suffixed_filename_inj in H2 as [Horig Htake]; [|done..].
    by apply (Hprefix id2 d2 id1 d1).
  - symmetry in H2. by apply suffixed_is_not_orig in H2.
  - by apply suffixed_is_not_orig in H2.
  - (* both plain: the two records share the base name, so it is counted twice *)
    apply list_elem_of_split in Hin1 as (l1 & l2 & ->).
    rewrite sharing_app, sharing_cons in Hs1.
    rewrite decide_True in Hs1 by done.
    apply elem_of_app in Hin2 as [Hin2|Hin2].
    + apply list_elem_of_split in Hin2 as (k1 & k2 & ->).
      rewrite sharing_app, sharing_cons in Hs1.
      rewrite decide_True in Hs1 by done. lia.
    + apply elem_of_cons in Hin2 as [Heq|Hin2]; [congruence|].
      apply list_elem_of_split in Hin2 as (k1 & k2 & ->).
      rewrite sharing_app, sharing_cons in Hs1.
      rewrite decide_True in Hs1 by done. lia.
Qed.

(** C4, the claim as stated fails: distinct ids are not enough, two
    records with the same base name and the same first 8 characters of
    their ids get the same file. *)
Lemma distinct_ids_can_share_a_filename :
  ~ (forall all_data : dict meeting,
        NoDup (dict_keys all_data) ->
        forall id1 id2 f,
          assign_filenames all_data !! id1 = Some f ->
          assign_filenames all_data !! id2 = Some f ->
          id1 = id2).
Proof.
  intros Hclaim.
  assert (NoDup (dict_keys Examples.same_prefix_records)) as Hnodup.
  { by_computation. }
  specialize (Hclaim Examples.same_prefix_records Hnodup
                     "abcdefgh-1" "abcdefgh-2" "2026-01-06_standup_abcdefgh.md").
  assert ("abcdefgh-1" = "abcdefgh-2") as Habs; [|discriminate].
  apply Hclaim; vm_compute; reflexivity.
Qed.

Lemma assigned_filenames_injective_witness :
  NoDup (dict_keys Examples.three_records)
  /\ assign_filenames Examples.three_records !! "aaaaaaaa-1"
     <> assign_filenames Examples.three_records !! "bbbbbbbb-2".
Proof.
  assert (NoDup (dict_keys Examples.three_records)) as Hnodup.
  { by_computation. }
  split; [exact Hnodup|]. intros Heq.
  assert ("aaaaaaaa-1" = "bbbbbbbb-2") as Habs; [|discriminate].
  apply (assigned_filenames_injective Examples.three_records Hnodup)
    with (f := "2026-01-06_standup_aaaaaaaa.md").
  - apply (forall_members (fun _ data => has_underscore (m_date data) = false)).
    by_computation.
  - apply (forall_member_pairs
             (fun id1 d1 id2 d2 =>
                id1 <> id2 -> orig_filename d1 = orig_filename d2 ->
                str_take 8 id1 <> str_take 8 id2)).
    by_computation.
  - vm_compute. reflexivity.
  - rewrite <- Heq. vm_compute. reflexivity.
Defined.

(* ------------------------------------------------------------------ *)
(** * Ordered dictionaries                                             *)
(* ------------------------------------------------------------------ *)

Lemma dict_get_set_eq {V} (k : string) (v : V) (d : dict V) :
  dict_get k (dict_set k v d) = Some v.
Proof.
  induction d as [|[k' v'] d IH]; simpl.
  - by rewrite decide_True.
  - destruct (decide (k' = k)) as [->|Hne]; simpl.
    + by rewrite decide_True.
    + by rewrite decide_False.
Qed.

Lemma dict_get_set_ne {V} (k k' : string) (v : V) (d : dict V) :
  k <> k' -> dict_get k' (dict_set k v d) = dict_get k' d.
Proof.
  intros Hne. induction d as [|[k0 v0] d IH]; simpl.
  - by rewrite decide_False.
  - destruct (decide (k0 = k)) as [->|Hne0]; simpl.
    + by rewrite !decide_False.
    + destruct (decide (k0 = k')); [done | apply IH].
Qed.

Lemma dict_get_None {V} (k : string) (d : dict V) :
  dict_get k d = None <-> k ∉ dict_keys d.
Proof.
  unfold dict_keys. induction d as [|[k' v'] d IH]; simpl.
  - split; [intros _; apply not_elem_of_nil | done].
  - rewrite not_elem_of_cons. destruct (decide (k' = k)) as [->|Hne].
    + split; [done | intros [? _]; done].
    + rewrite IH. split; [intros ?; split; [congruence | done] | by intros [_ ?]].
Qed.

Lemma dict_get_elem_of {V} (k : string) (v : V) (d : dict V) :
  dict_get k d = Some v -> (k, v) ∈ d.
Proof.
  induction d as [|[k' v'] d IH]; simpl; [done|].
  destruct (decide (k' = k)) as [->|Hne].
  - intros [= ->]. left.
  - intros Hget. right. by apply IH.
Qed.

Lemma dict_get_NoDup {V} (k : string) (v : V) (d : dict V) :
  NoDup (dict_keys d) -> (k, v) ∈ d -> dict_get k d = Some v.
Proof.
  unfold dict_keys. induction d as [|[k' v'] d IH]; intros Hnodup Hin.
  - by apply elem_of_nil in Hin.
  - rewrite fmap_cons in Hnodup. apply NoDup_cons in Hnodup as [Hnotin Hnodup].
    simpl. apply elem_of_cons in Hin as [[= -> ->]|Hin].
    + by rewrite decide_True.
    + destruct (decide (k' = k)) as [->|Hne]; [|by apply IH].
      exfalso. apply Hnotin. simpl.
      apply list_elem_of_fmap. by exists (k, v).
Qed.

Lemma dict_keys_set {V} (k : string) (v : V) (d : dict V) :
  dict_keys (dict_set k v d)
  = if dict_mem k d then dict_keys d else dict_keys d ++ [k].
Proof.
  unfold dict_keys, dict_mem. induction d as [|[k' v'] d IH]; [done|].
  cbn [dict_set dict_get].
  destruct (decide (k' = k)) as [->|Hne]; [done|].
  rewrite !fmap_cons, IH. by destruct (dict_get k d).
Qed.

(** Assignments keep the keys of a dict distinct. *)
Lemma dict_set_NoDup {V} (k : string) (v : V) (d : dict V) :
  NoDup (dict_keys d) -> NoDup (dict_keys (dict_set k v d)).
Proof.
  intros Hnodup. rewrite dict_keys_set. unfold dict_mem.
  destruct (dict_get k d) eqn:Hget; [done|].
  apply NoDup_app. split; [done|]. split; [|apply NoDup_singleton].
  intros x Hx ->%list_elem_of_singleton. by apply dict_get_None in Hget.
Qed.

Lemma dict_mem_false {V} (k : string) (d : dict V) :
  dict_mem k d = false <-> dict_get k d = None.
Proof. unfold dict_mem. destruct (dict_get k d); split; congruence. Qed.

(* ------------------------------------------------------------------ *)
(** * The loops of [sync]                                              *)
(* ------------------------------------------------------------------ *)


Lemma path_exists_delete (fs : gmap string string) (g f : string) :
  g <> f -> path_exists fs f = true -> path_exists (delete g fs) f = true.
Proof.
  intros Hne. unfold path_exists. destruct (decide (f = "")); [done|].
  by rewrite lookup_delete_ne.
Qed.

Lemma present_or_removed_emit (f : string) (fs : gmap string string)
      (acts : list action) (a : action) :
  present_or_removed f fs acts -> present_or_removed f fs (acts ++ [a]).
Proof.
  intros [Hex|(b & Hb & Hdel & Htgt)]; [by left|].
  right. exists b. rewrite elem_of_app. auto.
Qed.


Lemma present_or_removed_delete (f g : string) (fs : gmap string string)
      (acts : list action) (a : action) :
  is_delete a = true -> target a = g ->
  present_or_removed f fs acts ->
  present_or_removed f (delete g fs) (acts ++ [a]).
Proof.
  intros Hdel Htgt [Hex|(b & Hb & Hdelb & Htgtb)].
  - destruct (decide (g = f)) as [->|Hne].
    + right. exists a. rewrite elem_of_app, list_elem_of_singleton. auto.
    + left. by apply path_exists_delete.
  - right. exists b. rewrite elem_of_app. auto.
Qed.

Lemma fold_left_invariant {A B} (P : A -> Prop) (step : A -> B -> A) (l : list B) :
  (forall st x, x ∈ l -> P st -> P (step st x)) ->
  forall st, P st -> P (fold_left step l st).
Proof.
  induction l as [|x l IH]; intros Hstep st Hst; [done|].
  simpl. apply IH.
  - intros st' y Hy. apply Hstep. by right.
  - apply Hstep; [left | done].
Qed.

Section SyncFacts.
Context `{Datetime}.

(** ** The loop over the documents *)

Lemma sync_document_actions_mono force dry_run sync_state filenames st item a :
  a ∈ actions st ->
  a ∈ actions (sync_document force dry_run sync_state filenames st item).
Proof.
  intros Hin. unfold sync_document. destruct item as [doc_id data].
  repeat case_match; simpl; rewrite ?elem_of_app; auto.
Qed.

Lemma sync_document_new_actions force dry_run sync_state filenames st doc_id data a :
  a ∈ actions (sync_document force dry_run sync_state filenames st (doc_id, data)) ->
  a ∈ actions st
  \/ a = WriteDoc doc_id (default "" (filenames !! doc_id)) (build_markdown data)
  \/ exists e old,
      a = RemoveOld doc_id old /\ dict_get doc_id sync_state = Some e
      /\ e_filename e = Some old.
Proof.
  unfold sync_document.
  destruct (dict_get doc_id sync_state) as [e|] eqn:Hget; simpl;
    repeat case_match; simpl;
    rewrite ?elem_of_app, ?list_elem_of_singleton;
    intuition (subst; eauto 10).
Qed.


Lemma sync_document_other force dry_run sync_state filenames st doc_id data k :
  doc_id <> k ->
  dict_get k (new_sync_state
                (sync_document force dry_run sync_state filenames st (doc_id, data)))
  = dict_get k (new_sync_state st).
Proof.
  intros Hne. unfold sync_document.
  repeat case_match; simpl; by rewrite ?dict_get_set_ne.
Qed.

Lemma sync_document_dry force sync_state filenames st item :
  fs (sync_document force true sync_state filenames st item) = fs st.
Proof.
  unfold sync_document. destruct item as [doc_id data].
  repeat case_match; reflexivity.
Qed.

Lemma documents_actions_mono force dry_run sync_state filenames all_data st a :
  a ∈ actions st ->
  a ∈ actions (fold_left (sync_document force dry_run sync_state filenames)
                         all_data st).
Proof.
  apply (fold_left_invariant (fun st => a ∈ actions st)).
  intros st' item _. apply sync_document_actions_mono.
Qed.


Lemma documents_removes_recorded force dry_run sync_state filenames all_data st :
  (forall a, a ∈ actions st -> removes_recorded sync_state a) ->
  forall a,
    a ∈ actions (fold_left (sync_document force dry_run sync_state filenames)
                           all_data st) ->
    removes_recorded sync_state a.
Proof.
  apply (fold_left_invariant
           (fun st => forall a, a ∈ actions st -> removes_recorded sync_state a)).
  intros st' [doc_id data] _ Hst a Hin.
  apply sync_document_new_actions in Hin as [Hin|[->|(e & old & -> & Hget & Hold)]].
  - by apply Hst.
  - intros Hdel. discriminate.
  - intros _. exists doc_id, e. split; [by apply dict_get_elem_of | done].
Qed.

Lemma documents_other force dry_run sync_state filenames all_data k :
  k ∉ dict_keys all_data ->
  forall st,
    dict_get k (new_sync_state
                  (fold_left (sync_document force dry_run sync_state filenames)
                             all_data st))
    = dict_get k (new_sync_state st).
Proof.
  unfold dict_keys.
  induction all_data as [|[doc_id data] l IH]; intros Hnotin st; [done|].
  rewrite fmap_cons in Hnotin. apply not_elem_of_cons in Hnotin as [Hne Hnotin].
  cbn [fold_left]. rewrite IH by done. by apply sync_document_other.
Qed.

Lemma documents_dry force sync_state filenames all_data st :
  fs (fold_left (sync_document force true sync_state filenames) all_data st)
  = fs st.
Proof.
  revert st. induction all_data as [|item l IH]; intros st; [done|].
  cbn [fold_left]. by rewrite IH, sync_document_dry.
Qed.

(** ** The loop over the transcripts *)

Lemma export_transcript_actions_mono dry_run all_data sync_state filenames st item a :
  a ∈ actions st ->
  a ∈ actions (export_transcript dry_run all_data sync_state filenames st item).
Proof.
  intros Hin. unfold export_transcript. destruct item as [doc_id utterances].
  repeat case_match; simpl; rewrite ?elem_of_app; auto.
Qed.

Lemma export_transcript_new_actions dry_run all_data sync_state filenames st
      doc_id utterances a :
  a ∈ actions (export_transcript dry_run all_data sync_state filenames st
                                 (doc_id, utterances)) ->
  a ∈ actions st
  \/ exists data,
      dict_get doc_id all_data = Some data
      /\ transcript_saved (transcript_prev sync_state st doc_id) = false
      /\ a = SaveTranscript doc_id (transcript_filename_of data)
               (transcript_file_content doc_id data (format_transcript utterances)).
Proof.
  unfold export_transcript.
  destruct utterances as [|u us]; [by left|].
  destruct (dict_get doc_id all_data) as [data|]; [|by left].
  destruct (transcript_saved _) eqn:Hsaved; [by left|].
  repeat case_match; simpl;
    rewrite ?elem_of_app, ?list_elem_of_singleton;
    intuition (subst; eauto 10).
Qed.

Lemma export_transcript_emits dry_run all_data sync_state filenames st
      doc_id utterances data :
  utterances <> [] ->
  dict_get doc_id all_data = Some data ->
  transcript_saved (transcript_prev sync_state st doc_id) = false ->
  SaveTranscript doc_id (transcript_filename_of data)
    (transcript_file_content doc_id data (format_transcript utterances))
  ∈ actions (export_transcript dry_run all_data sync_state filenames st
                               (doc_id, utterances)).
Proof.
  intros Hne Hget Hsaved. unfold export_transcript.
  destruct utterances as [|u us]; [done|]. rewrite Hget, Hsaved.
  repeat case_match; simpl;
    rewrite ?elem_of_app, ?list_elem_of_singleton; auto.
Qed.


Lemma export_transcript_other dry_run all_data sync_state filenames st
      doc_id utterances k :
  doc_id <> k ->
  dict_get k (new_sync_state
                (export_transcript dry_run all_data sync_state filenames st
                                   (doc_id, utterances)))
  = dict_get k (new_sync_state st).
Proof.
  intros Hne. unfold export_transcript.
  repeat case_match; simpl; by rewrite ?dict_get_set_ne.
Qed.

Lemma export_transcript_absent dry_run all_data sync_state filenames st
      doc_id utterances :
  dict_get doc_id all_data = None ->
  export_transcript dry_run all_data sync_state filenames st (doc_id, utterances)
  = st.
Proof.
  intros Hget. unfold export_transcript. rewrite Hget. by destruct utterances.
Qed.

Lemma export_transcript_dry all_data sync_state filenames st item :
  fs (export_transcript true all_data sync_state filenames st item) = fs st.
Proof.
  unfold export_transcript. destruct item as [doc_id utterances].
  repeat case_match; reflexivity.
Qed.

Lemma transcripts_actions_mono dry_run all_data sync_state filenames items st a :
  a ∈ actions st ->
  a ∈ actions (fold_left (export_transcript dry_run all_data sync_state filenames)
                         items st).
Proof.
  apply (fold_left_invariant (fun st => a ∈ actions st)).
  intros st' item _. apply export_transcript_actions_mono.
Qed.


Lemma transcripts_removes_recorded dry_run all_data sync_state filenames items st :
  (forall a, a ∈ actions st -> removes_recorded sync_state a) ->
  forall a,
    a ∈ actions (fold_left (export_transcript dry_run all_data sync_state filenames)
                           items st) ->
    removes_recorded sync_state a.
Proof.
  apply (fold_left_invariant
           (fun st => forall a, a ∈ actions st -> removes_recorded sync_state a)).
  intros st' [doc_id utterances] _ Hst a Hin.
  apply export_transcript_new_actions in Hin as [Hin|(data & _ & _ & ->)].
  - by apply Hst.
  - intros Hdel. discriminate.
Qed.

Lemma transcripts_absent dry_run all_data sync_state filenames items k :
  dict_get k all_data = None ->
  forall st,
    dict_get k (new_sync_state
                  (fold_left (export_transcript dry_run all_data sync_state filenames)
                             items st))
    = dict_get k (new_sync_state st).
Proof.
  intros Hget. induction items as [|[doc_id utterances] l IH]; intros st; [done|].
  cbn [fold_left]. rewrite IH. destruct (decide (doc_id = k)) as [->|Hne].
  - by rewrite export_transcript_absent.
  - by apply export_transcript_other.
Qed.

Lemma transcripts_dry all_data sync_state filenames items st :
  fs (fold_left (export_transcript true all_data sync_state filenames) items st)
  = fs st.
Proof.
  revert st. induction items as [|item l IH]; intros st; [done|].
  cbn [fold_left]. by rewrite IH, export_transcript_dry.
Qed.

(** ** The loop over the entries of the previous state *)


Lemma cleanup_orphan_new_actions dry_run all_data st doc_id prev st' a :
  cleanup_orphan dry_run all_data st (doc_id, prev) = Ok st' ->
  a ∈ actions st' ->
  a ∈ actions st
  \/ exists f, a = RemoveOrphan doc_id f /\ e_filename prev = Some f.
Proof.
  unfold cleanup_orphan, os_remove.
  repeat case_match; intros Hok Hin; simplify_eq; simpl in *;
    rewrite ?elem_of_app, ?list_elem_of_singleton in Hin;
    intuition (subst; eauto).
Qed.

Lemma cleanup_orphan_present dry_run all_data st item st' f :
  cleanup_orphan dry_run all_data st item = Ok st' ->
  present_or_removed f (fs st) (actions st) ->
  present_or_removed f (fs st') (actions st').
Proof.
  unfold cleanup_orphan, os_remove. destruct item as [doc_id prev].
  repeat case_match; intros Hok Hinv; simplify_eq; simpl in *;
    repeat first
      [ assumption
      | apply present_or_removed_delete; [reflexivity | reflexivity |]
      | apply present_or_removed_emit ].
Qed.


Lemma cleanup_orphan_other dry_run all_data st doc_id prev st' k :
  cleanup_orphan dry_run all_data st (doc_id, prev) = Ok st' ->
  doc_id <> k ->
  dict_get k (new_sync_state st') = dict_get k (new_sync_state st).
Proof.
  unfold cleanup_orphan, os_remove.
  repeat case_match; intros Hok Hne; simplify_eq; simpl;
    by rewrite ?dict_get_set_ne.
Qed.

Lemma cleanup_orphan_own dry_run all_data st doc_id prev st' :
  cleanup_orphan dry_run all_data st (doc_id, prev) = Ok st' ->
  dict_mem doc_id all_data = false ->
  if transcript_saved prev
  then exists tf, e_transcript_filename prev = Some tf
                  /\ dict_get doc_id (new_sync_state st') = Some (tombstone tf)
  else new_sync_state st' = new_sync_state st.
Proof.
  unfold cleanup_orphan, os_remove. intros Hok Hmem. rewrite Hmem in Hok.
  destruct (transcript_saved prev);
    repeat case_match; simplify_eq; simpl; try done;
    eexists; (split; [reflexivity | apply dict_get_set_eq]).
Qed.

Lemma cleanup_orphan_dry all_data st item st' :
  cleanup_orphan true all_data st item = Ok st' -> fs st' = fs st.
Proof.
  unfold cleanup_orphan. destruct item as [doc_id prev].
  repeat case_match; intros Hok; by simplify_eq.
Qed.

Lemma cleanup_orphan_dry_raise all_data st item e st' :
  cleanup_orphan true all_data st item = Raise e st' -> fs st' = fs st.
Proof.
  unfold cleanup_orphan. destruct item as [doc_id prev].
  repeat case_match; intros Hraise; by simplify_eq.
Qed.

Lemma cleanup_orphans_cons dry_run all_data item rest st st' :
  cleanup_orphans dry_run all_data (item :: rest) st = Ok st' ->
  exists st1, cleanup_orphan dry_run all_data st item = Ok st1
              /\ cleanup_orphans dry_run all_data rest st1 = Ok st'.
Proof.
  simpl. destruct (cleanup_orphan dry_run all_data st item) as [st1|e st1];
    [|done]. intros Hok. by exists st1.
Qed.


Lemma cleanup_new_actions dry_run all_data items a :
forall st st',
  cleanup_orphans dry_run all_data items st = Ok st' ->
  a ∈ actions st' ->
  a ∈ actions st \/ exists k f, a = RemoveOrphan k f.
Proof.
induction items as [|[k e] rest IH]; intros st st' Hok Hin.
- injection Hok as <-. by left.
- apply cleanup_orphans_cons in Hok as (st1 & Hstep & Hrest).
  destruct (IH _ _ Hrest Hin) as [Hin1|Hnew]; [|by right].
  apply (cleanup_orphan_new_actions _ _ _ _ _ _ _ Hstep) in Hin1
    as [Hin1|(f & -> & _)]; [by left | right; eauto].
Qed.

Lemma cleanup_present dry_run all_data items f :
  forall st st',
    cleanup_orphans dry_run all_data items st = Ok st' ->
    present_or_removed f (fs st) (actions st) ->
    present_or_removed f (fs st') (actions st').
Proof.
  induction items as [|item rest IH]; intros st st' Hok Hinv.
  - by injection Hok as <-.
  - apply cleanup_orphans_cons in Hok as (st1 & Hstep & Hrest).
    eapply IH; [done|]. by eapply cleanup_orphan_present.
Qed.





Lemma cleanup_dry all_data items :
  forall st st',
    cleanup_orphans true all_data items st = Ok st' -> fs st' = fs st.
Proof.
  induction items as [|item rest IH]; intros st st' Hok.
  - by injection Hok as <-.
  - apply cleanup_orphans_cons in Hok as (st1 & Hstep & Hrest).
    rewrite (IH _ _ Hrest). by eapply cleanup_orphan_dry.
Qed.

Lemma cleanup_dry_raise all_data items :
  forall st e st',
    cleanup_orphans true all_data items st = Raise e st' -> fs st' = fs st.
Proof.
  induction items as [|item rest IH]; intros st e st' Hraise; [done|].
  simpl in Hraise.
  destruct (cleanup_orphan true all_data st item) as [st1|e1 st1] eqn:Hstep.
  - rewrite (IH _ _ _ Hraise). by eapply cleanup_orphan_dry.
  - injection Hraise as <- <-. by eapply cleanup_orphan_dry_raise.
Qed.

(** ** A forced run *)

Lemma sync_document_forced dry_run sync_state filenames st doc_id data :
  no_transcript_saved st ->
  no_transcript_saved
    (sync_document true dry_run sync_state filenames st (doc_id, data))
  /\ WriteDoc doc_id (default "" (filenames !! doc_id)) (build_markdown data)
     ∈ actions (sync_document true dry_run sync_state filenames st (doc_id, data)).
Proof.
  intros Hst. unfold sync_document. simpl. split.
  - intros k e.
    repeat case_match; simpl;
      (destruct (decide (doc_id = k)) as [->|Hne];
       [rewrite dict_get_set_eq; by intros [= <-]
       |rewrite dict_get_set_ne by done; apply Hst]).
  - repeat case_match; simpl;
      rewrite ?elem_of_app, ?list_elem_of_singleton; auto.
Qed.

Lemma documents_forced dry_run sync_state filenames all_data :
  forall st,
    no_transcript_saved st ->
    let st' := fold_left (sync_document true dry_run sync_state filenames)
                         all_data st in
    no_transcript_saved st'
    /\ forall doc_id data,
        (doc_id, data) ∈ all_data ->
        WriteDoc doc_id (default "" (filenames !! doc_id)) (build_markdown data)
        ∈ actions st'.
Proof.
  induction all_data as [|[k d] l IH]; intros st Hst; simpl.
  - split; [done|]. intros doc_id data Hin. by apply elem_of_nil in Hin.
  - destruct (sync_document_forced dry_run sync_state filenames st k d Hst)
      as [Hst1 Hwrite].
    destruct (IH _ Hst1) as [Hfinal Hwrites]. split; [done|].
    intros doc_id data Hin. apply elem_of_cons in Hin as [[= -> ->]|Hin].
    + by apply documents_actions_mono.
    + by apply Hwrites.
Qed.

(** With distinct keys, every transcript whose document has no saved
    transcript yet is written. *)
Lemma transcripts_save_all dry_run all_data sync_state filenames items :
  NoDup (dict_keys items) ->
  forall st,
    (forall doc_id, doc_id ∈ dict_keys items ->
                    transcript_saved (transcript_prev sync_state st doc_id) = false) ->
    forall doc_id utterances data,
      (doc_id, utterances) ∈ items ->
      utterances <> [] ->
      dict_get doc_id all_data = Some data ->
      SaveTranscript doc_id (transcript_filename_of data)
        (transcript_file_content doc_id data (format_transcript utterances))
      ∈ actions (fold_left (export_transcript dry_run all_data sync_state filenames)
                           items st).
Proof.
  unfold dict_keys.
  induction items as [|[k u] rest IH]; intros Hnodup st Hprev doc_id us data Hin Hne Hget.
  - by apply elem_of_nil in Hin.
  - rewrite fmap_cons in Hnodup. apply NoDup_cons in Hnodup as [Hnotin Hnodup].
    cbn [fold_left]. apply elem_of_cons in Hin as [[= -> ->]|Hin].
    + apply transcripts_actions_mono, export_transcript_emits; [done..|].
      apply Hprev. left.
    + apply IH; [done| |done..].
      intros id' Hid'. unfold transcript_prev.
      rewrite export_transcript_other.
      * apply Hprev. by right.
      * intros ->. by apply Hnotin.
Qed.

(** C1, as the code has it. With [force] the previous state is not read:
    the run starts from the empty state. It completes; it removes no
    file (no old name is known, and no entry is an orphan); it writes
    every record; and it writes the transcript of every document of
    the collection that has utterances, whatever the previous state
    says about [transcript_saved]. The run is the same for any other
    state file. *)
Theorem forced_run_ignores_previous_state :
  forall (all_data : dict meeting) (transcripts : dict (list utterance))
         (dry_run : bool) (w : world),
    NoDup (dict_keys transcripts) ->
    exists r,
      sync_from all_data transcripts true dry_run w = Completed r
      /\ (forall a, a ∈ actions (r_run r) -> is_delete a = false)
      /\ (forall doc_id data,
             (doc_id, data) ∈ all_data ->
             exists filename,
               WriteDoc doc_id filename (build_markdown data) ∈ actions (r_run r))
      /\ (forall doc_id utterances data,
             (doc_id, utterances) ∈ transcripts ->
             utterances <> [] ->
             dict_get doc_id all_data = Some data ->
             SaveTranscript doc_id (transcript_filename_of data)
               (transcript_file_content doc_id data (format_transcript utterances))
             ∈ actions (r_run r))
      /\ (forall previous,
             exists r',
               sync_from all_data transcripts true dry_run
                         {| files := files w; state_file := previous |}
               = Completed r'
               /\ r_run r' = r_run r).
Proof.
  intros all_data transcripts dry_run w Hnodup.
  unfold sync_from. cbn [negb cleanup_orphans].
  set (filenames := assign_filenames all_data).
  set (st1 := fold_left (sync_document true dry_run [] filenames) all_data
                        (init_run (files w))).
  set (st2 := fold_left (export_transcript dry_run all_data [] filenames)
                        transcripts st1).
  assert (no_transcript_saved (init_run (files w))) as Hinit by done.
  destruct (documents_forced dry_run [] filenames all_data _ Hinit)
    as [Hst1 Hwrites]. fold st1 in Hst1, Hwrites.
  eexists. split; [reflexivity|]. cbn [r_run]. repeat split.
  - intros a Ha.
    pose proof (transcripts_removes_recorded dry_run all_data [] filenames
                  transcripts st1) as Hrec.
    destruct (is_delete a) eqn:Hdel; [|done].
    destruct (Hrec (documents_removes_recorded true dry_run [] filenames all_data
                      (init_run (files w))
                      (fun b Hb => False_ind _ (proj1 (elem_of_nil b) Hb)))
                   a Ha Hdel) as (k & e & Hin & _).
    by apply elem_of_nil in Hin.
  - intros doc_id data Hin. eexists.
    apply transcripts_actions_mono. by apply Hwrites.
  - intros doc_id utterances data Hin Hne Hget.
    apply transcripts_save_all; [done| |done..].
    intros k _. unfold transcript_prev. simpl.
    destruct (dict_get k (new_sync_state st1)) as [e|] eqn:He; [|done].
    by apply (Hst1 k e).
  - intros previous. eexists. split; reflexivity.
Qed.

(** ** The record of a saved transcript *)

Lemma sync_document_unchanged dry_run sync_state filenames st doc_id data prev :
  dict_get doc_id sync_state = Some prev ->
  e_updated_at prev = Some (m_updated_at data) ->
  sync_document false dry_run sync_state filenames st (doc_id, data)
  = incr_skipped (set_entry doc_id prev st).
Proof.
  intros Hget Hsame. unfold sync_document. rewrite Hget. simpl.
  by rewrite bool_decide_eq_true_2.
Qed.

(** After the loop over the documents, the entry of an unchanged document
    is the one of the previous state. *)
Lemma documents_unchanged dry_run sync_state filenames all_data st doc_id data prev :
  NoDup (dict_keys all_data) ->
  (doc_id, data) ∈ all_data ->
  dict_get doc_id sync_state = Some prev ->
  e_updated_at prev = Some (m_updated_at data) ->
  dict_get doc_id
    (new_sync_state (fold_left (sync_document false dry_run sync_state filenames)
                               all_data st))
  = Some prev.
Proof.
  intros Hnodup Hin Hget Hsame.
  apply list_elem_of_split in Hin as (l1 & l2 & ->).
  rewrite dict_keys_app in Hnodup.
  apply NoDup_app in Hnodup as (_ & _ & Hnodup).
  apply NoDup_cons in Hnodup as [Hl2 _].
  rewrite fold_left_app. cbn [fold_left].
  rewrite documents_other by done.
  rewrite (sync_document_unchanged _ _ _ _ _ _ _ Hget Hsame). simpl.
  apply dict_get_set_eq.
Qed.

(** Once the transcript of a document is recorded as saved, the loop over
    the transcripts keeps the record and writes nothing for it. *)
Lemma transcripts_keep_saved dry_run all_data sync_state filenames items doc_id :
  forall st,
    transcript_saved (transcript_prev sync_state st doc_id) = true ->
    (forall f c, SaveTranscript doc_id f c ∉ actions st) ->
    let st' := fold_left (export_transcript dry_run all_data sync_state filenames)
                         items st in
    transcript_saved (transcript_prev sync_state st' doc_id) = true
    /\ forall f c, SaveTranscript doc_id f c ∉ actions st'.
Proof.
  intros st Hsaved Hnone.
  apply (fold_left_invariant
           (fun st => transcript_saved (transcript_prev sync_state st doc_id) = true
                      /\ forall f c, SaveTranscript doc_id f c ∉ actions st));
    [|done].
  clear st Hsaved Hnone. intros st [k us] _ [Hsaved Hnone].
  destruct (decide (k = doc_id)) as [->|Hne].
  - assert (export_transcript dry_run all_data sync_state filenames st (doc_id, us)
            = st) as ->; [|done].
    unfold export_transcript. rewrite Hsaved. by repeat case_match.
  - split.
    + unfold transcript_prev. by rewrite export_transcript_other.
    + intros f c Hin.
      apply export_transcript_new_actions in Hin as [Hin|(d & _ & _ & [= ? _ _])];
        [by apply (Hnone f c) | done].
Qed.

(** X26. The half of C2 that the code keeps: when the version token of the
    record is unchanged and the previous state says that its transcript
    is saved, a run without [force] writes no transcript for it. *)
Lemma unchanged_record_transcript_not_rewritten
      all_data transcripts dry_run w r doc_id data prev :
  NoDup (dict_keys all_data) ->
  (doc_id, data) ∈ all_data ->
  dict_get doc_id (load_sync_state w) = Some prev ->
  e_updated_at prev = Some (m_updated_at data) ->
  transcript_saved prev = true ->
  sync_from all_data transcripts false dry_run w = Completed r ->
  forall f c, SaveTranscript doc_id f c ∉ actions (r_run r).
Proof.
  intros Hnodup Hin Hget Hsame Hsaved.
  unfold sync_from. cbn [negb].
  set (sync_state := load_sync_state w) in *.
  set (filenames := assign_filenames all_data).
  set (st1 := fold_left (sync_document false dry_run sync_state filenames)
                        all_data (init_run (files w))).
  set (st2 := fold_left (export_transcript dry_run all_data sync_state filenames)
                        transcripts st1).
  destruct (cleanup_orphans dry_run all_data sync_state st2) as [st3|e st3]
    eqn:Hclean; [|done].
  intros [= <-]. cbn [r_run].
  assert (forall f c, SaveTranscript doc_id f c ∉ actions st1) as Hst1.
  { intros f c. unfold st1.
    apply (fold_left_invariant (fun st => SaveTranscript doc_id f c ∉ actions st));
      [|apply not_elem_of_nil].
    intros st [k d] _ Hst Habs.
    apply sync_document_new_actions in Habs as [?|[?|(? & ? & ? & _)]]; done. }
  assert (transcript_saved (transcript_prev sync_state st1 doc_id) = true) as Hprev.
  { unfold transcript_prev, st1.
    by rewrite (documents_unchanged _ _ _ _ _ _ _ _ Hnodup Hin Hget Hsame). }
  destruct (transcripts_keep_saved dry_run all_data sync_state filenames transcripts
              doc_id st1 Hprev Hst1) as [_ Hst2]. fold st2 in Hst2.
  intros f c Habs.
  apply (cleanup_new_actions _ _ _ _ _ _ Hclean) in Habs as [Habs|(k & g & [=])].
  by apply (Hst2 f c).
Qed.

(** ** A second run on what the first one left *)

Lemma export_transcript_keeps_saved dry_run all_data sync_state filenames st item k :
  transcript_saved (transcript_prev sync_state st k) = true ->
  transcript_saved
    (transcript_prev sync_state
       (export_transcript dry_run all_data sync_state filenames st item) k) = true.
Proof.
  intros Hsaved. destruct item as [doc_id us].
  destruct (decide (doc_id = k)) as [->|Hne].
  - unfold export_transcript. rewrite Hsaved. by repeat case_match.
  - unfold transcript_prev. by rewrite export_transcript_other.
Qed.

Lemma export_transcript_marks_saved dry_run all_data sync_state filenames st
        doc_id utterances data :
  utterances <> [] ->
  dict_get doc_id all_data = Some data ->
  transcript_saved
    (transcript_prev sync_state
       (export_transcript dry_run all_data sync_state filenames st
                          (doc_id, utterances)) doc_id) = true.
Proof.
  intros Hne Hget. unfold export_transcript.
  destruct utterances as [|u us]; [done|]. rewrite Hget.
  destruct (transcript_saved (transcript_prev sync_state st doc_id)) eqn:Hsaved;
    [done|].
  unfold transcript_prev.
  repeat case_match; simpl; by rewrite dict_get_set_eq.
Qed.

(** After the loop over the transcripts, every document of the collection
    with utterances is recorded as saved. *)
Lemma transcripts_all_saved dry_run all_data sync_state filenames items
        doc_id utterances data :
  (doc_id, utterances) ∈ items ->
  utterances <> [] ->
  dict_get doc_id all_data = Some data ->
  forall st,
    transcript_saved
      (transcript_prev sync_state
         (fold_left (export_transcript dry_run all_data sync_state filenames)
                    items st) doc_id) = true.
Proof.
  intros Hin Hne Hget st.
  apply list_elem_of_split in Hin as (l1 & l2 & ->).
  rewrite fold_left_app. cbn [fold_left].
  apply (fold_left_invariant
           (fun st => transcript_saved (transcript_prev sync_state st doc_id) = true)).
  - intros st' item _. apply export_transcript_keeps_saved.
  - by eapply export_transcript_marks_saved.
Qed.

Lemma sync_document_token force dry_run sync_state filenames st doc_id data :
  records_token data
    (dict_get doc_id
       (new_sync_state
          (sync_document force dry_run sync_state filenames st (doc_id, data)))).
Proof.
  unfold sync_document, records_token.
  destruct (negb force && bool_decide _) eqn:Hskip.
  - apply andb_true_iff in Hskip as [_ Hsame%bool_decide_eq_true].
    simpl. rewrite dict_get_set_eq. eauto.
  - repeat case_match; simpl; rewrite dict_get_set_eq; eauto.
Qed.

Lemma documents_token force dry_run sync_state filenames all_data doc_id data st :
  NoDup (dict_keys all_data) ->
  (doc_id, data) ∈ all_data ->
  records_token data
    (dict_get doc_id
       (new_sync_state
          (fold_left (sync_document force dry_run sync_state filenames) all_data st))).
Proof.
  intros Hnodup Hin.
  apply list_elem_of_split in Hin as (l1 & l2 & ->).
  rewrite dict_keys_app in Hnodup.
  apply NoDup_app in Hnodup as (_ & _ & Hnodup).
  apply NoDup_cons in Hnodup as [Hl2 _].
  rewrite fold_left_app. cbn [fold_left].
  rewrite documents_other by done. apply sync_document_token.
Qed.

Lemma export_transcript_token dry_run all_data sync_state filenames st item k data :
  records_token data (dict_get k (new_sync_state st)) ->
  records_token data
    (dict_get k (new_sync_state
                   (export_transcript dry_run all_data sync_state filenames st item))).
Proof.
  intros (e & Hget & Htoken). destruct item as [doc_id us].
  destruct (decide (doc_id = k)) as [->|Hne].
  - unfold export_transcript, records_token.
    repeat case_match; simpl in *; rewrite ?dict_get_set_eq; simplify_eq; eauto.
  - rewrite export_transcript_other by done. by exists e.
Qed.

Lemma cleanup_member dry_run all_data items k :
  dict_mem k all_data = true ->
  forall st st',
    cleanup_orphans dry_run all_data items st = Ok st' ->
    dict_get k (new_sync_state st') = dict_get k (new_sync_state st).
Proof.
  intros Hmem. induction items as [|[doc_id prev] rest IH]; intros st st' Hok.
  - by injection Hok as <-.
  - apply cleanup_orphans_cons in Hok as (st1 & Hstep & Hrest).
    rewrite (IH _ _ Hrest). destruct (decide (doc_id = k)) as [->|Hne].
    + unfold cleanup_orphan in Hstep. rewrite Hmem in Hstep. by injection Hstep as <-.
    + by eapply cleanup_orphan_other.
Qed.

(** A run over documents that are all unchanged does nothing but copy
    their entries. *)
Lemma documents_all_unchanged dry_run sync_state filenames all_data :
  (forall doc_id data, (doc_id, data) ∈ all_data ->
                       records_token data (dict_get doc_id sync_state)) ->
  forall st,
    let st' := fold_left (sync_document false dry_run sync_state filenames)
                         all_data st in
    actions st' = actions st /\ fs st' = fs st
    /\ forall k, dict_get k (new_sync_state st')
                 = if dict_mem k all_data then dict_get k sync_state
                   else dict_get k (new_sync_state st).
Proof.
  induction all_data as [|[doc_id data] l IH]; intros Hall st.
  - by cbn.
  - destruct (Hall doc_id data) as (e & Hget & Htoken); [left|].
    cbn [fold_left].
    rewrite (sync_document_unchanged _ _ _ _ _ _ _ Hget Htoken).
    assert (forall k d, (k, d) ∈ l -> records_token d (dict_get k sync_state))
      as Hrest by (intros k d Hk; apply Hall; by right).
    destruct (IH Hrest (incr_skipped (set_entry doc_id e st)))
      as (Hacts & Hfs & Hstate).
    split; [done|]. split; [done|]. intros k. rewrite Hstate.
    unfold dict_mem at 2. simpl.
    destruct (decide (doc_id = k)) as [->|Hne].
    + rewrite dict_get_set_eq, Hget. by destruct (dict_mem k l).
    + by rewrite dict_get_set_ne.
Qed.

Lemma transcripts_all_skipped dry_run all_data sync_state filenames items st :
  (forall doc_id utterances data,
      (doc_id, utterances) ∈ items -> utterances <> [] ->
      dict_get doc_id all_data = Some data ->
      transcript_saved (transcript_prev sync_state st doc_id) = true) ->
  fold_left (export_transcript dry_run all_data sync_state filenames) items st = st.
Proof.
  induction items as [|[doc_id us] rest IH]; intros Hall; [done|].
  cbn [fold_left].
  assert (export_transcript dry_run all_data sync_state filenames st (doc_id, us)
          = st) as ->.
  { unfold export_transcript. destruct us as [|u us]; [done|].
    destruct (dict_get doc_id all_data) as [data|] eqn:Hget; [|done].
    by rewrite (Hall doc_id (u :: us) data ltac:(left) ltac:(done) Hget). }
  apply IH. intros k us' data Hin. apply Hall. by right.
Qed.

Lemma cleanup_all_present dry_run all_data items st :
  (forall k, k ∈ dict_keys items -> dict_mem k all_data = true) ->
  cleanup_orphans dry_run all_data items st = Ok st.
Proof.
  unfold dict_keys. induction items as [|[doc_id prev] rest IH]; intros Hall; [done|].
  simpl. rewrite Hall by (rewrite fmap_cons; left).
  apply IH. intros k Hk. apply Hall. rewrite fmap_cons. by right.
Qed.

(** X27. What C5 asks for holds when the first run leaves no tombstone: if
    every key of the state it produced is the id of a record, a second
    run on the same collection does nothing, and its state has the same
    entries. *)
Lemma second_run_is_noop_without_tombstone all_data transcripts w first :
  NoDup (dict_keys all_data) ->
  sync_from all_data transcripts false false w = Completed first ->
  (forall k, k ∈ dict_keys (new_sync_state (r_run first)) -> k ∈ dict_keys all_data) ->
  exists second,
    sync_from all_data transcripts false false (r_world first) = Completed second
    /\ actions (r_run second) = []
    /\ files (r_world second) = files (r_world first)
    /\ forall k, dict_get k (new_sync_state (r_run second))
                 = dict_get k (new_sync_state (r_run first)).
Proof.
  intros Hnodup Hfirst Hkeys.
  revert Hfirst. unfold sync_from at 1. cbn [negb].
  set (sync_state := load_sync_state w).
  set (filenames := assign_filenames all_data).
  set (st1 := fold_left (sync_document false false sync_state filenames)
                        all_data (init_run (files w))).
  set (st2 := fold_left (export_transcript false all_data sync_state filenames)
                        transcripts st1).
  destruct (cleanup_orphans false all_data sync_state st2) as [st3|e st3]
    eqn:Hclean; [|done].
  intros [= <-]. cbn [r_run r_world] in *.
  set (state1 := new_sync_state st3) in *.
  assert (forall k, dict_mem k all_data = true ->
                    dict_get k state1 = dict_get k (new_sync_state st2)) as Hmember.
  { intros k Hk. by apply (cleanup_member _ _ _ _ Hk _ _ Hclean). }
  assert (forall k d, (k, d) ∈ all_data -> dict_mem k all_data = true) as Hmem.
  { intros k d Hk. unfold dict_mem. by rewrite (dict_get_NoDup _ _ _ Hnodup Hk). }
  assert (forall k d, (k, d) ∈ all_data -> records_token d (dict_get k state1))
    as Htokens.
  { intros k d Hk. rewrite (Hmember k (Hmem k d Hk)). unfold st2.
    apply (fold_left_invariant
             (fun st => records_token d (dict_get k (new_sync_state st)))).
    - intros st item _. apply export_transcript_token.
    - by apply documents_token. }
  unfold sync_from. cbn [negb load_sync_state state_file default files].
  destruct (documents_all_unchanged false state1 filenames all_data Htokens
              (init_run (fs st3))) as (Hacts & Hfs & Hstate).
  set (st1' := fold_left (sync_document false false state1 filenames) all_data
                         (init_run (fs st3))) in *.
  rewrite transcripts_all_skipped.
  - rewrite cleanup_all_present.
    + eexists. split; [reflexivity|]. cbn [r_run r_world files].
      split; [done|]. split; [done|]. intros k. rewrite Hstate.
      destruct (dict_mem k all_data) eqn:Hk; [done|].
      simpl. symmetry. apply dict_get_None. intros Hin.
      apply Hkeys, dict_get_None in Hin; [done|].
      by apply dict_mem_false.
    + intros k Hk. apply Hkeys in Hk.
      unfold dict_keys in Hk. apply list_elem_of_fmap in Hk as ([k' d] & -> & Hk).
      by apply (Hmem k' d).
  - intros k us d Hin Hne Hget.
    pose proof (dict_get_elem_of _ _ _ Hget) as Hk.
    unfold transcript_prev. rewrite Hstate, (Hmem k d Hk).
    destruct (Htokens k d Hk) as (e & He & _). rewrite He. simpl.
    rewrite (Hmember k (Hmem k d Hk)) in He.
    pose proof (transcripts_all_saved false all_data sync_state filenames transcripts
                  k us d Hin Hne Hget st1) as Hsaved.
    fold st2 in Hsaved. unfold transcript_prev in Hsaved.
    by rewrite He in Hsaved.
Qed.

(** ** The collection built from the cache *)

(** The ids of [all_data], as [sync] builds it, are distinct. *)
Lemma collect_all_data_NoDup (state : cache_state) :
  NoDup (dict_keys (collect_all_data state)).
Proof.
  unfold collect_all_data.
  apply (fold_left_invariant (fun all_data : dict meeting => NoDup (dict_keys all_data)));
    [|apply NoDup_nil_2].
  intros all_data [doc_id doc] _ Hnodup.
  destruct (_ || _); [done | by apply dict_set_NoDup].
Qed.

(** ** A dry run *)

(** X28. A dry run, completed or not, leaves the directory and the state
    file as they were. *)
Lemma dry_run_leaves_world all_data transcripts force w :
  match sync_from all_data transcripts force true w with
  | Completed r => r_world r = w
  | Crashed _ w' => w' = w
  end.
Proof.
  unfold sync_from.
  set (sync_state := if negb force then load_sync_state w else []).
  set (filenames := assign_filenames all_data).
  destruct (cleanup_orphans true all_data sync_state _) as [st|e st] eqn:Hclean.
  - cbn [negb r_world]. apply cleanup_dry in Hclean.
    rewrite Hclean, transcripts_dry, documents_dry. by destruct w.
  - apply cleanup_dry_raise in Hclean.
    rewrite Hclean, transcripts_dry, documents_dry. by destruct w.
Qed.

(** ** Documents that left the cache *)


End SyncFacts.

(* ------------------------------------------------------------------ *)
(** * Further facts about strings                                      *)
(* ------------------------------------------------------------------ *)

Lemma str_forallb_app (p : ascii -> bool) (a b : string) :
  str_forallb p (a +:+ b) = str_forallb p a && str_forallb p b.
Proof.
  induction a as [|x a IH]; [done|].
  rewrite str_app_cons. simpl. by rewrite IH, andb_assoc.
Qed.

Lemma str_forallb_map (p : ascii -> bool) (f : ascii -> ascii) (s : string) :
  (forall c, p (f c) = true) -> str_forallb p (str_map f s) = true.
Proof.
  intros Hf. induction s as [|c s IH]; [done|]. simpl. by rewrite Hf, IH.
Qed.

Lemma str_forallb_filter (p k q : ascii -> bool) (s : string) :
  (forall c, p c = true -> k c = true -> q c = true) ->
  str_forallb p s = true -> str_forallb q (str_filter k s) = true.
Proof.
  intros Hq. induction s as [|c s IH]; [done|]. simpl.
  intros [Hc Hs]%andb_true_iff. destruct (k c) eqn:Hk; [|by apply IH].
  simpl. by rewrite (Hq c Hc Hk), IH.
Qed.

Lemma str_forallb_sub_runs (p r q : ascii -> bool) (rep : string) (s : string) :
  (forall c, p c = true -> r c = false -> q c = true) ->
  str_forallb q rep = true ->
  str_forallb p s = true ->
  forall in_run, str_forallb q (sub_runs r rep in_run s) = true.
Proof.
  intros Hq Hrep. induction s as [|c s IH]; [done|]. simpl.
  intros [Hc Hs]%andb_true_iff in_run. destruct (r c) eqn:Hr.
  - destruct in_run; [by apply IH|]. by rewrite str_forallb_app, Hrep, IH.
  - simpl. by rewrite (Hq c Hc Hr), IH.
Qed.

Lemma str_forallb_lstrip (p k : ascii -> bool) (s : string) :
  str_forallb p s = true -> str_forallb p (lstrip_by k s) = true.
Proof.
  induction s as [|c s IH]; [done|]. simpl. intros Hs.
  destruct (k c); [|done]. apply andb_true_iff in Hs as [_ Hs]. by apply IH.
Qed.

Lemma str_forallb_rstrip (p k : ascii -> bool) (s : string) :
  str_forallb p s = true -> str_forallb p (rstrip_by k s) = true.
Proof.
  induction s as [|c s IH]; [done|]. simpl.
  intros [Hc Hs]%andb_true_iff. specialize (IH Hs).
  destruct (rstrip_by k s) as [|b r].
  - destruct (k c); [done|]. simpl. by rewrite Hc.
  - simpl in *. by rewrite Hc, IH.
Qed.

Lemma str_forallb_take (p : ascii -> bool) (n : nat) (s : string) :
  str_forallb p s = true -> str_forallb p (str_take n s) = true.
Proof.
  revert s. induction n as [|n IH]; intros [|c s] Hs; try done.
  simpl in Hs. apply andb_true_iff in Hs as [Hc Hs]. simpl. by rewrite Hc, IH.
Qed.

Lemma str_take_length (n : nat) (s : string) : String.length (str_take n s) <= n.
Proof.
  revert s. induction n as [|n IH]; intros [|c s]; simpl; try lia.
  specialize (IH s). lia.
Qed.

(** [rstrip] keeps a first character that it must not remove. *)
Lemma rstrip_by_cons_keep (p : ascii -> bool) (c : ascii) (s : string) :
  p c = false -> rstrip_by p (String c s) = String c (rstrip_by p s).
Proof. intros Hc. simpl. rewrite Hc. by destruct (rstrip_by p s). Qed.

(** What is left by [rstrip] begins as the text did. *)
Lemma rstrip_by_head (p : ascii -> bool) (s : string) (b : ascii) (r : string) :
  rstrip_by p s = String b r -> exists r', s = String b r'.
Proof.
  destruct s as [|c s]; [done|]. simpl.
  destruct (rstrip_by p s); [destruct (p c)|]; intros [= <- _]; eauto.
Qed.

Lemma starts_with_rstrip (p : ascii -> bool) (c : ascii) (s : string) :
  starts_with c s = false -> starts_with c (rstrip_by p s) = false.
Proof.
  intros Hs. destruct (rstrip_by p s) as [|b r] eqn:Hr; [done|].
  apply rstrip_by_head in Hr as [r' ->]. exact Hs.
Qed.

Lemma starts_with_take (c : ascii) (n : nat) (s : string) :
  starts_with c s = false -> starts_with c (str_take n s) = false.
Proof. destruct n, s; simpl; auto. Qed.

Lemma lstrip_by_head (p : ascii -> bool) (s : string) :
  match lstrip_by p s with
  | String b _ => p b = false
  | "" => True
  end.
Proof.
  induction s as [|c s IH]; [done|]. simpl.
  destruct (p c) eqn:Hc; [exact IH | exact Hc].
Qed.

Lemma no_adjacent_tail (c a : ascii) (s : string) :
  no_adjacent c (String a s) = true -> no_adjacent c s = true.
Proof. simpl. by intros [_ ?]%andb_true_iff. Qed.

Lemma no_adjacent_lstrip (c : ascii) (p : ascii -> bool) (s : string) :
  no_adjacent c s = true -> no_adjacent c (lstrip_by p s) = true.
Proof.
  induction s as [|a s IH]; [done|]. intros Hs. simpl.
  destruct (p a); [|done]. apply IH. by eapply no_adjacent_tail.
Qed.

Lemma no_adjacent_rstrip (c : ascii) (p : ascii -> bool) (s : string) :
  no_adjacent c s = true -> no_adjacent c (rstrip_by p s) = true.
Proof.
  induction s as [|a s IH]; [done|]. intros Hs.
  pose proof (IH (no_adjacent_tail _ _ _ Hs)) as Hr.
  simpl in Hs. apply andb_true_iff in Hs as [Ha _]. simpl.
  destruct (rstrip_by p s) as [|b r] eqn:Hstrip.
  - destruct (p a); [done|]. simpl. by rewrite andb_false_r.
  - apply rstrip_by_head in Hstrip as [r' ->].
    change (no_adjacent c (String a (String b r)))
      with (negb (is_char c a && is_char c b) && no_adjacent c (String b r)).
    simpl in Ha. by rewrite Ha, Hr.
Qed.

Lemma no_adjacent_take (c : ascii) (n : nat) (s : string) :
  no_adjacent c s = true -> no_adjacent c (str_take n s) = true.
Proof.
  revert s. induction n as [|n IH]; intros [|a s] Hs; try done.
  pose proof (IH s (no_adjacent_tail _ _ _ Hs)) as Hr.
  simpl in Hs. apply andb_true_iff in Hs as [Ha _].
  simpl. rewrite Hr, andb_true_r.
  destruct (is_char c a); [|done]. simpl in *.
  destruct n, s; simpl in *; auto.
Qed.

(** Collapsing the runs of [c] leaves no two [c] side by side. *)
Lemma sub_runs_no_adjacent (c : ascii) (s : string) :
  (starts_with c (sub_runs (is_char c) (String c "") true s) = false
   /\ no_adjacent c (sub_runs (is_char c) (String c "") true s) = true)
  /\ no_adjacent c (sub_runs (is_char c) (String c "") false s) = true.
Proof.
  induction s as [|a s [[Hhead Htrue] Hfalse]]; [done|].
  simpl. destruct (is_char c a) eqn:Ha.
  - split; [done|]. rewrite str_app_cons, str_app_nil_l. simpl.
    by rewrite Hhead, Htrue, andb_false_r.
  - simpl. rewrite !Ha, Hfalse. done.
Qed.

(* ------------------------------------------------------------------ *)
(** * The shape of a slug                                              *)
(* ------------------------------------------------------------------ *)

Lemma lower_char_not_upper (c : ascii) : negb (is_upper (lower_char c)) = true.
Proof. destruct c as [[] [] [] [] [] [] [] []]; reflexivity. Qed.

Lemma kept_char_is_slug_char (c : ascii) :
  negb (is_upper c) && slug_keep c = true ->
  space_or_underscore c = false ->
  slug_char c = true.
Proof. destruct c as [[] [] [] [] [] [] [] []]; vm_compute; congruence. Qed.

(** X1. The slug of an ASCII text is at most 80 characters long, and each
    of its characters is a lower-case letter, a digit or a hyphen. *)
Theorem slugify_alphabet_and_length :
  forall text : string,
    str_forallb is_ascii text = true ->
    String.length (slugify text) <= 80
    /\ str_forallb slug_char (slugify text) = true.
Proof.
  intros text _. unfold slugify. split; [apply str_take_length|].
  apply str_forallb_take. unfold strip_by.
  apply str_forallb_rstrip, str_forallb_lstrip.
  apply (str_forallb_sub_runs slug_char); [by intros c Hc _ | done |].
  apply (str_forallb_sub_runs (fun c => negb (is_upper c) && slug_keep c));
    [apply kept_char_is_slug_char | done |].
  apply (str_forallb_filter (fun c => negb (is_upper c))).
  { intros c Hc Hk. by rewrite Hc, Hk. }
  unfold strip, strip_by. apply str_forallb_rstrip, str_forallb_lstrip.
  apply str_forallb_map, lower_char_not_upper.
Qed.

(** X2. A slug does not begin with a hyphen and holds no two hyphens side
    by side. *)
Theorem slugify_hyphens :
  forall text : string,
    starts_with "-" (slugify text) = false
    /\ no_adjacent "-" (slugify text) = true.
Proof.
  intros text. unfold slugify, strip_by.
  set (collapsed := sub_runs (is_char "-") "-" false _).
  split.
  - apply starts_with_take, starts_with_rstrip.
    pose proof (lstrip_by_head (is_char "-") collapsed) as Hhead.
    by destruct (lstrip_by (is_char "-") collapsed).
  - apply no_adjacent_take, no_adjacent_rstrip, no_adjacent_lstrip.
    apply (sub_runs_no_adjacent "-").
Qed.

(* ------------------------------------------------------------------ *)
(** * More on the assigned names                                       *)
(* ------------------------------------------------------------------ *)

Lemma first_pass_defined (doc_id : string) (l : dict meeting) :
  forall acc,
    doc_id ∈ dict_keys l \/ is_Some (acc.1 !! doc_id) ->
    is_Some ((fold_left assign_first l acc).1 !! doc_id).
Proof.
  unfold dict_keys. induction l as [|[k data] l IH]; intros acc Hin.
  - destruct Hin as [Hin|Hin]; [by apply elem_of_nil in Hin | done].
  - cbn [fold_left]. apply IH. rewrite assign_first_filenames.
    destruct (decide (k = doc_id)) as [->|Hne].
    + right. by rewrite lookup_insert_eq.
    + rewrite lookup_insert_ne by done. rewrite fmap_cons in Hin.
      destruct Hin as [[?|Hin]%elem_of_cons|Hin]; [done | by left | by right].
Qed.

Lemma second_pass_defined (cnt : gmap string nat) (doc_id : string) (l : dict meeting) :
  forall fn,
    is_Some (fn !! doc_id) ->
    is_Some (fold_left (assign_second cnt) l fn !! doc_id).
Proof.
  induction l as [|[k data] l IH]; intros fn Hsome; [done|].
  cbn [fold_left]. apply IH. unfold assign_second.
  destruct (_ && _); [|done].
  destruct (decide (k = doc_id)) as [->|Hne].
  - by rewrite lookup_insert_eq.
  - by rewrite lookup_insert_ne.
Qed.

(** X3. The assigned mapping has a name for every id of the collection
    and for no other id: the lookup [filenames[doc_id]] of the document
    loop never misses. *)
Theorem assign_filenames_covers_the_collection :
  forall (all_data : dict meeting) (doc_id : string),
    is_Some (assign_filenames all_data !! doc_id) <-> doc_id ∈ dict_keys all_data.
Proof.
  intros all_data doc_id. split.
  - intros [f Hf]. destruct (assign_filenames_dom _ _ _ Hf) as [data Hin].
    unfold dict_keys. apply list_elem_of_fmap. by exists (doc_id, data).
  - intros Hin. unfold assign_filenames.
    pose proof (first_pass_defined doc_id all_data (∅, ∅) (or_introl Hin)) as Hfirst.
    destruct (fold_left assign_first all_data (∅, ∅)) as [fn cnt].
    by apply second_pass_defined.
Qed.

Lemma transcript_filename_shape (data : meeting) :
  transcript_filename_of data
  = m_date data +:+ "_" +:+ (slug_of data +:+ "_" +:+ ("transcript" +:+ ".md")).
Proof. reflexivity. Qed.

Lemma transcript_is_not_orig (data data' : meeting) :
  has_underscore (m_date data) = false ->
  has_underscore (m_date data') = false ->
  transcript_filename_of data <> orig_filename data'.
Proof.
  intros Hd Hd' Heq.
  rewrite transcript_filename_shape, orig_filename_shape in Heq.
  apply split_at_first_underscore in Heq as [_ Heq]; [|done..].
  rewrite <- !str_app_assoc in Heq. apply str_app_inv_tail in Heq.
  pose proof (slug_of_no_underscore data') as Hslug.
  rewrite <- Heq in Hslug. unfold has_underscore in Hslug.
  rewrite !str_existsb_app in Hslug. simpl in Hslug.
  rewrite orb_true_r in Hslug. discriminate.
Qed.

Lemma transcript_is_not_suffixed (doc_id : string) (data data' : meeting) :
  has_underscore (m_date data) = false ->
  has_underscore (m_date data') = false ->
  transcript_filename_of data <> suffixed_filename doc_id data'.
Proof.
  intros Hd Hd' Heq.
  rewrite transcript_filename_shape, suffixed_filename_shape in Heq.
  apply split_at_first_underscore in Heq as [_ Heq]; [|done..].
  apply split_at_first_underscore in Heq as [_ Heq];
    [|apply slug_of_no_underscore..].
  apply str_app_inv_tail in Heq.
  pose proof (str_take_length 8 doc_id) as Hlen.
  rewrite <- Heq in Hlen. simpl in Hlen. lia.
Qed.

(** X4. With dates that hold no underscore, the file of a transcript is
    never the file assigned to the notes of a record: saving a transcript
    does not overwrite notes. *)
Theorem transcript_file_is_no_notes_file :
  forall (all_data : dict meeting) (doc_id f : string) (data : meeting),
    NoDup (dict_keys all_data) ->
    (forall k d, (k, d) ∈ all_data -> has_underscore (m_date d) = false) ->
    has_underscore (m_date data) = false ->
    assign_filenames all_data !! doc_id = Some f ->
    transcript_filename_of data <> f.
Proof.
  intros all_data doc_id f data Hnodup Hdates Hdate Hf.
  destruct (assign_filenames_dom _ _ _ Hf) as [d Hin].
  rewrite (assign_filenames_lookup _ _ _ Hnodup Hin) in Hf.
  injection Hf as <-. pose proof (Hdates _ _ Hin) as Hd.
  destruct (1 <? _).
  - by apply transcript_is_not_suffixed.
  - by apply transcript_is_not_orig.
Qed.

(* ------------------------------------------------------------------ *)
(** * YAML escaping                                                    *)
(* ------------------------------------------------------------------ *)

Lemma replace_char_app (old : ascii) (new a b : string) :
  replace_char old new (a +:+ b) = replace_char old new a +:+ replace_char old new b.
Proof.
  induction a as [|x a IH]; [done|]. rewrite str_app_cons. simpl.
  destruct (is_char old x); by rewrite IH, ?str_app_assoc, ?str_app_cons.
Qed.

(** The second [replace] does not touch what the first one inserted. *)
Lemma escaped_by_characters (value : string) :
  replace_char dquote_char ("\" +:+ dquote) (replace_char "\" "\\" value)
  = escape_chars value.
Proof.
  induction value as [|c value IH]; [done|]. simpl.
  unfold escape_char. destruct (is_char "\" c) eqn:Hback.
  - by rewrite replace_char_app, IH.
  - simpl. destruct (is_char dquote_char c); by rewrite IH.
Qed.

Lemma is_char_true (a c : ascii) : is_char a c = true -> c = a.
Proof. unfold is_char. by destruct (ascii_dec a c). Qed.

Lemma is_char_refl (a : ascii) : is_char a a = true.
Proof. unfold is_char. by destruct (ascii_dec a a). Qed.

Lemma escape_chars_inj (v1 v2 : string) :
  escape_chars v1 = escape_chars v2 -> v1 = v2.
Proof.
  revert v2. induction v1 as [|c1 v1 IH]; intros [|c2 v2]; simpl; try done.
  - unfold escape_char. by repeat case_match.
  - unfold escape_char. by repeat case_match.
  - unfold escape_char.
    destruct (is_char "\" c1) eqn:H1, (is_char "\" c2) eqn:H2;
      [|destruct (is_char dquote_char c2) eqn:Q2
       |destruct (is_char dquote_char c1) eqn:Q1
       |destruct (is_char dquote_char c1) eqn:Q1,
                 (is_char dquote_char c2) eqn:Q2];
      rewrite ?str_app_cons, ?str_app_nil_l; intros Heq; simplify_eq;
      repeat match goal with
             | H : is_char _ _ = true |- _ => apply is_char_true in H; subst
             end;
      rewrite ?is_char_refl in *; try discriminate;
      f_equal; by apply IH.
Qed.

Lemma escape_chars_empty (v : string) : escape_chars v = "" -> v = "".
Proof. apply (escape_chars_inj v ""). Qed.

Lemma yaml_escape_quoted (value : string) :
  str_existsb yaml_special value = true ->
  yaml_escape value = dquote +:+ escape_chars value +:+ dquote.
Proof. intros Hsp. unfold yaml_escape. by rewrite Hsp, escaped_by_characters. Qed.

Lemma yaml_escape_plain (value : string) :
  str_existsb yaml_special value = false ->
  yaml_escape value = if nonempty value then value else dquote +:+ dquote.
Proof. intros Hsp. unfold yaml_escape. rewrite Hsp. by destruct value. Qed.

(** X5. [yaml_escape] tells values apart: two strings with the same
    escaped form are the same string. *)
Theorem yaml_escape_injective :
  forall v1 v2 : string, yaml_escape v1 = yaml_escape v2 -> v1 = v2.
Proof.
  assert (forall v w, str_existsb yaml_special v = true ->
                      str_existsb yaml_special w = false ->
                      yaml_escape v <> yaml_escape w) as Hmixed.
  { intros v w Hv Hw Heq.
    rewrite (yaml_escape_quoted v Hv), (yaml_escape_plain w Hw) in Heq.
    destruct w as [|c w]; simpl in Heq.
    - unfold dquote in Heq at 1 3. rewrite !str_app_cons, !str_app_nil_l in Heq.
      injection Heq as Heq.
      apply (str_app_inv_tail (escape_chars v) "" dquote), escape_chars_empty in Heq.
      by subst v.
    - unfold dquote in Heq at 1. rewrite str_app_cons in Heq.
      injection Heq as <- _. by vm_compute in Hw. }
  intros v1 v2 Heq.
  destruct (str_existsb yaml_special v1) eqn:H1,
           (str_existsb yaml_special v2) eqn:H2.
  - rewrite (yaml_escape_quoted v1 H1), (yaml_escape_quoted v2 H2) in Heq.
    unfold dquote in Heq at 1 3. rewrite !str_app_cons, !str_app_nil_l in Heq.
    injection Heq as Heq. by apply str_app_inv_tail, escape_chars_inj in Heq.
  - by destruct (Hmixed v1 v2).
  - by destruct (Hmixed v2 v1).
  - rewrite (yaml_escape_plain v1 H1), (yaml_escape_plain v2 H2) in Heq.
    destruct v1 as [|c1 v1], v2 as [|c2 v2]; simpl in Heq; try done.
    + rewrite <- Heq in H2. by vm_compute in H2.
    + rewrite Heq in H1. by vm_compute in H1.
Qed.

(* ------------------------------------------------------------------ *)
(** * More on trimming                                                 *)
(* ------------------------------------------------------------------ *)

Lemma rstrip_by_nonempty (p : ascii -> bool) (s : string) :
  str_existsb (fun c => negb (p c)) s = true -> rstrip_by p s <> "".
Proof.
  induction s as [|c s IH]; [done|]. simpl.
  destruct (p c) eqn:Hc; simpl.
  - intros Hs. specialize (IH Hs). by destruct (rstrip_by p s).
  - intros _. by destruct (rstrip_by p s).
Qed.

Lemma rstrip_by_app_keep (p : ascii -> bool) (a s : string) :
  rstrip_by p s <> "" -> rstrip_by p (a +:+ s) = a +:+ rstrip_by p s.
Proof.
  intros Hs. induction a as [|c a IH]; [done|].
  rewrite !str_app_cons. simpl. rewrite IH.
  destruct (a +:+ rstrip_by p s) eqn:Hempty; [|done].
  destruct a; [by rewrite str_app_nil_l in Hempty | by rewrite str_app_cons in Hempty].
Qed.

(** What is left by [strip] begins with a character that is kept. *)
Lemma strip_by_head (p : ascii -> bool) (s : string) (b : ascii) (r : string) :
  strip_by p s = String b r -> p b = false.
Proof.
  unfold strip_by. intros Hstrip.
  apply rstrip_by_head in Hstrip as [r' Hl].
  pose proof (lstrip_by_head p s) as Hhead. by rewrite Hl in Hhead.
Qed.

Lemma lstrip_by_fixed (p : ascii -> bool) (s : string) :
  negb (match s with String b _ => p b | "" => false end) = true ->
  lstrip_by p s = s.
Proof. destruct s as [|b s]; [done|]. simpl. by destruct (p b). Qed.

Lemma rstrip_by_idemp (p : ascii -> bool) (s : string) :
  rstrip_by p (rstrip_by p s) = rstrip_by p s.
Proof.
  induction s as [|c s IH]; [done|]. simpl.
  destruct (rstrip_by p s) as [|b r] eqn:Hr.
  - destruct (p c) eqn:Hc; [done|]. simpl. by rewrite Hc.
  - change (rstrip_by p (String c (String b r)))
      with (match rstrip_by p (String b r) with
            | "" => if p c then "" else String c ""
            | r' => String c r'
            end).
    by rewrite IH.
Qed.

(** Trimming twice is trimming once. *)
Lemma strip_by_idemp (p : ascii -> bool) (s : string) :
  strip_by p (strip_by p s) = strip_by p s.
Proof.
  unfold strip_by at 1. rewrite lstrip_by_fixed.
  - unfold strip_by. apply rstrip_by_idemp.
  - destruct (strip_by p s) as [|b r] eqn:Hs; [done|].
    by rewrite (strip_by_head _ _ _ _ Hs).
Qed.

Lemma join_cons_app (sep x : string) (l : list string) :
  exists rest, join sep (x :: l) = x +:+ rest.
Proof.
  destruct l as [|y l].
  - exists "". simpl. by rewrite str_app_nil_r.
  - by exists (sep +:+ join sep (y :: l)).
Qed.

(* ------------------------------------------------------------------ *)
(** * More on transcripts                                              *)
(* ------------------------------------------------------------------ *)

Section TranscriptFacts.
Context `{Datetime}.

Lemma format_utterances_blank (us : list utterance) (st : list string * option string) :
  Forall blank_utterance us -> fold_left format_utterance us st = st.
Proof.
  induction 1 as [|u us Hu _ IH]; [done|].
  cbn [fold_left]. by rewrite format_utterance_blank.
Qed.

(** X6. A transcript in which every utterance is empty once trimmed, the
    empty transcript included, is formatted as the empty string. *)
Theorem blank_transcript_is_empty :
  forall us : list utterance,
    Forall blank_utterance us -> format_transcript us = "".
Proof.
  intros us Hblank. unfold format_transcript.
  by rewrite format_utterances_blank.
Qed.

Lemma format_utterances_grow (us : list utterance) :
  forall st, exists more, (fold_left format_utterance us st).1 = st.1 ++ more.
Proof.
  induction us as [|u us IH]; intros st.
  - exists []. by rewrite app_nil_r.
  - cbn [fold_left]. destruct (IH (format_utterance st u)) as [more ->].
    destruct st as [lines cur]. unfold format_utterance.
    repeat case_match; simpl; eauto; rewrite <- app_assoc; eauto.
Qed.

(** X7. The transcript begins with the header of the first utterance that
    is not blank: [**You:** ] for the microphone, [**Other:** ] for any
    other source. *)
Theorem transcript_starts_with_speaker :
  forall (blanks rest : list utterance) (u : utterance),
    Forall blank_utterance blanks ->
    ~ blank_utterance u ->
    exists tail,
      format_transcript (blanks ++ u :: rest)
      = "**" +:+ speaker_label u +:+ ":** " +:+ tail.
Proof.
  intros blanks rest u Hblanks Hu. unfold format_transcript.
  rewrite fold_left_app, (format_utterances_blank blanks) by done.
  cbn [fold_left]. unfold blank_utterance in Hu.
  destruct (strip (default "" (utt_text u))) as [|b text] eqn:Htext; [done|].
  pose proof (strip_by_head _ _ _ _ Htext) as Hb.
  set (time_str :=
         if nonempty (default "" (utt_start_timestamp u)) then
           match parse_datetime (Some (default "" (utt_start_timestamp u))) with
           | Some dt => "[" +:+ strftime_hms dt +:+ "] "
           | None => ""
           end
         else "").
  assert (format_utterance ([], None) u
          = ([nl +:+ "**" +:+ speaker_label u +:+ ":** " +:+ time_str
                 +:+ String b text],
             Some (speaker_label u))) as ->.
  { unfold format_utterance, speaker_label. rewrite Htext. simpl.
    by destruct (decide (utt_source u = Some "microphone")). }
  destruct (format_utterances_grow rest
              ([nl +:+ "**" +:+ speaker_label u +:+ ":** " +:+ time_str
                   +:+ String b text], Some (speaker_label u)))
    as [more Hlines].
  destruct (fold_left format_utterance rest _) as [lines cur].
  simpl in Hlines. subst lines.
  destruct (join_cons_app nl
              (nl +:+ "**" +:+ speaker_label u +:+ ":** " +:+ time_str
                  +:+ String b text) more) as [after ->].
  rewrite !str_app_assoc.
  set (content := time_str +:+ String b text +:+ after).
  assert (rstrip_by is_space content <> "") as Hcontent.
  { apply rstrip_by_nonempty. unfold content.
    rewrite !str_existsb_app. simpl. rewrite Hb. simpl. apply orb_true_r. }
  exists (rstrip_by is_space content).
  unfold strip, strip_by.
  assert (lstrip_by is_space (nl +:+ "**" +:+ speaker_label u +:+ ":** " +:+ content)
          = "**" +:+ speaker_label u +:+ ":** " +:+ content) as ->
      by reflexivity.
  rewrite <- !str_app_assoc. rewrite rstrip_by_app_keep by done.
  by rewrite !str_app_assoc.
Qed.

End TranscriptFacts.

(* ------------------------------------------------------------------ *)
(** * More on extraction                                               *)
(* ------------------------------------------------------------------ *)

Lemma html_to_basic_markdown_trimmed (html : string) :
  strip (html_to_basic_markdown html) = html_to_basic_markdown html.
Proof. unfold html_to_basic_markdown, strip. apply strip_by_idemp. Qed.

Section MoreExtractionFacts.
Context `{Datetime}.

(** X8. When the calendar event has a start time that is not empty and
    does not parse, the date and the time of the record are those of
    [datetime.now()] and there is no duration: [created_at] is not
    looked at. *)
Theorem unparseable_calendar_start_gives_now :
  forall (doc : document) (panels : dict (dict panel))
         (folders : option (list string)) (ev : calendar_event) (s : string),
    doc_google_calendar_event doc = Some ev ->
    start_dateTime ev = Some s ->
    s <> "" ->
    fromisoformat s = None ->
    m_date (extract_meeting_data doc panels folders) = strftime_ymd now
    /\ m_time (extract_meeting_data doc panels folders) = strftime_hm now
    /\ m_duration_minutes (extract_meeting_data doc panels folders) = None.
Proof.
  intros doc panels folders ev s Hev Hstart Hne Hparse.
  unfold extract_meeting_data. rewrite Hev, Hstart.
  destruct s as [|c s]; [done|]. simpl. rewrite Hparse. done.
Qed.

(** X9. On a document for which the subtraction of the two datetimes
    does not raise, the record has a duration exactly when the calendar
    event has a start and an end that both parse; it is then the whole
    number of minutes between them. *)
Theorem duration_needs_start_and_end :
  forall (doc : document) (panels : dict (dict panel))
         (folders : option (list string)) (d : Z),
    subtraction_defined doc ->
    m_duration_minutes (extract_meeting_data doc panels folders) = Some d
    <-> exists ev s e,
        doc_google_calendar_event doc = Some ev
        /\ parse_datetime (start_dateTime ev) = Some s
        /\ parse_datetime (end_dateTime ev) = Some e
        /\ d = minutes_between s e.
Proof.
  intros doc panels folders d _. unfold extract_meeting_data.
  destruct (doc_google_calendar_event doc) as [ev|]; [|split; [done|]].
  - destruct (truthy (start_dateTime ev)) eqn:Htruthy.
    + destruct (parse_datetime (start_dateTime ev)) as [s|] eqn:Hs,
               (parse_datetime (end_dateTime ev)) as [e|] eqn:He; simpl.
      * split; [intros [= <-]; by exists ev, s, e|].
        intros (ev' & s' & e' & [= <-] & Hs' & He' & ->).
        rewrite Hs in Hs'. rewrite He in He'. by simplify_eq.
      * split; [done|]. intros (ev' & s' & e' & [= <-] & _ & He' & _).
        rewrite He in He'. done.
      * split; [done|]. intros (ev' & s' & e' & [= <-] & Hs' & _).
        rewrite Hs in Hs'. done.
      * split; [done|]. intros (ev' & s' & e' & [= <-] & Hs' & _).
        rewrite Hs in Hs'. done.
    + simpl. split; [done|]. intros (ev' & s' & e' & [= <-] & Hs' & _).
      unfold parse_datetime, truthy in *.
      destruct (start_dateTime ev) as [t|]; [|done]. by rewrite Htruthy in Hs'.
  - intros (ev' & _ & _ & [=] & _).
Qed.

Lemma summary_of_panels_trimmed (doc_panels : dict panel) :
  forall summary_md,
    strip summary_md = summary_md ->
    strip (summary_of_panels doc_panels summary_md)
    = summary_of_panels doc_panels summary_md.
Proof.
  induction doc_panels as [|[k p] rest IH]; intros summary_md Hacc; [done|].
  simpl. destruct (panel_content p).
  - unfold strip. apply strip_by_idemp.
  - destruct (_ && _); apply IH; [apply html_to_basic_markdown_trimmed | done].
Qed.

(** X10. The notes and the summary of a record carry no white space at
    either end, whichever field of the document they come from. *)
Theorem notes_and_summary_are_trimmed :
  forall (doc : document) (panels : dict (dict panel))
         (folders : option (list string)),
    strip (m_notes (extract_meeting_data doc panels folders))
    = m_notes (extract_meeting_data doc panels folders)
    /\ strip (m_summary (extract_meeting_data doc panels folders))
       = m_summary (extract_meeting_data doc panels folders).
Proof.
  intros doc panels folders.
  assert (m_notes (extract_meeting_data doc panels folders)
          = strip (let notes_md := default "" (doc_notes_markdown doc) in
                   if negb (nonempty notes_md) then
                     match doc_notes doc with
                     | Some n => tiptap_to_markdown (Some n) 0 None
                     | None => notes_md
                     end
                   else notes_md)) as ->.
  { unfold extract_meeting_data. by repeat case_match. }
  assert (m_summary (extract_meeting_data doc panels folders)
          = summary_of_panels (default [] (dict_get (doc_id doc) panels)) "") as ->.
  { unfold extract_meeting_data. by repeat case_match. }
  split.
  - unfold strip. apply strip_by_idemp.
  - by apply summary_of_panels_trimmed.
Qed.

(** X11. The summary is the rendering of the first panel whose content
    is a tree: the raw markup of the panels before it and every panel
    after it are left aside. *)
Theorem first_structured_panel_is_the_summary :
  forall (before after : dict panel) (panel_id : string) (p : panel)
         (content : node) (summary_md : string),
    Forall (fun item => panel_content item.2 = None) before ->
    panel_content p = Some content ->
    summary_of_panels (before ++ (panel_id, p) :: after) summary_md
    = strip (tiptap_to_markdown (Some content) 0 None).
Proof.
  intros before after panel_id p content summary_md Hbefore Hp. revert summary_md.
  induction Hbefore as [|[k q] before Hq _ IH]; intros summary_md.
  - simpl. by rewrite Hp.
  - simpl in *. rewrite Hq. destruct (_ && _); apply IH.
Qed.

End MoreExtractionFacts.

(* ------------------------------------------------------------------ *)
(** * The HTML fallback                                                *)
(* ------------------------------------------------------------------ *)

(** A pattern that only matches at a [<] finds nothing in a text without
    one. *)
Lemma re_sub_no_match (m : matcher) (rep : string) (s : string) :
  (forall t, starts_with "<" t = false -> m t = None) ->
  str_existsb (is_char "<") s = false ->
  re_sub m rep 0 s = s.
Proof.
  intros Hm. induction s as [|c s IH]; [done|]. simpl.
  intros [Hc Hs]%orb_false_iff. rewrite (Hm (String c s)) by done.
  by rewrite IH.
Qed.

Lemma prefix_needs_head (c : ascii) (p t : string) :
  starts_with c t = false -> String.prefix (String c p) t = false.
Proof.
  destruct t as [|b t]; [done|]. unfold starts_with, is_char.
  cbn [String.prefix]. by destruct (ascii_dec c b).
Qed.

Lemma m_lit_needs_bracket (p t : string) :
  starts_with "<" t = false -> m_lit (String "<" p) t = None.
Proof. intros Ht. unfold m_lit. by rewrite prefix_needs_head. Qed.

Lemma m_open_tag_needs_bracket (p t : string) :
  starts_with "<" t = false -> m_open_tag (String "<" p) t = None.
Proof. intros Ht. unfold m_open_tag. by rewrite prefix_needs_head. Qed.

Lemma m_tag_needs_bracket (t : string) :
  starts_with "<" t = false ->
  m_h_open t = None /\ m_h_close t = None /\ m_any_tag t = None.
Proof.
  destruct t as [|c t]; [done|]. unfold starts_with, is_char.
  destruct (ascii_dec "<" c) as [<-|Hne]; [done|]. intros _.
  unfold m_h_open, m_h_close, m_any_tag.
  by destruct c as [[] [] [] [] [] [] [] []].
Qed.

(** X12. A text that holds no [<] goes through the HTML fallback with its
    runs of three or more newlines cut to two and its ends trimmed, and
    nothing else changed. *)
Theorem html_fallback_on_plain_text :
  forall html : string,
    str_existsb (is_char "<") html = false ->
    html_to_basic_markdown html
    = strip (re_sub m_blank_lines (nl +:+ nl) 0 html).
Proof.
  intros html Hplain. unfold html_to_basic_markdown.
  rewrite (re_sub_no_match m_h_open), (re_sub_no_match m_h_close),
    (re_sub_no_match (m_open_tag "<li")), (re_sub_no_match (m_lit "</li>")),
    (re_sub_no_match (m_open_tag "<p")), (re_sub_no_match (m_lit "</p>")),
    (re_sub_no_match (m_lit "<strong>")), (re_sub_no_match (m_lit "</strong>")),
    (re_sub_no_match (m_lit "<em>")), (re_sub_no_match (m_lit "</em>")),
    (re_sub_no_match m_any_tag);
    try done;
    first [ apply m_lit_needs_bracket
          | apply m_open_tag_needs_bracket
          | intros t Ht; by destruct (m_tag_needs_bracket t Ht) as (? & ? & ?) ].
Qed.

(* ------------------------------------------------------------------ *)
(** * More on the renderer                                             *)
(* ------------------------------------------------------------------ *)

Lemma apply_mark_wraps (text : string) (m : mark) :
  exists before after, apply_mark text m = before +:+ text +:+ after.
Proof.
  unfold apply_mark. repeat case_match.
  - by exists "**", "**".
  - by exists "*", "*".
  - exists "[", ("](" +:+ default "" (mark_href m) +:+ ")"). done.
  - by exists "`", "`".
  - exists "", "". by rewrite str_app_nil_l, str_app_nil_r.
Qed.

(** X13. Marks only wrap: whatever the marks of a text node, known or
    not, its rendering holds the text of the node unchanged. *)
Theorem marks_keep_the_text :
  forall (t : string) (ms : list mark) content level language
         (indent : nat) (ordered_num : option nat),
    exists before after,
      tiptap_to_markdown (Some (Node "text" content level language t ms))
                         indent ordered_num
      = before +:+ t +:+ after.
Proof.
  intros t ms content level language indent ordered_num. rewrite tiptap_text.
  induction ms as [|m ms IH] using rev_ind.
  - exists "", "". by rewrite str_app_nil_l, str_app_nil_r.
  - destruct IH as (before & after & IH). rewrite fold_left_app. simpl. rewrite IH.
    destruct (apply_mark_wraps (before +:+ t +:+ after) m) as (b & a & ->).
    exists (b +:+ before), (after +:+ a). by rewrite !str_app_assoc.
Qed.

Lemma rstrip_by_app_removed (p : ascii -> bool) (c : ascii) (s : string) :
  p c = true -> rstrip_by p (s +:+ String c "") = rstrip_by p s.
Proof.
  intros Hc. induction s as [|a s IH]; [by simpl; rewrite Hc|].
  rewrite str_app_cons. simpl. by rewrite IH.
Qed.

Lemma strip_by_app_removed (p : ascii -> bool) (c : ascii) (s : string) :
  p c = true -> strip_by p (s +:+ String c "") = strip_by p s.
Proof.
  intros Hc. unfold strip_by. induction s as [|a s IH]; [by simpl; rewrite Hc|].
  rewrite str_app_cons. simpl. destruct (p a); [exact IH|].
  by rewrite <- str_app_cons, rstrip_by_app_removed.
Qed.

Lemma strip_between_newlines (t : string) : strip (nl +:+ t +:+ nl) = strip t.
Proof.
  unfold strip. rewrite <- str_app_assoc.
  rewrite (strip_by_app_removed is_space nl_char) by done.
  reflexivity.
Qed.

(** One item of a list with a paragraph of plain text, at any depth. *)
Lemma plain_item_line (t : string) (indent : nat) (ordered_num : option nat) :
  tiptap_node (Examples.list_item [Examples.paragraph t]) indent ordered_num
  = repeat_str "  " indent
    +:+ match ordered_num with
        | Some (S k) => pretty (S k) +:+ "."
        | _ => "-"
        end
    +:+ " " +:+ strip t.
Proof.
  unfold Examples.list_item, Examples.paragraph, Examples.text_node.
  cbn -[strip repeat_str pretty String.append nl]. 
  rewrite !str_app_nil_r.
  destruct indent as [|indent]; cbn -[strip repeat_str pretty String.append nl];
    by rewrite ?strip_between_newlines.
Qed.

Lemma tiptap_ordered_list (content : list node) level language text marks
      (indent : nat) (ordered_num : option nat) :
  tiptap_node (Node "orderedList" content level language text marks)
              indent ordered_num
  = join nl ((fix items (i : nat) (l : list node) {struct l} : list string :=
                match l with
                | [] => []
                | item :: r => tiptap_node item indent (Some i) :: items (S i) r
                end) 1 content).
Proof. reflexivity. Qed.

(** X14. An ordered list of paragraphs of plain text is rendered one item
    per line, each line indented by two spaces per level, numbered from 1
    in the order of the items, with the text of the item trimmed. *)
Theorem ordered_list_is_numbered_from_one :
  forall (texts : list string) (indent : nat) (ordered_num : option nat),
    tiptap_node
      (Node "orderedList"
            (map (fun t => Examples.list_item [Examples.paragraph t]) texts)
            None None "" [])
      indent ordered_num
    = join nl (imap (fun i t => repeat_str "  " indent +:+ pretty (S i) +:+ ". "
                                +:+ strip t) texts).
Proof.
  intros texts indent ordered_num. rewrite tiptap_ordered_list. f_equal.
  assert (forall start,
             (fix items (i : nat) (l : list node) {struct l} : list string :=
                match l with
                | [] => []
                | item :: r => tiptap_node item indent (Some i) :: items (S i) r
                end) (S start)
               (map (fun t => Examples.list_item [Examples.paragraph t]) texts)
             = imap (fun i t => repeat_str "  " indent +:+ pretty (S (start + i))
                                +:+ ". " +:+ strip t) texts) as Hitems.
  { induction texts as [|t texts IH]; intros start; [done|].
    cbn [map imap]. rewrite plain_item_line, IH. f_equal.
    - rewrite Nat.add_0_r. by rewrite !str_app_assoc.
    - apply imap_ext. intros i x _. simpl. by rewrite Nat.add_succ_r. }
  exact (Hitems 0).
Qed.

(* ------------------------------------------------------------------ *)
(** * More on the run                                                  *)
(* ------------------------------------------------------------------ *)

Lemma count_actions_app (p : action -> bool) (l1 l2 : list action) :
  count_actions p (l1 ++ l2) = count_actions p l1 + count_actions p l2.
Proof. induction l1 as [|a l1 IH]; simpl; [done|]. rewrite IH. lia. Qed.

Lemma removals_paired_app (l b : list action) :
  forall pending,
    removals_paired pending l = true ->
    removals_paired pending (l ++ b) = removals_paired None b.
Proof.
  induction l as [|a l IH]; intros pending Hl.
  - by destruct pending.
  - simpl in *. destruct pending as [d|], a; try done.
    + apply andb_true_iff in Hl as [Hd Hl]. by rewrite Hd, IH.
    + by apply IH.
    + by apply IH.
    + by apply IH.
    + by apply IH.
Qed.

Lemma removals_paired_snoc (l : list action) (a : action) :
  removals_paired None l = true ->
  (forall d old, a <> RemoveOld d old) ->
  removals_paired None (l ++ [a]) = true.
Proof.
  intros Hl Ha. rewrite removals_paired_app by done.
  destruct a as [d old| | |]; simpl; try done. by destruct (Ha d old).
Qed.

Lemma removals_paired_rename (l : list action) (d old f c : string) :
  removals_paired None l = true ->
  removals_paired None ((l ++ [RemoveOld d old]) ++ [WriteDoc d f c]) = true.
Proof.
  intros Hl. rewrite <- app_assoc, removals_paired_app by done.
  simpl. by rewrite bool_decide_eq_true_2.
Qed.

Section MoreSyncFacts.
Context `{Datetime}.

(** ** The summary and the actions *)

Lemma sync_document_counts force dry_run sync_state filenames st item n :
  counts_agree dry_run n st ->
  counts_agree dry_run (S n)
    (sync_document force dry_run sync_state filenames st item).
Proof.
  unfold counts_agree, sync_document. destruct item as [doc_id data].
  intros (Hn & Ht & Hr & Hc).
  destruct dry_run; repeat case_match; simpl;
    rewrite ?count_actions_app; simpl; lia.
Qed.

Lemma documents_counts force dry_run sync_state filenames all_data :
  forall st n,
    counts_agree dry_run n st ->
    counts_agree dry_run (n + length all_data)
      (fold_left (sync_document force dry_run sync_state filenames) all_data st).
Proof.
  induction all_data as [|item l IH]; intros st n Hst.
  - by rewrite Nat.add_0_r.
  - cbn [fold_left length]. rewrite Nat.add_succ_r.
    apply (IH _ (S n)). by apply sync_document_counts.
Qed.

Lemma export_transcript_counts dry_run all_data sync_state filenames st item n :
  counts_agree dry_run n st ->
  counts_agree dry_run n
    (export_transcript dry_run all_data sync_state filenames st item).
Proof.
  unfold counts_agree, export_transcript. destruct item as [doc_id utterances].
  intros (Hn & Ht & Hr & Hc).
  destruct dry_run; repeat case_match; simpl;
    rewrite ?count_actions_app; simpl; lia.
Qed.

Lemma cleanup_orphan_counts dry_run all_data st item st' n :
  cleanup_orphan dry_run all_data st item = Ok st' ->
  counts_agree dry_run n st -> counts_agree dry_run n st'.
Proof.
  unfold counts_agree, cleanup_orphan, os_remove. destruct item as [doc_id prev].
  intros Hok (Hn & Ht & Hr & Hc).
  destruct dry_run; repeat case_match; simplify_eq; simpl;
    rewrite ?count_actions_app; simpl; lia.
Qed.

Lemma cleanup_counts dry_run all_data items n :
  forall st st',
    cleanup_orphans dry_run all_data items st = Ok st' ->
    counts_agree dry_run n st -> counts_agree dry_run n st'.
Proof.
  induction items as [|item rest IH]; intros st st' Hok Hst.
  - by injection Hok as <-.
  - apply cleanup_orphans_cons in Hok as (st1 & Hstep & Hrest).
    eapply IH; [done|]. by eapply cleanup_orphan_counts.
Qed.

(** X15. In a run that completes, the summary agrees with the actions:
    every document is either written or counted as unchanged, the counts
    of saved transcripts and of removed files are the numbers of these
    actions, and [created] and [updated] add up to the number of
    documents written, except in a dry run, where both stay at 0. *)
Theorem summary_counts_agree_with_actions :
  forall (all_data : dict meeting) (transcripts : dict (list utterance))
         (force dry_run : bool) (w : world) (r : report),
    sync_from all_data transcripts force dry_run w = Completed r ->
    counts_agree dry_run (length all_data) (r_run r).
Proof.
  intros all_data transcripts force dry_run w r. unfold sync_from.
  set (sync_state := if negb force then load_sync_state w else []).
  set (filenames := assign_filenames all_data).
  destruct (cleanup_orphans dry_run all_data sync_state _) as [st|e st] eqn:Hclean;
    [|done].
  intros [= <-]. cbn [r_run].
  apply (cleanup_counts _ _ _ _ _ _ Hclean).
  apply (fold_left_invariant (counts_agree dry_run (length all_data))).
  { intros st' item _. apply export_transcript_counts. }
  apply (documents_counts force dry_run sync_state filenames all_data
           (init_run (files w)) 0).
  unfold counts_agree. simpl. by destruct dry_run.
Qed.

(** ** The order of the actions *)

Lemma sync_document_paired force dry_run sync_state filenames st item :
  removals_paired None (actions st) = true ->
  removals_paired None
    (actions (sync_document force dry_run sync_state filenames st item)) = true.
Proof.
  intros Hst. unfold sync_document. destruct item as [doc_id data].
  repeat case_match; simpl;
    first [ assumption
          | by apply removals_paired_rename
          | by apply removals_paired_snoc ].
Qed.

Lemma export_transcript_paired dry_run all_data sync_state filenames st item :
  removals_paired None (actions st) = true ->
  removals_paired None
    (actions (export_transcript dry_run all_data sync_state filenames st item))
  = true.
Proof.
  intros Hst. unfold export_transcript. destruct item as [doc_id utterances].
  repeat case_match; simpl;
    first [ assumption | by apply removals_paired_snoc ].
Qed.

Lemma cleanup_orphan_paired dry_run all_data st item st' :
  cleanup_orphan dry_run all_data st item = Ok st' ->
  removals_paired None (actions st) = true ->
  removals_paired None (actions st') = true.
Proof.
  unfold cleanup_orphan, os_remove. destruct item as [doc_id prev].
  intros Hok Hst.
  repeat case_match; simplify_eq; simpl;
    first [ assumption | by apply removals_paired_snoc ].
Qed.

Lemma cleanup_paired dry_run all_data items :
  forall st st',
    cleanup_orphans dry_run all_data items st = Ok st' ->
    removals_paired None (actions st) = true ->
    removals_paired None (actions st') = true.
Proof.
  induction items as [|item rest IH]; intros st st' Hok Hst.
  - by injection Hok as <-.
  - apply cleanup_orphans_cons in Hok as (st1 & Hstep & Hrest).
    eapply IH; [done|]. by eapply cleanup_orphan_paired.
Qed.

(** X16. In a run that completes, the removal of the file a document had
    under its old name is always followed at once by the write of that
    document under its new name. *)
Theorem old_file_is_removed_just_before_the_write :
  forall (all_data : dict meeting) (transcripts : dict (list utterance))
         (force dry_run : bool) (w : world) (r : report),
    sync_from all_data transcripts force dry_run w = Completed r ->
    removals_paired None (actions (r_run r)) = true.
Proof.
  intros all_data transcripts force dry_run w r. unfold sync_from.
  set (sync_state := if negb force then load_sync_state w else []).
  set (filenames := assign_filenames all_data).
  set (st2 := fold_left (export_transcript dry_run all_data sync_state filenames)
                        transcripts _).
  destruct (cleanup_orphans dry_run all_data sync_state st2) as [st|e st]
    eqn:Hclean; [|done].
  intros [= <-]. cbn [r_run].
  assert (removals_paired None (actions st2) = true) as Hst2.
  { apply (fold_left_invariant
             (fun st => removals_paired None (actions st) = true)).
    { intros st' item _. apply export_transcript_paired. }
    apply (fold_left_invariant
             (fun st => removals_paired None (actions st) = true)); [|done].
    intros st' item _. apply sync_document_paired. }
  by apply (cleanup_paired _ _ _ _ _ Hclean).
Qed.

(** ** The keys of the new state *)

Lemma dict_set_defined {V} (k k' : string) (v : V) (d : dict V) :
  is_Some (dict_get k d) -> is_Some (dict_get k (dict_set k' v d)).
Proof.
  intros Hk. destruct (decide (k' = k)) as [->|Hne].
  - rewrite dict_get_set_eq. by eexists.
  - by rewrite dict_get_set_ne.
Qed.

Lemma dict_mem_keys {V} (k : string) (d : dict V) :
  dict_mem k d = true <-> k ∈ dict_keys d.
Proof.
  destruct (dict_mem k d) eqn:Hmem.
  - split; [intros _|done]. destruct (decide (k ∈ dict_keys d)) as [|Hnot]; [done|].
    apply dict_get_None, dict_mem_false in Hnot. congruence.
  - split; [done|]. intros Hin. by apply dict_mem_false, dict_get_None in Hmem.
Qed.

Lemma sync_document_keeps_defined force dry_run sync_state filenames st item k :
  is_Some (dict_get k (new_sync_state st)) ->
  is_Some (dict_get k (new_sync_state
                         (sync_document force dry_run sync_state filenames st item))).
Proof.
  intros Hk. unfold sync_document. destruct item as [doc_id data].
  repeat case_match; simpl; by apply dict_set_defined.
Qed.

Lemma documents_defined force dry_run sync_state filenames all_data k :
  forall st,
    k ∈ dict_keys all_data \/ is_Some (dict_get k (new_sync_state st)) ->
    is_Some (dict_get k (new_sync_state
               (fold_left (sync_document force dry_run sync_state filenames)
                          all_data st))).
Proof.
  induction all_data as [|[doc_id data] l IH]; intros st Hk.
  - destruct Hk as [Hk|Hk]; [by apply elem_of_nil in Hk | done].
  - cbn [fold_left]. apply IH. destruct Hk as [Hk|Hk].
    + unfold dict_keys in Hk. rewrite fmap_cons in Hk.
      apply elem_of_cons in Hk as [Hk|Hk]; [|by left]. simpl in Hk. subst k.
      right.
      destruct (sync_document_token force dry_run sync_state filenames st
                                    doc_id data) as (e & -> & _).
      by eexists.
    + right. by apply sync_document_keeps_defined.
Qed.

Lemma export_transcript_keeps_defined dry_run all_data sync_state filenames st item k :
  is_Some (dict_get k (new_sync_state st)) ->
  is_Some (dict_get k (new_sync_state
             (export_transcript dry_run all_data sync_state filenames st item))).
Proof.
  intros Hk. unfold export_transcript. destruct item as [doc_id utterances].
  repeat case_match; simpl; first [assumption | by apply dict_set_defined].
Qed.

Lemma cleanup_orphan_keeps_defined dry_run all_data st item st' k :
  cleanup_orphan dry_run all_data st item = Ok st' ->
  is_Some (dict_get k (new_sync_state st)) ->
  is_Some (dict_get k (new_sync_state st')).
Proof.
  unfold cleanup_orphan, os_remove. destruct item as [doc_id prev].
  intros Hok Hk.
  repeat case_match; simplify_eq; simpl;
    first [assumption | by apply dict_set_defined].
Qed.

Lemma cleanup_orphan_introduces dry_run all_data st doc_id prev st' k :
  cleanup_orphan dry_run all_data st (doc_id, prev) = Ok st' ->
  is_Some (dict_get k (new_sync_state st')) ->
  is_Some (dict_get k (new_sync_state st))
  \/ (doc_id = k /\ dict_mem k all_data = false /\ transcript_saved prev = true).
Proof.
  intros Hok Hk. destruct (decide (doc_id = k)) as [->|Hne].
  - destruct (dict_mem k all_data) eqn:Hmem.
    + unfold cleanup_orphan in Hok. rewrite Hmem in Hok.
      injection Hok as <-. by left.
    + destruct (transcript_saved prev) eqn:Hsaved; [by right|].
      pose proof (cleanup_orphan_own _ _ _ _ _ _ Hok Hmem) as Hown.
      rewrite Hsaved in Hown. rewrite Hown in Hk. by left.
  - rewrite (cleanup_orphan_other _ _ _ _ _ _ _ Hok Hne) in Hk. by left.
Qed.

Lemma cleanup_introduces dry_run all_data items k :
  forall st st',
    cleanup_orphans dry_run all_data items st = Ok st' ->
    is_Some (dict_get k (new_sync_state st')) ->
    is_Some (dict_get k (new_sync_state st))
    \/ exists e, (k, e) ∈ items /\ dict_mem k all_data = false
                 /\ transcript_saved e = true.
Proof.
  induction items as [|[doc_id prev] rest IH]; intros st st' Hok Hk.
  - injection Hok as <-. by left.
  - apply cleanup_orphans_cons in Hok as (st1 & Hstep & Hrest).
    destruct (IH _ _ Hrest Hk) as [Hk1|(e & Hin & Hmem & Hsaved)].
    + destruct (cleanup_orphan_introduces _ _ _ _ _ _ _ Hstep Hk1)
        as [Hk0|(-> & Hmem & Hsaved)]; [by left|].
      right. exists prev. split; [left | done].
    + right. exists e. split; [by right | done].
Qed.

Lemma cleanup_defined dry_run all_data items k :
  forall st st',
    cleanup_orphans dry_run all_data items st = Ok st' ->
    is_Some (dict_get k (new_sync_state st))
    \/ (exists e, (k, e) ∈ items /\ dict_mem k all_data = false
                  /\ transcript_saved e = true) ->
    is_Some (dict_get k (new_sync_state st')).
Proof.
  induction items as [|[doc_id prev] rest IH]; intros st st' Hok Hk.
  - injection Hok as <-. destruct Hk as [Hk|(e & Hin & _)]; [done|].
    by apply elem_of_nil in Hin.
  - apply cleanup_orphans_cons in Hok as (st1 & Hstep & Hrest).
    apply (IH _ _ Hrest).
    destruct Hk as [Hk|(e & Hin & Hmem & Hsaved)].
    + left. by eapply cleanup_orphan_keeps_defined.
    + apply elem_of_cons in Hin as [[= <- <-]|Hin].
      * left. pose proof (cleanup_orphan_own _ _ _ _ _ _ Hstep Hmem) as Hown.
        rewrite Hsaved in Hown. destruct Hown as (tf & _ & ->). by eexists.
      * right. by exists e.
Qed.

(** X17. After a run that completes, the new state has an entry for
    exactly these ids: the documents of the collection, and the documents
    of the previous state that left the collection and whose transcript
    was saved. *)
Theorem state_keys_are_documents_and_tombstones :
  forall (all_data : dict meeting) (transcripts : dict (list utterance))
         (force dry_run : bool) (w : world) (r : report),
    sync_from all_data transcripts force dry_run w = Completed r ->
    forall k,
      is_Some (dict_get k (new_sync_state (r_run r)))
      <-> (dict_mem k all_data = true
           \/ exists e,
               (k, e) ∈ (if negb force then load_sync_state w else [])
               /\ dict_mem k all_data = false /\ transcript_saved e = true).
Proof.
  intros all_data transcripts force dry_run w r. unfold sync_from.
  set (sync_state := if negb force then load_sync_state w else []).
  set (filenames := assign_filenames all_data).
  destruct (cleanup_orphans dry_run all_data sync_state _) as [st|e st] eqn:Hclean;
    [|done].
  intros [= <-] k. cbn [r_run]. split.
  - intros Hk. destruct (dict_mem k all_data) eqn:Hmem; [by left|]. right.
    destruct (cleanup_introduces _ _ _ _ _ _ Hclean Hk)
      as [Hbefore|(e & Hin & _ & Hsaved)]; [|by exists e].
    rewrite transcripts_absent in Hbefore by by apply dict_mem_false.
    rewrite documents_other in Hbefore by by apply dict_get_None, dict_mem_false.
    by destruct Hbefore.
  - intros Hk. apply (cleanup_defined _ _ _ _ _ _ Hclean).
    destruct Hk as [Hmem|Hex]; [left | by right].
    apply (fold_left_invariant
             (fun st => is_Some (dict_get k (new_sync_state st)))).
    { intros st' item _. apply export_transcript_keeps_defined. }
    apply documents_defined. left. by apply dict_mem_keys.
Qed.

(** X18. After a run that completes, the entry of every document of the
    collection carries the version token of the document, whether the
    document was written or left alone and whether its transcript was
    saved or not. *)
Theorem state_records_every_version_token :
  forall (all_data : dict meeting) (transcripts : dict (list utterance))
         (force dry_run : bool) (w : world) (r : report)
         (doc_id : string) (data : meeting),
    NoDup (dict_keys all_data) ->
    (doc_id, data) ∈ all_data ->
    sync_from all_data transcripts force dry_run w = Completed r ->
    records_token data (dict_get doc_id (new_sync_state (r_run r))).
Proof.
  intros all_data transcripts force dry_run w r doc_id data Hnodup Hin.
  unfold sync_from.
  set (sync_state := if negb force then load_sync_state w else []).
  set (filenames := assign_filenames all_data).
  destruct (cleanup_orphans dry_run all_data sync_state _) as [st|e st] eqn:Hclean;
    [|done].
  intros [= <-]. cbn [r_run].
  rewrite (cleanup_member _ _ _ doc_id) with (1 := proj2 (dict_mem_keys _ _)
    (proj2 (list_elem_of_fmap _ _ _) (ex_intro _ (doc_id, data) (conj eq_refl Hin))))
    (2 := Hclean).
  apply (fold_left_invariant
           (fun st => records_token data (dict_get doc_id (new_sync_state st)))).
  { intros st' item _. apply export_transcript_token. }
  by apply documents_token.
Qed.

(** ** What the actions are done for *)

Lemma sync_document_justified force dry_run sync_state filenames st doc_id data a :
  a ∈ actions (sync_document force dry_run sync_state filenames st (doc_id, data)) ->
  a ∈ actions st
  \/ a = WriteDoc doc_id (default "" (filenames !! doc_id)) (build_markdown data)
  \/ exists e old,
      a = RemoveOld doc_id old /\ dict_get doc_id sync_state = Some e
      /\ e_filename e = Some old
      /\ old <> default "" (filenames !! doc_id).
Proof.
  unfold sync_document.
  destruct (dict_get doc_id sync_state) as [e|] eqn:Hget; simpl;
    repeat case_match; simpl;
    rewrite ?elem_of_app, ?list_elem_of_singleton;
    repeat match goal with
           | Hc : _ && _ = true |- _ => apply andb_true_iff in Hc as [? ?]
           | Hc : negb _ = true |- _ => apply negb_true_iff in Hc
           | Hc : bool_decide _ = false |- _ => apply bool_decide_eq_false in Hc
           end;
    intuition (subst; eauto 10).
Qed.

Lemma cleanup_orphan_justified dry_run all_data st doc_id prev st' a :
  cleanup_orphan dry_run all_data st (doc_id, prev) = Ok st' ->
  a ∈ actions st' ->
  a ∈ actions st
  \/ (dict_mem doc_id all_data = false
      /\ exists f, a = RemoveOrphan doc_id f /\ e_filename prev = Some f).
Proof.
  intros Hok Hin. destruct (dict_mem doc_id all_data) eqn:Hmem.
  - unfold cleanup_orphan in Hok. rewrite Hmem in Hok. injection Hok as <-.
    by left.
  - destruct (cleanup_orphan_new_actions _ _ _ _ _ _ _ Hok Hin) as [?|?];
      [by left | by right].
Qed.

Lemma cleanup_justified dry_run all_data items a :
  forall st st',
    cleanup_orphans dry_run all_data items st = Ok st' ->
    a ∈ actions st' ->
    a ∈ actions st
    \/ exists k e f,
        (k, e) ∈ items /\ dict_mem k all_data = false
        /\ a = RemoveOrphan k f /\ e_filename e = Some f.
Proof.
  induction items as [|[k e] rest IH]; intros st st' Hok Hin.
  - injection Hok as <-. by left.
  - apply cleanup_orphans_cons in Hok as (st1 & Hstep & Hrest).
    destruct (IH _ _ Hrest Hin) as [Hin1|(k' & e' & f & Hin' & Hrest')].
    + destruct (cleanup_orphan_justified _ _ _ _ _ _ _ Hstep Hin1)
        as [Hin0|(Hmem & f & -> & Hf)]; [by left|].
      right. exists k, e, f. split; [left | done].
    + right. exists k', e', f. split; [by right | done].
Qed.

(** X19. In a run that completes, every action has its reason in the
    input: a document is written only if it is in the collection, under
    its assigned name and with its rendering; an old name is removed only
    for a document of the collection, and is the name its previous entry
    records, never the name about to be written; a transcript is saved
    only for utterances of the cache whose document is in the
    collection; an orphan is removed only for an entry of the previous
    state whose document left the collection, at the name it records. *)
Theorem every_action_is_justified :
  forall (all_data : dict meeting) (transcripts : dict (list utterance))
         (force dry_run : bool) (w : world) (r : report) (a : action),
    sync_from all_data transcripts force dry_run w = Completed r ->
    a ∈ actions (r_run r) ->
    action_justified all_data transcripts
                     (if negb force then load_sync_state w else []) a.
Proof.
  intros all_data transcripts force dry_run w r a. unfold sync_from.
  set (sync_state := if negb force then load_sync_state w else []).
  set (filenames := assign_filenames all_data).
  destruct (cleanup_orphans dry_run all_data sync_state _) as [st|e st] eqn:Hclean;
    [|done].
  intros [= <-]. cbn [r_run]. intros Hin.
  destruct (cleanup_justified _ _ _ _ _ _ Hclean Hin)
    as [Hin2|(k & e & f & Hk & Hmem & -> & Hf)];
    [|simpl; split; [done | by exists e]].
  clear Hclean Hin st. revert a Hin2.
  apply (fold_left_invariant
           (fun st => forall a, a ∈ actions st ->
                                action_justified all_data transcripts sync_state a)).
  { intros st [doc_id utterances] Hitem Hst a Ha.
    apply export_transcript_new_actions in Ha as [Ha|(data & Hget & _ & ->)];
      [by apply Hst|].
    simpl. by exists data, utterances. }
  apply (fold_left_invariant
           (fun st => forall a, a ∈ actions st ->
                                action_justified all_data transcripts sync_state a)).
  { intros st [doc_id data] Hitem Hst a Ha.
    apply sync_document_justified in Ha
      as [Ha|[->|(e & old & -> & Hget & Hold & Hne)]];
      [by apply Hst | simpl; by exists data | simpl; by exists data, e]. }
  intros a Ha. by apply elem_of_nil in Ha.
Qed.

(** X20. A document whose previous entry carries its version token is
    left alone by a run that is not forced: no action of the run is done
    for it, except saving its transcript. *)
Theorem unchanged_record_is_left_alone :
  forall (all_data : dict meeting) (transcripts : dict (list utterance))
         (dry_run : bool) (w : world) (r : report)
         (doc_id : string) (data : meeting) (prev : entry) (a : action),
    NoDup (dict_keys all_data) ->
    (doc_id, data) ∈ all_data ->
    dict_get doc_id (load_sync_state w) = Some prev ->
    e_updated_at prev = Some (m_updated_at data) ->
    sync_from all_data transcripts false dry_run w = Completed r ->
    a ∈ actions (r_run r) ->
    action_doc a = doc_id ->
    is_save_transcript a = true.
Proof.
  intros all_data transcripts dry_run w r doc_id data prev a
         Hnodup Hdoc Hprev Htoken.
  unfold sync_from. cbn [negb].
  set (sync_state := load_sync_state w) in *.
  set (filenames := assign_filenames all_data).
  destruct (cleanup_orphans dry_run all_data sync_state _) as [st|e st] eqn:Hclean;
    [|done].
  intros [= <-]. cbn [r_run]. intros Hin Ha.
  destruct (cleanup_justified _ _ _ _ _ _ Hclean Hin)
    as [Hin2|(k & e & f & Hk & Hmem & -> & Hf)].
  2:{ simpl in Ha. subst k. apply dict_mem_false in Hmem.
      rewrite (dict_get_NoDup _ _ _ Hnodup Hdoc) in Hmem. done. }
  clear Hclean Hin st. revert a Hin2 Ha.
  apply (fold_left_invariant
           (fun st => forall a, a ∈ actions st -> action_doc a = doc_id ->
                                is_save_transcript a = true)).
  { intros st [k utterances] _ Hst a Ha Hk.
    apply export_transcript_new_actions in Ha as [Ha|(d & _ & _ & ->)];
      [by apply Hst | done]. }
  apply (fold_left_invariant
           (fun st => forall a, a ∈ actions st -> action_doc a = doc_id ->
                                is_save_transcript a = true)).
  { intros st [k d] Hitem Hst a Ha Hk.
    destruct (decide (k = doc_id)) as [->|Hne].
    - assert (d = data) as ->.
      { pose proof (dict_get_NoDup _ _ _ Hnodup Hitem) as Hd.
        rewrite (dict_get_NoDup _ _ _ Hnodup Hdoc) in Hd. congruence. }
      rewrite (sync_document_unchanged _ _ _ _ _ _ _ Hprev Htoken) in Ha.
      by apply Hst.
    - apply sync_document_new_actions in Ha
        as [Ha|[->|(e & old & -> & _)]]; [by apply Hst | done..]. }
  intros a Ha. by apply elem_of_nil in Ha.
Qed.

(** ** When a run completes *)

Lemma cleanup_orphan_passes dry_run all_data st item :
  (exists st', cleanup_orphan dry_run all_data st item = Ok st')
  <-> orphan_passes dry_run all_data item.
Proof.
  unfold cleanup_orphan, orphan_passes, path_exists, os_remove.
  destruct item as [doc_id prev]. cbn [fst snd].
  destruct (dict_mem doc_id all_data); [split; eauto|].
  destruct (e_filename prev) as [f|]; simpl.
  - destruct (decide (f = "")) as [Hf|Hf], dry_run,
      (transcript_saved prev), (e_transcript_filename prev) as [tf|];
      simpl; try destruct (fs st !! f); simpl.
    all: split;
      [ intros [st' Hok];
        first
          [ discriminate Hok
          | right; split;
            [ exists f; split; [done|]; intros Hd;
              first [discriminate Hd | exact Hf]
            | intros Hs; first [discriminate Hs | by eexists] ] ]
      | intros [Hc|[(f' & Hf' & Hne) Htf]]; [discriminate Hc|];
        first [ by eexists
              | injection Hf' as <-; by destruct (Hne eq_refl)
              | by destruct (Htf eq_refl) as [? [=]] ] ].
  - split; [intros [st' Hok] | intros [Hc|[(f' & Hf' & _) _]]; done].
    destruct dry_run; done.
Qed.

Lemma cleanup_passes dry_run all_data items :
  forall st,
    (exists st', cleanup_orphans dry_run all_data items st = Ok st')
    <-> Forall (orphan_passes dry_run all_data) items.
Proof.
  induction items as [|item rest IH]; intros st.
  - split; [intros _; constructor | intros _; by eexists].
  - rewrite Forall_cons. split.
    + intros [st' Hok].
      apply cleanup_orphans_cons in Hok as (st1 & Hstep & Hrest). split.
      * apply (cleanup_orphan_passes dry_run all_data st). by eexists.
      * apply (IH st1). by eexists.
    + intros [Hitem Hrest].
      apply (cleanup_orphan_passes dry_run all_data st) in Hitem as [st1 Hstep].
      apply (IH st1) in Hrest as [st' Hrest].
      exists st'. simpl. by rewrite Hstep.
Qed.

(** X21. The directory holding regular files under plain names, a run
    completes exactly when the last loop passes every entry of the
    previous state: each entry whose document left the collection
    records a [filename] (for a run that is not dry, not the empty one)
    and, when its transcript is saved, a [transcript_filename]. With any
    other entry the run stops on an exception before the state is
    saved. *)
Theorem run_completes_iff_orphans_pass :
  forall (all_data : dict meeting) (transcripts : dict (list utterance))
         (force dry_run : bool) (w : world),
    (exists r, sync_from all_data transcripts force dry_run w = Completed r)
    <-> Forall (orphan_passes dry_run all_data)
               (if negb force then load_sync_state w else []).
Proof.
  intros all_data transcripts force dry_run w. unfold sync_from.
  set (sync_state := if negb force then load_sync_state w else []).
  set (filenames := assign_filenames all_data).
  set (st2 := fold_left (export_transcript dry_run all_data sync_state filenames)
                        transcripts _).
  rewrite <- (cleanup_passes dry_run all_data sync_state st2).
  destruct (cleanup_orphans dry_run all_data sync_state st2) as [st|e st].
  - split; intros _; by eexists.
  - split; by intros [? ?].
Qed.

End MoreSyncFacts.

(* ------------------------------------------------------------------ *)
(** * The collection built from the cache                              *)
(* ------------------------------------------------------------------ *)

Lemma add_folder_lookup (name : string) (doc_folders : gmap string (list string))
      (d did : string) :
  default [] (add_folder name doc_folders d !! did)
  = if decide (d = did) then default [] (doc_folders !! did) ++ [name]
    else default [] (doc_folders !! did).
Proof.
  unfold add_folder. destruct (decide (d = did)) as [->|Hne].
  - by rewrite lookup_insert_eq.
  - by rewrite lookup_insert_ne.
Qed.

Lemma add_folders_member (name : string) (doc_ids : list string) (did x : string) :
  forall doc_folders,
    x ∈ default [] (fold_left (add_folder name) doc_ids doc_folders !! did)
    <-> x ∈ default [] (doc_folders !! did) \/ (x = name /\ did ∈ doc_ids).
Proof.
  induction doc_ids as [|d doc_ids IH]; intros doc_folders.
  - simpl. split; [by left | intros [?|[_ Hin]]; [done|]].
    by apply elem_of_nil in Hin.
  - cbn [fold_left]. rewrite IH, add_folder_lookup, elem_of_cons.
    destruct (decide (d = did)) as [->|Hne].
    + rewrite elem_of_app, list_elem_of_singleton. intuition.
    + intuition congruence.
Qed.

Lemma collect_folders_member (metadata : dict (option string))
      (lists : dict (list string)) (did x : string) :
  forall doc_folders,
    x ∈ default []
          (fold_left
             (fun doc_folders '(list_id, doc_ids) =>
                let name := default None (dict_get list_id metadata) in
                if truthy name
                then fold_left (add_folder (default "" name)) doc_ids doc_folders
                else doc_folders)
             lists doc_folders !! did)
    <-> x ∈ default [] (doc_folders !! did)
        \/ exists list_id doc_ids,
            (list_id, doc_ids) ∈ lists /\ did ∈ doc_ids
            /\ dict_get list_id metadata = Some (Some x) /\ x <> "".
Proof.
  induction lists as [|[list_id doc_ids] lists IH]; intros doc_folders.
  - simpl. split; [by left | intros [?|(? & ? & Hin & _)]; [done|]].
    by apply elem_of_nil in Hin.
  - cbn [fold_left]. rewrite IH. clear IH. cbn zeta.
    assert (forall l d, (l, d) ∈ (list_id, doc_ids) :: lists
                        <-> (l = list_id /\ d = doc_ids) \/ (l, d) ∈ lists)
      as Hcons.
    { intros l d. rewrite elem_of_cons. split; intros [Hhd|?]; auto.
      - left. by injection Hhd.
      - left. destruct Hhd as [-> ->]. done. }
    destruct (dict_get list_id metadata) as [[name|]|] eqn:Hget; simpl.
    + destruct name as [|c name]; simpl.
      * split.
        -- intros [?|(l & d & ? & ? & ? & ?)]; [by left|].
           right. exists l, d. rewrite Hcons. auto.
        -- intros [?|(l & d & [[-> ->]|?]%Hcons & ? & Hl & Hx)]; [by left| |].
           ++ rewrite Hget in Hl. injection Hl as <-. done.
           ++ right. by exists l, d.
      * rewrite add_folders_member. split.
        -- intros [[?|[-> Hin]]|(l & d & ? & ? & ? & ?)].
           ++ by left.
           ++ right. exists list_id, doc_ids. rewrite Hcons. auto.
           ++ right. exists l, d. rewrite Hcons. auto.
        -- intros [?|(l & d & [[-> ->]|?]%Hcons & Hin & Hl & Hx)].
           ++ by left; left.
           ++ rewrite Hget in Hl. injection Hl as <-. left. by right.
           ++ right. by exists l, d.
    + split.
      * intros [?|(l & d & ? & ? & ? & ?)]; [by left|].
        right. exists l, d. rewrite Hcons. auto.
      * intros [?|(l & d & [[-> ->]|?]%Hcons & ? & Hl & Hx)]; [by left| |].
        -- rewrite Hget in Hl. done.
        -- right. by exists l, d.
    + split.
      * intros [?|(l & d & ? & ? & ? & ?)]; [by left|].
        right. exists l, d. rewrite Hcons. auto.
      * intros [?|(l & d & [[-> ->]|?]%Hcons & ? & Hl & Hx)]; [by left| |].
        -- rewrite Hget in Hl. done.
        -- right. by exists l, d.
Qed.

(** X22. The folders of a document are the non-empty titles of the lists
    of the cache that hold the document, and they come in ascending
    order. *)
Theorem folders_are_the_sorted_list_titles :
  forall (state : cache_state) (did : string),
    let folders := default [] (collect_folders state !! did) in
    StronglySorted String.le folders
    /\ forall name,
        name ∈ folders
        <-> exists list_id doc_ids,
            (list_id, doc_ids) ∈ documentLists state /\ did ∈ doc_ids
            /\ dict_get list_id (documentListsMetadata state) = Some (Some name)
            /\ name <> "".
Proof.
  intros state did. unfold collect_folders. cbn zeta.
  rewrite lookup_fmap.
  pose proof (collect_folders_member (documentListsMetadata state)
                (documentLists state) did) as Hmember.
  cbn zeta in Hmember.
  destruct (fold_left _ (documentLists state) ∅ !! did) as [l|] eqn:Hl; simpl.
  - split; [apply (StronglySorted_merge_sort _) |]. intros name.
    rewrite merge_sort_Permutation.
    specialize (Hmember name ∅). rewrite Hl in Hmember. simpl in Hmember.
    rewrite Hmember, lookup_empty. simpl. split; [|by right].
    intros [Hin|?]; [by apply elem_of_nil in Hin | done].
  - split; [constructor|]. intros name.
    specialize (Hmember name ∅). rewrite Hl in Hmember. simpl in Hmember.
    rewrite Hmember, lookup_empty. simpl. split; [|by right].
    intros [Hin|?]; [by apply elem_of_nil in Hin | done].
Qed.

Section CollectionFacts.
Context `{Datetime}.

Lemma collect_step_other (panels : dict (dict panel))
      (doc_folders : gmap string (list string)) (docs : dict document) (k : string) :
  k ∉ dict_keys docs ->
  forall all_data : dict meeting,
    dict_get k
      (fold_left
         (fun all_data '(doc_id, doc) =>
            if truthy (doc_deleted_at doc) || default false (doc_was_trashed doc)
            then all_data
            else dict_set doc_id
                   (extract_meeting_data doc panels (doc_folders !! doc_id))
                   all_data)
         docs all_data)
    = dict_get k all_data.
Proof.
  unfold dict_keys. induction docs as [|[doc_id doc] docs IH]; intros Hk all_data;
    [done|].
  rewrite fmap_cons in Hk. apply not_elem_of_cons in Hk as [Hne Hk].
  cbn [fold_left]. rewrite IH by done.
  destruct (_ || _); [done|]. by apply dict_get_set_ne.
Qed.

(** X23. The collection holds the documents of the cache that are neither
    deleted nor trashed, each with the data extracted from it and its
    folders; a document with a [deleted_at] that is not empty or with
    [was_trashed] set is left out. *)
Theorem deleted_documents_are_left_out :
  forall (state : cache_state) (doc_id : string) (doc : document),
    NoDup (dict_keys (documents state)) ->
    (doc_id, doc) ∈ documents state ->
    dict_get doc_id (collect_all_data state)
    = if truthy (doc_deleted_at doc) || default false (doc_was_trashed doc)
      then None
      else Some (extract_meeting_data doc (documentPanels state)
                                      (collect_folders state !! doc_id)).
Proof.
  intros state doc_id doc. unfold collect_all_data. cbn zeta.
  generalize (collect_folders state) as doc_folders.
  generalize (documentPanels state) as panels. intros panels doc_folders.
  assert (dict_get doc_id ([] : dict meeting) = None) as Hnone by done.
  revert Hnone. generalize ([] : dict meeting) as all_data.
  unfold dict_keys.
  induction (documents state) as [|[k d] docs IH]; intros all_data Hnone Hnodup Hin.
  - by apply elem_of_nil in Hin.
  - rewrite fmap_cons in Hnodup. apply NoDup_cons in Hnodup as [Hk Hnodup].
    cbn [fold_left]. apply elem_of_cons in Hin as [[= <- <-]|Hin].
    + rewrite collect_step_other by done.
      destruct (_ || _); [done | apply dict_get_set_eq].
    + apply IH; [|done..].
      assert (k <> doc_id) as Hne.
      { intros ->. apply Hk. apply list_elem_of_fmap. by exists (doc_id, doc). }
      simpl. destruct (truthy (doc_deleted_at d) || _); [done|].
      by rewrite dict_get_set_ne.
Qed.

End CollectionFacts.

(* ------------------------------------------------------------------ *)
(** * The directory after a real run                                   *)
(* ------------------------------------------------------------------ *)

Section DirectoryFacts.
Context `{Datetime}.

Lemma sync_document_replay force sync_state filenames fs0 st item :
  fs st = fold_left apply_action (actions st) fs0 ->
  let st' := sync_document force false sync_state filenames st item in
  fs st' = fold_left apply_action (actions st') fs0.
Proof.
  intros Hst. unfold sync_document. destruct item as [doc_id data].
  repeat case_match; simpl; rewrite ?fold_left_app; simpl; by rewrite ?Hst.
Qed.

Lemma export_transcript_replay all_data sync_state filenames fs0 st item :
  fs st = fold_left apply_action (actions st) fs0 ->
  let st' := export_transcript false all_data sync_state filenames st item in
  fs st' = fold_left apply_action (actions st') fs0.
Proof.
  intros Hst. unfold export_transcript. destruct item as [doc_id utterances].
  repeat case_match; simpl; rewrite ?fold_left_app; simpl; by rewrite ?Hst.
Qed.

Lemma cleanup_orphan_replay all_data fs0 st item st' :
  cleanup_orphan false all_data st item = Ok st' ->
  fs st = fold_left apply_action (actions st) fs0 ->
  fs st' = fold_left apply_action (actions st') fs0.
Proof.
  unfold cleanup_orphan, os_remove. destruct item as [doc_id prev].
  intros Hok Hst.
  repeat case_match; simplify_eq; simpl; rewrite ?fold_left_app; simpl;
    by rewrite ?Hst.
Qed.

Lemma cleanup_replay all_data fs0 items :
  forall st st',
    cleanup_orphans false all_data items st = Ok st' ->
    fs st = fold_left apply_action (actions st) fs0 ->
    fs st' = fold_left apply_action (actions st') fs0.
Proof.
  induction items as [|item rest IH]; intros st st' Hok Hst.
  - by injection Hok as <-.
  - apply cleanup_orphans_cons in Hok as (st1 & Hstep & Hrest).
    eapply IH; [done|]. by eapply cleanup_orphan_replay.
Qed.

(** X24. After a real run that completes, the directory is the one the
    run found with the actions of the run done in their order: nothing
    else is written or removed. *)
Theorem directory_is_the_replay_of_the_actions :
  forall (all_data : dict meeting) (transcripts : dict (list utterance))
         (force : bool) (w : world) (r : report),
    sync_from all_data transcripts force false w = Completed r ->
    files (r_world r) = fold_left apply_action (actions (r_run r)) (files w).
Proof.
  intros all_data transcripts force w r. unfold sync_from.
  set (sync_state := if negb force then load_sync_state w else []).
  set (filenames := assign_filenames all_data).
  destruct (cleanup_orphans false all_data sync_state _) as [st|e st] eqn:Hclean;
    [|done].
  intros [= <-]. cbn [r_run r_world files].
  apply (cleanup_replay _ _ _ _ _ Hclean).
  apply (fold_left_invariant
           (fun st => fs st = fold_left apply_action (actions st) (files w))).
  { intros st' item _. apply export_transcript_replay. }
  apply (fold_left_invariant
           (fun st => fs st = fold_left apply_action (actions st) (files w)));
    [|done].
  intros st' item _. apply sync_document_replay.
Qed.

Lemma cleanup_orphan_only_removes all_data st item st' g :
  cleanup_orphan false all_data st item = Ok st' ->
  fs st !! g = None -> fs st' !! g = None.
Proof.
  unfold cleanup_orphan, os_remove. destruct item as [doc_id prev].
  intros Hok Hg.
  repeat case_match; simplify_eq; simpl;
    first [assumption | apply lookup_delete_None; by right].
Qed.

Lemma cleanup_orphan_gone all_data st doc_id prev st' f :
  cleanup_orphan false all_data st (doc_id, prev) = Ok st' ->
  dict_mem doc_id all_data = false ->
  e_filename prev = Some f ->
  fs st' !! f = None.
Proof.
  unfold cleanup_orphan, path_exists, os_remove. intros Hok Hmem Hf.
  rewrite Hmem, Hf in Hok. simpl in Hok.
  repeat case_match; simplify_eq; simpl;
    first [assumption | apply lookup_delete_eq].
Qed.

Lemma cleanup_gone all_data items doc_id prev f :
  (doc_id, prev) ∈ items ->
  dict_mem doc_id all_data = false ->
  e_filename prev = Some f ->
  forall st st',
    cleanup_orphans false all_data items st = Ok st' ->
    fs st' !! f = None.
Proof.
  intros Hin Hmem Hf.
  assert (forall items st st',
             cleanup_orphans false all_data items st = Ok st' ->
             fs st !! f = None -> fs st' !! f = None) as Hkeep.
  { clear. induction items as [|item rest IH]; intros st st' Hok Hnone.
    - by injection Hok as <-.
    - apply cleanup_orphans_cons in Hok as (st1 & Hstep & Hrest).
      eapply IH; [done|]. by eapply cleanup_orphan_only_removes. }
  induction items as [|item rest IH]; intros st st' Hok.
  - by apply elem_of_nil in Hin.
  - apply cleanup_orphans_cons in Hok as (st1 & Hstep & Hrest).
    apply elem_of_cons in Hin as [<-|Hin].
    + apply (Hkeep _ _ _ Hrest). by eapply cleanup_orphan_gone.
    + by eapply IH.
Qed.

(** X25. After a real run that completes, the file recorded for a
    document that left the collection is not in the directory, whether
    it was there before the run or was written during the run for a
    document of the collection that is assigned the same name. *)
Theorem orphan_file_is_gone :
  forall (all_data : dict meeting) (transcripts : dict (list utterance))
         (w : world) (r : report) (doc_id : string) (prev : entry) (f : string),
    (doc_id, prev) ∈ load_sync_state w ->
    dict_mem doc_id all_data = false ->
    e_filename prev = Some f ->
    sync_from all_data transcripts false false w = Completed r ->
    files (r_world r) !! f = None.
Proof.
  intros all_data transcripts w r doc_id prev f Hin Hmem Hf.
  unfold sync_from. cbn [negb].
  destruct (cleanup_orphans false all_data (load_sync_state w) _) as [st|e st]
    eqn:Hclean; [|done].
  intros [= <-]. cbn [r_run r_world files].
  by apply (cleanup_gone _ _ _ _ _ Hin Hmem Hf _ _ Hclean).
Qed.

End DirectoryFacts.

(* ------------------------------------------------------------------ *)
(** * The properties on examples                                       *)
(* ------------------------------------------------------------------ *)

Import SampleDatetime.

Example slugify_sample :
  slugify "  Weekly Sync!! __ (Q1) -- plan  " = "weekly-sync-q1-plan".
Proof. reflexivity. Qed.

Example slugify_punctuation_only : slugify "?!" = "".
Proof. reflexivity. Qed.

Example nested_list_rendering :
  tiptap_to_markdown (Some Examples.nested_list) 0 None
  = "- outer" +:+ nl +:+ "  1. first" +:+ nl +:+ "  2. second".
Proof. reflexivity. Qed.

Example html_fallback_sample :
  html_to_basic_markdown "<h3 class=x>Title</h3><ul><li>one</li><li>two</li></ul>"
  = "### Title" +:+ nl +:+ "- one" +:+ nl +:+ "- two".
Proof. reflexivity. Qed.

Example three_records_filenames :
  map (fun item => assign_filenames Examples.three_records !! item.1)
      Examples.three_records
  = [Some "2026-01-06_standup_aaaaaaaa.md";
     Some "2026-01-06_standup_bbbbbbbb.md";
     Some "2026-01-05_weekly-sync.md"].
Proof. vm_compute. reflexivity. Qed.

(** A record is created, then found unchanged, then updated, then removed
    with its file; the summaries of the four runs. *)
Example four_runs :
  match sync_from [("a1", Examples.weekly "v1")] [] false false Examples.fresh_world
  with
  | Completed r1 =>
      r_summary r1 = "Sync complete: 1 created, 0 updated, 0 unchanged, 0 removed"
      /\ match sync_from [("a1", Examples.weekly "v1")] [] false false (r_world r1),
               sync_from [("a1", Examples.weekly "v2")] [] false false (r_world r1)
         with
         | Completed r2, Completed r3 =>
             r_summary r2
             = "Sync complete: 0 created, 0 updated, 1 unchanged, 0 removed"
             /\ r_summary r3
                = "Sync complete: 0 created, 1 updated, 0 unchanged, 0 removed"
             /\ match sync_from [] [] false false (r_world r3) with
                | Completed r4 =>
                    r_summary r4
                    = "Sync complete: 0 created, 0 updated, 0 unchanged, 1 removed"
                    /\ r_world r4 = World ∅ (Some [])
                | Crashed _ _ => False
                end
         | _, _ => False
         end
  | Crashed _ _ => False
  end.
Proof. vm_compute. repeat split. Qed.

(** C8, the claim as stated fails: a document whose title is the empty
    string is not extracted with the title "Untitled Meeting". *)
Lemma empty_title_is_kept :
  ~ (forall (doc : document) panels folders,
        doc_title doc = Some "" ->
        m_title (extract_meeting_data doc panels folders) = "Untitled Meeting").
Proof.
  intros Hclaim.
  specialize (Hclaim (Examples.bare_document (Some "")) [] None eq_refl).
  vm_compute in Hclaim. discriminate.
Qed.

(** C1, the claim as stated fails, in both parts. The state says that the
    transcript of [a1] is saved and that its notes are in a file with
    another name, which is in the directory; the forced run writes the
    transcript again and leaves the old file. *)
Lemma forced_run_does_not_consult_state :
  ~ (forall all_data transcripts w r doc_id prev,
        dict_get doc_id (load_sync_state w) = Some prev ->
        transcript_saved prev = true ->
        sync_from all_data transcripts true false w = Completed r ->
        forall f c, SaveTranscript doc_id f c ∉ actions (r_run r))
  /\ ~ (forall all_data transcripts w r doc_id prev old,
           dict_get doc_id (load_sync_state w) = Some prev ->
           e_filename prev = Some old ->
           assign_filenames all_data !! doc_id <> Some old ->
           path_exists (files w) old = true ->
           sync_from all_data transcripts true false w = Completed r ->
           RemoveOld doc_id old ∈ actions (r_run r)).
Proof.
  assert (exists r c,
             sync_from [("a1", Examples.weekly "v2")] Examples.weekly_transcripts
                       true false (Examples.saved_world "2026-01-04_old-title.md")
             = Completed r
             /\ actions (r_run r)
                = [WriteDoc "a1" Examples.weekly_file
                            (build_markdown (Examples.weekly "v2"));
                   SaveTranscript "a1" Examples.weekly_transcript_file c])
    as (r & c & Hrun & Hacts).
  { eexists _, _. split; vm_compute; reflexivity. }
  split; intros Hclaim.
  - apply (Hclaim _ _ (Examples.saved_world "2026-01-04_old-title.md") r "a1" _
                  eq_refl eq_refl Hrun Examples.weekly_transcript_file c).
    rewrite Hacts. right; left.
  - specialize (Hclaim [("a1", Examples.weekly "v2")] Examples.weekly_transcripts
                       (Examples.saved_world "2026-01-04_old-title.md") r
                       "a1" _ "2026-01-04_old-title.md" eq_refl eq_refl).
    rewrite Hacts in Hclaim.
    assert (RemoveOld "a1" "2026-01-04_old-title.md"
              ∈ [WriteDoc "a1" Examples.weekly_file
                          (build_markdown (Examples.weekly "v2"));
                 SaveTranscript "a1" Examples.weekly_transcript_file c]) as Habs.
    { apply Hclaim; [by vm_compute | by vm_compute | exact Hrun]. }
    apply elem_of_cons in Habs as [Habs|Habs]; [discriminate|].
    apply elem_of_cons in Habs as [Habs|Habs]; [discriminate|].
    by apply elem_of_nil in Habs.
Qed.

Lemma forced_run_ignores_previous_state_witness :
  NoDup (dict_keys Examples.weekly_transcripts)
  /\ exists r,
      sync_from [("a1", Examples.weekly "v2")] Examples.weekly_transcripts
                true false (Examples.saved_world "2026-01-04_old-title.md")
      = Completed r
      /\ forall a, a ∈ actions (r_run r) -> is_delete a = false.
Proof.
  assert (NoDup (dict_keys Examples.weekly_transcripts)) as Hnodup
      by by_computation.
  split; [exact Hnodup|].
  destruct (forced_run_ignores_previous_state
              [("a1", Examples.weekly "v2")] Examples.weekly_transcripts
              false (Examples.saved_world "2026-01-04_old-title.md") Hnodup)
    as (r & Hrun & Hnodelete & _).
  exists r. split; [exact Hrun | exact Hnodelete].
Defined.



(** C2: the code departs from the claim for a record whose version token
    changed. The state says that the transcript of [a1] is saved; the
    utterances are still in the cache. When [a1] is unchanged the run does
    nothing; when its [updated_at] changed, the entry of [a1] is rebuilt
    without [transcript_saved] and the transcript is written again. *)
Theorem changed_record_rewrites_saved_transcript :
  match sync_from [("a1", Examples.weekly "v1")] Examples.weekly_transcripts
                  false false (Examples.saved_world Examples.weekly_file),
        sync_from [("a1", Examples.weekly "v2")] Examples.weekly_transcripts
                  false false (Examples.saved_world Examples.weekly_file)
  with
  | Completed unchanged, Completed changed =>
      actions (r_run unchanged) = []
      /\ exists c,
          actions (r_run changed)
          = [WriteDoc "a1" Examples.weekly_file (build_markdown (Examples.weekly "v2"));
             SaveTranscript "a1" Examples.weekly_transcript_file c]
  | _, _ => False
  end.
Proof. vm_compute. split; [reflexivity | eexists; reflexivity]. Qed.

(** C5: the code departs from the claim when the first run leaves a
    tombstone. The first run writes [a1], removes the notes of [gone] and
    keeps a tombstone for it; the second run, on the state and the
    directory the first one left, reads the tombstone in the last loop,
    finds no [filename], takes the output directory itself for the file
    and stops on [os.remove] before the state is saved. *)
Theorem second_run_stops_on_tombstone :
  match sync_from [("a1", Examples.weekly "v1")] [] false false Examples.orphan_world
  with
  | Completed first =>
      state_file (r_world first)
      = Some [("a1", Entry (Some "v1") (Some Examples.weekly_file) None None);
              ("gone", tombstone Examples.gone_transcript_file)]
      /\ sync_from [("a1", Examples.weekly "v1")] [] false false (r_world first)
         = Crashed (OSError "") (r_world first)
  | Crashed _ _ => False
  end.
Proof. vm_compute. split; reflexivity. Qed.

(** C6: the code departs from the claim in the counts. For a new record
    the dry run announces the same action as the run, but its summary
    counts 0 created where the run counts 1: [created] and [updated] are
    only incremented when the file is written. *)
Theorem dry_run_counts_nothing_created :
  match sync_from [("a1", Examples.weekly "v1")] [] false true Examples.fresh_world,
        sync_from [("a1", Examples.weekly "v1")] [] false false Examples.fresh_world
  with
  | Completed dry, Completed real =>
      actions (r_run dry) = actions (r_run real)
      /\ created (r_run dry) = 0 /\ created (r_run real) = 1
      /\ r_summary dry
         = "[DRY RUN] Sync complete: 0 created, 0 updated, 0 unchanged, 0 removed"
      /\ r_summary real
         = "Sync complete: 1 created, 0 updated, 0 unchanged, 0 removed"
      /\ r_world dry = Examples.fresh_world
  | _, _ => False
  end.
Proof. vm_compute. repeat split. Qed.

Lemma transcript_file_is_no_notes_file_witness :
  NoDup (dict_keys Examples.three_records)
  /\ has_underscore (m_date (Examples.standup "aaaaaaaa-1")) = false
  /\ assign_filenames Examples.three_records !! "aaaaaaaa-1"
     = Some "2026-01-06_standup_aaaaaaaa.md"
  /\ transcript_filename_of (Examples.standup "aaaaaaaa-1")
     <> "2026-01-06_standup_aaaaaaaa.md".
Proof.
  assert (NoDup (dict_keys Examples.three_records)) as Hnodup by by_computation.
  assert (assign_filenames Examples.three_records !! "aaaaaaaa-1"
          = Some "2026-01-06_standup_aaaaaaaa.md") as Hf
      by (vm_compute; reflexivity).
  split; [exact Hnodup|]. split; [reflexivity|]. split; [exact Hf|].
  apply (transcript_file_is_no_notes_file Examples.three_records "aaaaaaaa-1"
           _ _ Hnodup); [|reflexivity|exact Hf].
  apply (forall_members (fun _ d => has_underscore (m_date d) = false)).
  by_computation.
Defined.

Lemma yaml_escape_injective_witness :
  yaml_escape "a: b" = yaml_escape "a: b" /\ "a: b" = "a: b".
Proof.
  split; [reflexivity|]. apply (yaml_escape_injective "a: b" "a: b"). reflexivity.
Defined.

Lemma blank_transcript_is_empty_witness :
  Forall blank_utterance [Examples.blank; Samples.silent]
  /\ format_transcript [Examples.blank; Samples.silent] = "".
Proof.
  assert (Forall blank_utterance [Examples.blank; Samples.silent]) as Hblank
      by (repeat constructor).
  split; [exact Hblank|]. exact (blank_transcript_is_empty _ Hblank).
Defined.

Lemma transcript_starts_with_speaker_witness :
  Forall blank_utterance [Examples.blank]
  /\ ~ blank_utterance Samples.remote
  /\ exists tail,
      format_transcript ([Examples.blank] ++ Samples.remote :: [Examples.hello])
      = "**Other:** " +:+ tail.
Proof.
  assert (Forall blank_utterance [Examples.blank]) as Hblank
      by (repeat constructor).
  assert (~ blank_utterance Samples.remote) as Hremote by (by vm_compute).
  split; [exact Hblank|]. split; [exact Hremote|].
  exact (transcript_starts_with_speaker [Examples.blank] [Examples.hello]
           Samples.remote Hblank Hremote).
Defined.

Lemma unparseable_calendar_start_gives_now_witness :
  doc_google_calendar_event Samples.odd_start_document = Some Samples.odd_start_event
  /\ fromisoformat "tomorrow" = None
  /\ m_date (extract_meeting_data Samples.odd_start_document [] None) = "2026-01-01".
Proof.
  split; [reflexivity|]. split; [reflexivity|].
  destruct (unparseable_calendar_start_gives_now
              Samples.odd_start_document [] None Samples.odd_start_event "tomorrow"
              eq_refl eq_refl ltac:(discriminate) eq_refl) as [Hdate _].
  exact Hdate.
Defined.

Lemma first_structured_panel_is_the_summary_witness :
  Forall (fun item : string * panel => panel_content item.2 = None)
         [("p1", Samples.markup_panel)]
  /\ summary_of_panels
       ([("p1", Samples.markup_panel)] ++ ("p2", Samples.tree_panel)
          :: [("p3", Samples.markup_panel)]) ""
     = "## Decisions".
Proof.
  assert (Forall (fun item : string * panel => panel_content item.2 = None)
                 [("p1", Samples.markup_panel)]) as Hbefore
      by (repeat constructor).
  split; [exact Hbefore|].
  exact (first_structured_panel_is_the_summary
           [("p1", Samples.markup_panel)] [("p3", Samples.markup_panel)]
           "p2" Samples.tree_panel Samples.heading_tree "" Hbefore eq_refl).
Defined.

Lemma html_fallback_on_plain_text_witness :
  str_existsb (is_char "<") "  decided: ship it  " = false
  /\ html_to_basic_markdown "  decided: ship it  " = "decided: ship it".
Proof.
  split; [reflexivity|].
  exact (html_fallback_on_plain_text "  decided: ship it  " eq_refl).
Defined.

Lemma summary_counts_agree_with_actions_witness :
  exists r,
    sync_from Examples.three_records Examples.weekly_transcripts false false
              Examples.fresh_world = Completed r
    /\ counts_agree false (length Examples.three_records) (r_run r).
Proof.
  assert (exists r,
             sync_from Examples.three_records Examples.weekly_transcripts
                       false false Examples.fresh_world = Completed r)
    as [r Hrun].
  { eexists. vm_compute. reflexivity. }
  exists r. split; [exact Hrun|].
  exact (summary_counts_agree_with_actions _ _ _ _ _ _ Hrun).
Defined.

Lemma old_file_is_removed_just_before_the_write_witness :
  exists r,
    sync_from [("a1", Examples.weekly "v2")] [] false false
              (Examples.saved_world "2026-01-04_old-title.md") = Completed r
    /\ removals_paired None (actions (r_run r)) = true.
Proof.
  assert (exists r,
             sync_from [("a1", Examples.weekly "v2")] [] false false
                       (Examples.saved_world "2026-01-04_old-title.md")
             = Completed r)
    as [r Hrun].
  { eexists. vm_compute. reflexivity. }
  exists r. split; [exact Hrun|].
  exact (old_file_is_removed_just_before_the_write _ _ _ _ _ _ Hrun).
Defined.

Lemma state_keys_are_documents_and_tombstones_witness :
  exists r,
    sync_from Examples.three_records [] false false Examples.orphan_world
    = Completed r
    /\ is_Some (dict_get "gone" (new_sync_state (r_run r))).
Proof.
  assert (exists r,
             sync_from Examples.three_records [] false false Examples.orphan_world
             = Completed r)
    as [r Hrun].
  { eexists. vm_compute. reflexivity. }
  exists r. split; [exact Hrun|].
  apply (state_keys_are_documents_and_tombstones _ _ _ _ _ _ Hrun "gone").
  right. exists Examples.gone_saved_entry.
  split; [left | split; reflexivity].
Defined.

Lemma state_records_every_version_token_witness :
  NoDup (dict_keys Examples.three_records)
  /\ ("a1", Examples.weekly "v1") ∈ Examples.three_records
  /\ exists r,
      sync_from Examples.three_records Examples.weekly_transcripts false false
                Examples.fresh_world = Completed r
      /\ records_token (Examples.weekly "v1")
                       (dict_get "a1" (new_sync_state (r_run r))).
Proof.
  assert (NoDup (dict_keys Examples.three_records)) as Hnodup by by_computation.
  assert (("a1", Examples.weekly "v1") ∈ Examples.three_records) as Hin
      by (right; right; left).
  assert (exists r,
             sync_from Examples.three_records Examples.weekly_transcripts
                       false false Examples.fresh_world = Completed r)
    as [r Hrun].
  { eexists. vm_compute. reflexivity. }
  split; [exact Hnodup|]. split; [exact Hin|].
  exists r. split; [exact Hrun|].
  exact (state_records_every_version_token _ _ _ _ _ _ _ _ Hnodup Hin Hrun).
Defined.

Lemma every_action_is_justified_witness :
  exists r,
    sync_from [] [] false false Examples.orphan_world = Completed r
    /\ RemoveOrphan "gone" Examples.gone_file ∈ actions (r_run r)
    /\ action_justified [] [] (load_sync_state Examples.orphan_world)
                        (RemoveOrphan "gone" Examples.gone_file).
Proof.
  assert (exists r,
             sync_from [] [] false false Examples.orphan_world = Completed r
             /\ RemoveOrphan "gone" Examples.gone_file ∈ actions (r_run r))
    as (r & Hrun & Hin).
  { eexists. split; [vm_compute; reflexivity | by_computation]. }
  exists r. split; [exact Hrun|]. split; [exact Hin|].
  exact (every_action_is_justified _ _ _ _ _ _ _ Hrun Hin).
Defined.

Lemma unchanged_record_is_left_alone_witness :
  exists r a,
    sync_from [("a1", Examples.weekly "v1")] Examples.weekly_transcripts
              false false Samples.exported_world = Completed r
    /\ a ∈ actions (r_run r)
    /\ action_doc a = "a1"
    /\ is_save_transcript a = true.
Proof.
  assert (exists r a,
             sync_from [("a1", Examples.weekly "v1")] Examples.weekly_transcripts
                       false false Samples.exported_world = Completed r
             /\ a ∈ actions (r_run r) /\ action_doc a = "a1")
    as (r & a & Hrun & Hin & Hdoc).
  { eexists. eexists. split; [vm_compute; reflexivity|].
    split; [left | reflexivity]. }
  exists r, a. split; [exact Hrun|]. split; [exact Hin|]. split; [exact Hdoc|].
  apply (unchanged_record_is_left_alone
           [("a1", Examples.weekly "v1")] Examples.weekly_transcripts
           false Samples.exported_world r "a1" (Examples.weekly "v1")
           (Entry (Some "v1") (Some Examples.weekly_file) None None) a);
    [by_computation | left | reflexivity | reflexivity
     | exact Hrun | exact Hin | exact Hdoc].
Defined.

Lemma deleted_documents_are_left_out_witness :
  NoDup (dict_keys (documents Samples.small_cache))
  /\ ("d1", Samples.deleted_document) ∈ documents Samples.small_cache
  /\ dict_get "d1" (collect_all_data Samples.small_cache) = None.
Proof.
  assert (NoDup (dict_keys (documents Samples.small_cache))) as Hnodup
      by by_computation.
  assert (("d1", Samples.deleted_document) ∈ documents Samples.small_cache)
    as Hin by (right; left).
  split; [exact Hnodup|]. split; [exact Hin|].
  exact (deleted_documents_are_left_out Samples.small_cache "d1"
           Samples.deleted_document Hnodup Hin).
Defined.

Lemma unchanged_record_transcript_not_rewritten_witness :
  exists r,
    sync_from [("a1", Examples.weekly "v1")] Examples.weekly_transcripts
              false false (Examples.saved_world Examples.weekly_file)
    = Completed r
    /\ forall f c, SaveTranscript "a1" f c ∉ actions (r_run r).
Proof.
  assert (exists r,
             sync_from [("a1", Examples.weekly "v1")] Examples.weekly_transcripts
                       false false (Examples.saved_world Examples.weekly_file)
             = Completed r)
    as [r Hrun].
  { eexists. vm_compute. reflexivity. }
  exists r. split; [exact Hrun|].
  apply (unchanged_record_transcript_not_rewritten
           [("a1", Examples.weekly "v1")] Examples.weekly_transcripts
           false (Examples.saved_world Examples.weekly_file) r "a1"
           (Examples.weekly "v1")
           (Entry (Some "v1") (Some Examples.weekly_file) (Some true)
                  (Some Examples.weekly_transcript_file)));
    [by_computation | left | reflexivity | reflexivity | reflexivity | exact Hrun].
Defined.

Lemma second_run_is_noop_without_tombstone_witness :
  exists first second,
    sync_from Examples.three_records Examples.weekly_transcripts false false
              Examples.fresh_world = Completed first
    /\ sync_from Examples.three_records Examples.weekly_transcripts false false
                 (r_world first) = Completed second
    /\ actions (r_run second) = []
    /\ files (r_world second) = files (r_world first).
Proof.
  assert (NoDup (dict_keys Examples.three_records)) as Hnodup by by_computation.
  assert (exists first,
             sync_from Examples.three_records Examples.weekly_transcripts
                       false false Examples.fresh_world = Completed first
             /\ Forall (fun k => k ∈ dict_keys Examples.three_records)
                       (dict_keys (new_sync_state (r_run first))))
    as (first & Hfirst & Hkeys).
  { eexists. split; [vm_compute; reflexivity | by_computation]. }
  destruct (second_run_is_noop_without_tombstone
              Examples.three_records Examples.weekly_transcripts
              Examples.fresh_world first Hnodup Hfirst
              (proj1 (Forall_forall _ _) Hkeys))
    as (second & Hsecond & Hnone & Hfiles & _).
  exists first, second. repeat split; assumption.
Defined.

Lemma directory_is_the_replay_of_the_actions_witness :
  exists r,
    sync_from [("a1", Examples.weekly "v2")] Examples.weekly_transcripts
              false false (Examples.saved_world "2026-01-04_old-title.md")
    = Completed r
    /\ files (r_world r)
       = fold_left apply_action (actions (r_run r))
                   (files (Examples.saved_world "2026-01-04_old-title.md")).
Proof.
  assert (exists r,
             sync_from [("a1", Examples.weekly "v2")] Examples.weekly_transcripts
                       false false (Examples.saved_world "2026-01-04_old-title.md")
             = Completed r)
    as [r Hrun].
  { eexists. vm_compute. reflexivity. }
  exists r. split; [exact Hrun|].
  exact (directory_is_the_replay_of_the_actions _ _ _ _ _ Hrun).
Defined.

Lemma orphan_file_is_gone_witness :
  exists r,
    sync_from [("a1", Examples.weekly "v1")] [] false false
              Samples.renamed_id_world = Completed r
    /\ WriteDoc "a1" Examples.weekly_file (build_markdown (Examples.weekly "v1"))
       ∈ actions (r_run r)
    /\ files (r_world r) !! Examples.weekly_file = None.
Proof.
  assert (exists r,
             sync_from [("a1", Examples.weekly "v1")] [] false false
                       Samples.renamed_id_world = Completed r
             /\ WriteDoc "a1" Examples.weekly_file
                         (build_markdown (Examples.weekly "v1"))
                ∈ actions (r_run r))
    as (r & Hrun & Hwritten).
  { eexists. split; [vm_compute; reflexivity | by_computation]. }
  exists r. split; [exact Hrun|]. split; [exact Hwritten|].
  apply (orphan_file_is_gone
           [("a1", Examples.weekly "v1")] [] Samples.renamed_id_world r "gone"
           (Entry (Some "v1") (Some Examples.weekly_file) None None));
    [left | reflexivity | reflexivity | exact Hrun].
Defined.

Lemma slugify_alphabet_and_length_witness :
  str_forallb is_ascii "  Q3 Planning: Budget & Hiring!  " = true
  /\ String.length (slugify "  Q3 Planning: Budget & Hiring!  ") <= 80
  /\ str_forallb slug_char (slugify "  Q3 Planning: Budget & Hiring!  ") = true.
Proof.
  split; [reflexivity|].
  apply (slugify_alphabet_and_length "  Q3 Planning: Budget & Hiring!  ").
  reflexivity.
Defined.

Lemma duration_needs_start_and_end_witness :
  subtraction_defined Samples.timed_document
  /\ m_duration_minutes (extract_meeting_data Samples.timed_document [] None)
     = Some 45%Z.
Proof.
  assert (subtraction_defined Samples.timed_document) as Hdefined.
  { intros ev s e _ _ _. reflexivity. }
  split; [exact Hdefined|].
  apply (duration_needs_start_and_end Samples.timed_document [] None 45%Z Hdefined).
  exists Samples.timed_event, "2026-01-05T10:00:00", "2026-01-05T10:45:00".
  repeat split; reflexivity.
Defined.
